(** * Data-Driven Decaf: a shallow embedding of [data-driven-decaf.go]

    The Go handler reads its configuration from the process environment,
    runs [select * from coffee] on one of three database backends, folds the
    rows into a [DDDBondPayload] and posts it to the Bond service.

    Go values are modelled as follows.
    - [string] is Go's byte string: a Rocq [string] (a list of bytes).
    - [int] is the 64-bit signed integer of the deployment target, a [Z]
      with its wrap-around written out ([wrap_int]).
    - [error] is the text of [err.Error()]; [option error] is Go's nilable
      error, [None] standing for [nil].
    - the process environment is a finite map from names to values.
    - everything outside the process (drivers, dialers, the Bond service) is
      a field of [World]; each call to it is recorded in a trace.
    - a run-time panic (an index out of range, a failed type assertion, a
      nil dereference) ends the computation with [Panic].

    The first part holds the embedding and the notions the properties are
    stated with, the second part the properties, one theorem for each of
    the claims C1 to C10 about the handler. *)

From Stdlib Require Import ZArith Lia Ascii String List.
From stdpp Require Import base option list strings gmap.

Local Open Scope Z_scope.

(** ** Go's [int] *)

Definition int_min : Z := - 2 ^ 63.
Definition int_max : Z := 2 ^ 63 - 1.

Definition in_int (z : Z) : Prop := int_min <= z <= int_max.

Definition in_intb (z : Z) : bool := (int_min <=? z) && (z <=? int_max).

(** Two's complement wrap-around of a mathematical integer into [int]. *)
Definition wrap_int (z : Z) : Z := (z + 2 ^ 63) mod 2 ^ 64 - 2 ^ 63.

Definition int_add (a b : Z) : Z := wrap_int (a + b).

(** ** The parts of [strings] and [strconv] the handler calls *)

Definition error : Type := string.

Definition dot : ascii := "."%char.

(** [strings.Split(s, sep)] for a one-byte separator: the fields between
    the occurrences of [sep], in order.  The result is never empty. *)
Fixpoint strings_Split (s : string) (sep : ascii) : list string :=
  match s with
  | EmptyString => [EmptyString]
  | String c s' =>
      if Ascii.eqb c sep then EmptyString :: strings_Split s' sep
      else match strings_Split s' sep with
           | [] => [String c EmptyString]
           | f :: fs => String c f :: fs
           end
  end.

Definition is_digit (c : ascii) : bool :=
  (48 <=? Z.of_nat (nat_of_ascii c)) && (Z.of_nat (nat_of_ascii c) <=? 57).

Definition digit_val (c : ascii) : Z := Z.of_nat (nat_of_ascii c) - 48.

(** Value of a run of decimal digits read left to right, [None] when a
    byte is not a digit. *)
Fixpoint digits_value (s : string) (acc : Z) : option Z :=
  match s with
  | EmptyString => Some acc
  | String c s' =>
      if is_digit c then digits_value s' (acc * 10 + digit_val c) else None
  end.

(** [strconv.Atoi]: an optional sign, then one or more decimal digits, the
    value within [int].  The callers only test the error against [nil], so
    a syntax error and a range error are both [None]. *)
Definition strconv_Atoi (s : string) : option Z :=
  match s with
  | EmptyString => None
  | String c rest =>
      let '(neg, body) :=
        if Ascii.eqb c "-"%char then (true, rest)
        else if Ascii.eqb c "+"%char then (false, rest)
        else (false, s) in
      match body with
      | EmptyString => None
      | _ =>
          match digits_value body 0 with
          | None => None
          | Some v =>
              let n := if neg then - v else v in
              if in_intb n then Some n else None
          end
      end
  end.

(** ** The payload and what the outside world is asked to do *)

Record DDDBondPayload : Type := mkPayload {
  MagicCoffee : string;
  Total : Z;
  Project : string;
  DB : string
}.

(** The zero value of the named result [result DDDBondPayload]. *)
Definition zero_payload : DDDBondPayload := mkPayload "" 0 "" "".

Definition set_MagicCoffee (r : DDDBondPayload) (s : string) : DDDBondPayload :=
  mkPayload s (Total r) (Project r) (DB r).

Definition add_Total (r : DDDBondPayload) (p : Z) : DDDBondPayload :=
  mkPayload (MagicCoffee r) (int_add (Total r) p) (Project r) (DB r).

Definition set_Project_DB (r : DDDBondPayload) (proj db : string) : DDDBondPayload :=
  mkPayload (MagicCoffee r) (Total r) proj db.

(** JSON objects as [encoding/json] builds them from the struct tags: the
    members in field order.  Every field is tagged [omitempty], so a field
    holding its zero value yields no member.  A [JString] holds the Go
    string handed to the encoder; how the encoder writes it as bytes (its
    escaping, and U+FFFD in place of invalid UTF-8) is not modelled, so two
    members that differ here may be written alike. *)
Inductive jvalue : Type :=
  | JString (s : string)
  | JInt (z : Z).

Definition jobject : Type := list (string * jvalue).

Definition omitempty_string (key s : string) : jobject :=
  if String.eqb s "" then [] else [(key, JString s)].

Definition omitempty_int (key : string) (z : Z) : jobject :=
  if z =? 0 then [] else [(key, JInt z)].

Definition json_Marshal (r : DDDBondPayload) : jobject :=
  omitempty_string "magic_coffee" (MagicCoffee r)
  ++ omitempty_int "total" (Total r)
  ++ omitempty_string "project" (Project r)
  ++ omitempty_string "db" (DB r).

Definition jkeys (o : jobject) : list string := map fst o.

(** Arguments of a [log.Printf] call, kept unformatted. *)
Inductive log_arg : Type :=
  | AStr (s : string)
  | AErr (e : option error)
  | ABytes (b : string)
  | APayload (r : DDDBondPayload).

(** Calls that leave the handler, in the order they are made. *)
Inductive event : Type :=
  | EvLog (format : string) (args : list log_arg)
  | EvParseConfig (dsn : string)
  | EvAlloyNewDialer
  | EvCloudSQLNewDialer
  | EvDialerClose
  | EvPoolConnect (dsn target : string)
  | EvPoolClose
  | EvPoolQuery (query : string)
  | EvSqlOpen (driver dsn : string)
  | EvDbQuery (query : string)
  | EvRowsClose
  | EvNewRequest (url : string)
  | EvClientDo (url : string) (body : jobject).

(** An event that opens a database handle or sends it a query. *)
Definition is_db_event (e : event) : bool :=
  match e with
  | EvPoolConnect _ _ | EvPoolQuery _ | EvSqlOpen _ _ | EvDbQuery _ => true
  | _ => false
  end.

(** Any call to a database library, dialers and config parsing included. *)
Definition is_db_library_event (e : event) : bool :=
  match e with
  | EvLog _ _ | EvNewRequest _ | EvClientDo _ _ => false
  | _ => true
  end.

(** ** A writer monad with panics

    A computation yields the events it emitted and either a value or a Go
    run-time panic, after which nothing more of the function body runs. *)
Inductive outcome (A : Type) : Type :=
  | Ret (a : A)
  | Panic (msg : string).
Arguments Ret {A} a.
Arguments Panic {A} msg.

Definition M (A : Type) : Type := list event * outcome A.

Definition ret {A} (a : A) : M A := ([], Ret a).

Definition bind {A B} (m : M A) (k : A -> M B) : M B :=
  match m with
  | (t, Ret a) => let '(t', r) := k a in (t ++ t', r)
  | (t, Panic msg) => (t, Panic msg)
  end.

Definition emit (e : event) : M unit := ([e], Ret tt).

Definition panic {A} (msg : string) : M A := ([], Panic msg).

(** [defer f()]: the event of [f] follows the body, panic or not. *)
Definition defer {A} (e : event) (body : M A) : M A :=
  let '(t, r) := body in (t ++ [e], r).

Definition log_Printf (format : string) (args : list log_arg) : M unit :=
  emit (EvLog format args).

Definition trace_of {A} (m : M A) : list event := fst m.
Definition outcome_of {A} (m : M A) : outcome A := snd m.

Declare Scope go_scope.
Delimit Scope go_scope with go.
Notation "x <- m ;; k" := (bind m (fun x => k))
  (at level 100, m at next level, right associativity) : go_scope.
Notation "m ;;; k" := (bind m (fun _ => k))
  (at level 100, right associativity) : go_scope.
Local Open Scope go_scope.

(** ** Result rows

    The MySQL path scans each row into [(i, bean, price)]; [rows.Scan] may
    fail.  The Postgres path reads each row as a slice of untyped values;
    [rows.Values] may fail, and indexing or asserting the type of a value
    may panic. *)
Inductive mysql_row : Type :=
  | Scanned (i : Z) (bean price : string)
  | ScanFails (e : error).

Inductive value : Type :=
  | VString (s : string)
  | VInt (z : Z)
  | VNull.

Inductive pg_row : Type :=
  | Values (vs : list value)
  | ValuesFails (e : error).

(** [xs[0]] on a slice of strings. *)
Definition index0 (xs : list string) : M string :=
  match xs with
  | x :: _ => ret x
  | [] => panic "index out of range [0] with length 0"
  end.

(** [values[k].(string)] *)
Definition string_at (vs : list value) (k : nat) : M string :=
  match vs !! k with
  | Some (VString s) => ret s
  | Some _ => panic "interface conversion: interface {} is not string"
  | None => panic "index out of range"
  end.

(** The [for rows.Next()] loop of [DDDMySQLConnect]. *)
Fixpoint mysql_rows_loop (rows : list mysql_row) (result : DDDBondPayload)
  : M (DDDBondPayload * option error) :=
  match rows with
  | [] => ret (result, None)
  | ScanFails e :: _ =>
      log_Printf "query failed: %v\n" [AErr (Some e)] ;;;
      ret (result, Some e)
  | Scanned i bean price :: rest =>
      let result := if i =? 51 then set_MagicCoffee result bean else result in
      field <- index0 (strings_Split price dot) ;;
      match strconv_Atoi field with
      | None =>
          log_Printf "Could not convert %v to an integer\n" [AStr price] ;;;
          mysql_rows_loop rest result
      | Some p => mysql_rows_loop rest (add_Total result p)
      end
  end.

(** The [for rows.Next()] loop of [DDDPostgresRows]; the counter [i] is
    returned with the result so that it can be spoken about. *)
Fixpoint pg_rows_loop (rows : list pg_row) (result : DDDBondPayload) (i : Z)
  : M (DDDBondPayload * Z * option error) :=
  match rows with
  | [] => ret (result, i, None)
  | ValuesFails e :: _ =>
      log_Printf "query failed: %v\n" [AErr (Some e)] ;;;
      ret (result, i, Some e)
  | Values values :: rest =>
      result <- (if i =? 50
                 then (name <- string_at values 1 ;; ret (set_MagicCoffee result name))
                 else ret result) ;;
      price <- string_at values 2 ;;
      field <- index0 (strings_Split price dot) ;;
      match strconv_Atoi field with
      | None =>
          log_Printf "Could not convert %v to an integer\n" [AStr price] ;;;
          pg_rows_loop rest result i
      | Some p => pg_rows_loop rest (add_Total result p) (int_add i 1)
      end
  end.

(** ** The world outside the process *)

Record DBConnectionInfo : Type := mkInfo {
  User : string;
  Pass : string;
  DBName : string;
  DBRegion : string;
  DBCluster : string;
  DBInstance : string;
  ProjectID : string
}.

Definition zero_info : DBConnectionInfo := mkInfo "" "" "" "" "" "" "".

(** [*pgxpool.Config]: the connection string it was parsed from and the
    target its [DialFunc] dials, once one has been installed. *)
Record pgx_Config : Type := mkConfig {
  ConnString : string;
  DialTarget : option string
}.

(** What the Bond service answers to [client.Do]: a transport error, or a
    status code with what [io.ReadAll] gets out of the body. *)
Definition http_reply : Type := error + (Z * (string * option error)).

Record World : Type := mkWorld {
  environ : gmap string string;
  (** [cfg.ProjectID] and [bondCfg.BondURL], set at start-up *)
  cfg_ProjectID : string;
  bondCfg_BondURL : string;
  pgxpool_ParseConfig : string -> option error;
  alloydbconn_NewDialer : option error;
  cloudsqlconn_NewDialer : option error;
  pgxpool_ConnectConfig : pgx_Config -> option error;
  pool_Query : pgx_Config -> string -> error + list pg_row;
  sql_Open : string -> string -> option error;
  db_Query : string -> string -> error + list mysql_row;
  http_NewRequest : string -> option error;
  client_Do : string -> jobject -> http_reply
}.

(** [os.Getenv]: the value, or the empty string when the name is unset. *)
Definition os_Getenv (w : World) (key : string) : string :=
  default "" (environ w !! key).

Definition newline : string := String (ascii_of_nat 10) EmptyString.

(** ** [dbConnectionInfo] *)

Definition err_missing_env : error := "ensure required environment variables are set".

Definition is_empty (s : string) : bool := String.eqb s "".

Definition dbConnectionInfo (w : World) : DBConnectionInfo * option error :=
  let user := os_Getenv w "DB_USER" in
  let pass := os_Getenv w "DB_PASS" in
  let dbName := os_Getenv w "DB_NAME" in
  let dbRegion := os_Getenv w "DB_REGION" in
  let dbCluster := os_Getenv w "DB_CLUSTER" in
  let dbInstance := os_Getenv w "DB_INSTANCE" in
  let dbProject := os_Getenv w "DB_PROJECT" in
  if is_empty user || is_empty pass || is_empty dbInstance || is_empty dbName
  then (zero_info, Some err_missing_env)
  else
    let dbProject := if is_empty dbProject then cfg_ProjectID w else dbProject in
    (mkInfo user pass dbName dbRegion dbCluster dbInstance dbProject, None).

Definition defaultQuery : string := "select * from coffee".

(** ** The three connection paths *)

Definition mysql_dsn (info : DBConnectionInfo) : string :=
  User info +:+ ":" +:+ Pass info +:+ "@cloudsql-mysql(" +:+ ProjectID info
  +:+ ":" +:+ DBRegion info +:+ ":" +:+ DBInstance info +:+ ")/" +:+ DBName info.

Definition DDDMySQLConnect (w : World) : M (DDDBondPayload * option error) :=
  let result := zero_payload in
  let '(info, err) := dbConnectionInfo w in
  match err with
  | Some _ =>
      log_Printf "Error: Cannot load database info: %v\n" [AErr err] ;;;
      ret (result, err)
  | None =>
      let dsn := mysql_dsn info in
      emit (EvSqlOpen "cloudsql-mysql" dsn) ;;;
      match sql_Open w "cloudsql-mysql" dsn with
      | Some e =>
          log_Printf "failed to connect: %v\n" [AErr (Some e)] ;;;
          ret (result, Some e)
      | None =>
          emit (EvDbQuery defaultQuery) ;;;
          match db_Query w dsn defaultQuery with
          | inl e =>
              log_Printf "query failed: %v\n" [AErr (Some e)] ;;;
              ret (result, Some e)
          | inr rows => defer EvRowsClose (mysql_rows_loop rows result)
          end
      end
  end.

Definition pg_dsn (info : DBConnectionInfo) : string :=
  "user=" +:+ User info +:+ " password=" +:+ Pass info +:+ " dbname="
  +:+ DBName info +:+ " sslmode=disable".

(** The config is [nil] ([None]) whenever an error is returned. *)
Definition DDDPostgresConnection (w : World) : M (option pgx_Config * option error) :=
  let '(info, err) := dbConnectionInfo w in
  match err with
  | Some _ =>
      log_Printf "Error: Cannot load database info: %v\n" [AErr err] ;;;
      ret (None, err)
  | None =>
      let dsn := pg_dsn info in
      emit (EvParseConfig dsn) ;;;
      match pgxpool_ParseConfig w dsn with
      | Some e =>
          log_Printf "failed to parse pgx config: %v\n" [AErr (Some e)] ;;;
          ret (None, Some e)
      | None => ret (Some (mkConfig dsn None), None)
      end
  end.

Definition DDDPostgresRows (w : World) (pool : pgx_Config)
  : M (DDDBondPayload * option error) :=
  let result := zero_payload in
  emit (EvPoolQuery defaultQuery) ;;;
  match pool_Query w pool defaultQuery with
  | inl e =>
      log_Printf "query failed: %v\n" [AErr (Some e)] ;;;
      ret (result, Some e)
  | inr rows =>
      defer EvRowsClose
        (r <- pg_rows_loop rows result 0 ;;
         ret (r.1.1, r.2))
  end.

(** [c.ConnConfig.DialFunc = ...] followed by [pgxpool.ConnectConfig] and
    the row loop; writing through a [nil] config panics. *)
Definition connect_and_query (w : World) (c : option pgx_Config) (target : string)
  : M (DDDBondPayload * option error) :=
  match c with
  | None => panic "invalid memory address or nil pointer dereference"
  | Some c =>
      let c := mkConfig (ConnString c) (Some target) in
      emit (EvPoolConnect (ConnString c) target) ;;;
      match pgxpool_ConnectConfig w c with
      | Some e =>
          log_Printf "failed to connect: %v\n" [AErr (Some e)] ;;;
          ret (zero_payload, Some e)
      | None => defer EvPoolClose (DDDPostgresRows w c)
      end
  end.

Definition err_cluster_required : error := "expected db cluster to be set".

Definition alloy_target (info : DBConnectionInfo) : string :=
  "projects/" +:+ ProjectID info +:+ "/locations/" +:+ DBRegion info
  +:+ "/clusters/" +:+ DBCluster info +:+ "/instances/" +:+ DBInstance info.

Definition DDDAlloyConnect (w : World) : M (DDDBondPayload * option error) :=
  let result := zero_payload in
  r <- DDDPostgresConnection w ;;
  let '(c, err) := r in
  match err with
  | Some _ =>
      log_Printf "failed to parse pgx config: %v\n" [AErr err] ;;;
      ret (result, err)
  | None =>
      emit EvAlloyNewDialer ;;;
      match alloydbconn_NewDialer w with
      | Some e =>
          log_Printf "failed to initialize dialer: %v\n" [AErr (Some e)] ;;;
          ret (result, Some e)
      | None =>
          defer EvDialerClose
            (let '(info, err) := dbConnectionInfo w in
             match err with
             | Some _ =>
                 log_Printf "Error: Cannot load database info: %v\n" [AErr err] ;;;
                 ret (result, err)
             | None =>
                 if is_empty (DBCluster info) then
                   log_Printf "Error: DB_CLUSTER not set (required for alloydb): %v\n"
                     [AErr err] ;;;
                   ret (result, Some err_cluster_required)
                 else connect_and_query w c (alloy_target info)
             end)
      end
  end.

Definition cloudsql_target (info : DBConnectionInfo) : string :=
  ProjectID info +:+ ":" +:+ DBRegion info +:+ ":" +:+ DBInstance info.

(** The error of [DDDPostgresConnection] is overwritten by the next
    assignment to [err] before it is looked at. *)
Definition DDDPostgresConnect (w : World) : M (DDDBondPayload * option error) :=
  let result := zero_payload in
  r <- DDDPostgresConnection w ;;
  let c := r.1 in
  emit EvCloudSQLNewDialer ;;;
  match cloudsqlconn_NewDialer w with
  | Some e =>
      log_Printf "failed to initialize dialer: %v\n" [AErr (Some e)] ;;;
      ret (result, Some e)
  | None =>
      defer EvDialerClose
        (let '(info, err) := dbConnectionInfo w in
         match err with
         | Some _ =>
             log_Printf "Error: Cannot load database info: %v\n" [AErr err] ;;;
             ret (result, err)
         | None => connect_and_query w c (cloudsql_target info)
         end)
  end.

(** ** [sendJson] and the handler *)

Definition err_expected_200 : error := "expected 200 response".

(** The returned bytes are [nil] ([None]) on every path that returns before
    [io.ReadAll].  [json.Marshal] cannot fail on a [DDDBondPayload]. *)
Definition sendJson (w : World) (endpoint : string) (body : DDDBondPayload)
  : M (option string * option error) :=
  let bodyBytes := json_Marshal body in
  let url := bondCfg_BondURL w +:+ endpoint in
  match http_NewRequest w url with
  | Some e => ret (None, Some e)
  | None =>
      emit (EvClientDo url bodyBytes) ;;;
      match client_Do w url bodyBytes with
      | inl e => ret (None, Some e)
      | inr (StatusCode, (read, read_err)) =>
          if (StatusCode <? 200) || (StatusCode >? 299)
          then ret (None, Some err_expected_200)
          else ret (Some read, read_err)
      end
  end.

Inductive resp_body : Type :=
  | TextBody (s : string)
  | JsonBody (o : jobject).

Record response : Type := mkResponse {
  status : Z;
  body : resp_body
}.

Definition StatusInternalServerError : Z := 500.
Definition StatusOK : Z := 200.

(** [http.Error(w, msg, code)] writes [msg] and a newline as plain text. *)
Definition http_Error (msg : string) (code : Z) : response :=
  mkResponse code (TextBody (msg +:+ newline)).

(** [json.NewEncoder(w).Encode(v)] with no status set before it. *)
Definition json_Encode (v : DDDBondPayload) : response :=
  mkResponse StatusOK (JsonBody (json_Marshal v)).

(** From [result.Project = cfg.ProjectID] to the end of [dddHandler]. *)
Definition verify_and_respond (w : World) (result : DDDBondPayload) : M response :=
  let result := set_Project_DB result (cfg_ProjectID w) (os_Getenv w "DB_TYPE") in
  log_Printf "Result: %+v" [APayload result] ;;;
  r <- sendJson w "/v1/data_driven_decaf/verify" result ;;
  let '(res, err) := r in
  match err with
  | Some e =>
      match res with
      | Some b => log_Printf "Data-Driven Decaf: Error: Body: %v" [AStr b]
      | None => ret tt
      end ;;;
      log_Printf "Data-Driven Decaf: Error: %v\n" [AErr err] ;;;
      ret (http_Error ("Data-Driven Decaf Error: " +:+ e) StatusInternalServerError)
  | None =>
      log_Printf "Response: %v\n" [ABytes (default "" res)] ;;;
      ret (json_Encode result)
  end.

(** The body shared by the three recognised cases of the [switch]. *)
Definition after_connect (w : World) (r : DDDBondPayload * option error) : M response :=
  let '(result, err) := r in
  match err with
  | Some e =>
      log_Printf "Data-Driven Decaf: Error: %v\n" [AErr err] ;;;
      ret (http_Error ("Error: " +:+ e) StatusInternalServerError)
  | None => verify_and_respond w result
  end.

Definition dddHandler (w : World) : M response :=
  let db_type := os_Getenv w "DB_TYPE" in
  if String.eqb db_type "ALLOY_DB" then
    r <- DDDAlloyConnect w ;; after_connect w r
  else if String.eqb db_type "CLOUD_SQL_POSTGRES" then
    r <- DDDPostgresConnect w ;; after_connect w r
  else if String.eqb db_type "CLOUD_SQL_MYSQL" then
    r <- DDDMySQLConnect w ;; after_connect w r
  else
    log_Printf "Data-Driven Decaf: Unknown DB type %v\n" [AStr db_type] ;;;
    ret (http_Error ("Error: Unknown DB type " +:+ db_type) StatusInternalServerError).

(** ** Sample worlds *)

Definition coffee_env (db_type cluster : string) : gmap string string :=
  <["DB_TYPE" := db_type]> (<["DB_CLUSTER" := cluster]> (<["DB_USER" := "barista"]>
    (<["DB_PASS" := "s3cret"]> (<["DB_NAME" := "shop"]> (<["DB_REGION" := "europe-west1"]>
      (<["DB_INSTANCE" := "primary"]> ∅)))))).

Definition bond_ok : string -> jobject -> http_reply :=
  fun _ _ => inr (200, ("ok", None)).

Definition sample_world (db_type cluster : string)
    (pg : list pg_row) (my : list mysql_row) (bond : string -> jobject -> http_reply)
  : World :=
  mkWorld (coffee_env db_type cluster) "cymbal-project" "https://bond.example"
    (fun _ => None) None None (fun _ => None) (fun _ _ => inr pg)
    (fun _ _ => None) (fun _ _ => inr my) (fun _ => None) bond.

(** ** Notions used to state the properties *)

(** The bytes of [s] before its first [.], all of [s] when it has none. *)
Fixpoint before_dot (s : string) : string :=
  match s with
  | EmptyString => EmptyString
  | String c s' => if Ascii.eqb c dot then EmptyString else String c (before_dot s')
  end.


(** A row of the [coffee] table with the column types both loops expect. *)
Record coffee : Type := mkCoffee {
  coffee_id : Z;
  coffee_name : string;
  coffee_price : string
}.

Definition to_mysql (c : coffee) : mysql_row :=
  Scanned (coffee_id c) (coffee_name c) (coffee_price c).

Definition to_pg (c : coffee) : pg_row :=
  Values [VInt (coffee_id c); VString (coffee_name c); VString (coffee_price c)].

Definition rename (c : coffee) (n : string) : coffee :=
  mkCoffee (coffee_id c) n (coffee_price c).

(** What [strconv.Atoi(strings.Split(price, ".")[0])] yields for a price. *)
Definition parse_price (price : string) : option Z := strconv_Atoi (before_dot price).

Definition price_ok (c : coffee) : bool :=
  match parse_price (coffee_price c) with Some _ => true | None => false end.

Definition count_ok (cs : list coffee) : Z := Z.of_nat (length (filter (fun c => price_ok c = true) cs)).

(** Sum of the integer parts of the prices that parse. *)
Definition sum_prices (cs : list coffee) : Z :=
  foldr (fun c acc =>
           match parse_price (coffee_price c) with Some p => p + acc | None => acc end)
        0 cs.

(** The rows scanned before the first failing [rows.Scan]. *)
Fixpoint scanned_prefix (rows : list mysql_row) : list coffee :=
  match rows with
  | Scanned i bean price :: rest => mkCoffee i bean price :: scanned_prefix rest
  | _ => []
  end.

(** Name of the last row whose id column is 51, [""] when there is none. *)
Definition last_with_id_51 (cs : list coffee) : string :=
  match last (filter (fun c => coffee_id c = 51) cs) with
  | Some c => coffee_name c
  | None => ""
  end.

(** Integer literals: an optional sign and a non-empty run of digits,
    valued by position. *)
Inductive sign : Type := NoSign | Plus | Minus.

Definition sign_text (s : sign) : string :=
  match s with NoSign => "" | Plus => "+" | Minus => "-" end.

Definition signed (s : sign) (v : Z) : Z :=
  match s with Minus => - v | _ => v end.

Fixpoint all_digits (s : string) : bool :=
  match s with
  | EmptyString => true
  | String c s' => is_digit c && all_digits s'
  end.

Fixpoint decimal_value (s : string) : Z :=
  match s with
  | EmptyString => 0
  | String c s' => digit_val c * 10 ^ Z.of_nat (String.length s') + decimal_value s'
  end.

Definition int_literal (s : sign) (ds : string) : string := sign_text s +:+ ds.

(** The aggregate the Postgres path returns for the rows [cs], and the one
    the MySQL path returns, the queries having succeeded. *)
Definition pg_aggregate (cs : list coffee) : outcome (DDDBondPayload * Z * option error) :=
  outcome_of (pg_rows_loop (map to_pg cs) zero_payload 0).

Definition mysql_aggregate (cs : list coffee) : outcome (DDDBondPayload * option error) :=
  outcome_of (mysql_rows_loop (map to_mysql cs) zero_payload).

(** [DDDPostgresRows] returns the result and the error, not the counter. *)
Definition drop_counter (o : outcome (DDDBondPayload * Z * option error))
  : outcome (DDDBondPayload * option error) :=
  match o with
  | Ret r => Ret (r.1.1, r.2)
  | Panic msg => Panic msg
  end.

Definition sentinel_of {A} (o : outcome (DDDBondPayload * A)) : option string :=
  match o with Ret r => Some (MagicCoffee r.1) | Panic _ => None end.

(** The sentinel rule read by position, as one would expect it: the
    sentinel is the name of the row at index 50 of what the Postgres query
    returns, at index 51 of what the MySQL query returns. *)
Definition sentinel_at_index_pg : Prop :=
  forall (w : World) (pool : pgx_Config) (rows : list coffee) (row : coffee),
    pool_Query w pool defaultQuery = inr (map to_pg rows) ->
    rows !! 50%nat = Some row ->
    sentinel_of (outcome_of (DDDPostgresRows w pool)) = Some (coffee_name row).

Definition sentinel_at_index_mysql : Prop :=
  forall (w : World) (info : DBConnectionInfo) (rows : list coffee) (row : coffee),
    dbConnectionInfo w = (info, None) ->
    sql_Open w "cloudsql-mysql" (mysql_dsn info) = None ->
    db_Query w (mysql_dsn info) defaultQuery = inr (map to_mysql rows) ->
    rows !! 51%nat = Some row ->
    sentinel_of (outcome_of (DDDMySQLConnect w)) = Some (coffee_name row).

(** "The sentinel is not the 51st row": the aggregate is the same whatever
    that row is called. *)
Definition ignores_51st_name (first : list coffee) (row : coffee) (rest : list coffee) : Prop :=
  forall n : string,
    pg_aggregate (first ++ rename row n :: rest) = pg_aggregate (first ++ row :: rest).

(** The sentinel skips the 51st row as soon as one of the first 51 rows has
    a price that does not parse. *)
Definition bad_price_skips_51st : Prop :=
  forall (first : list coffee) (row : coffee) (rest : list coffee),
    length first = 50%nat ->
    Exists (fun c => price_ok c = false) (first ++ [row]) ->
    ignores_51st_name first row rest.

(** ** Sample result sets *)

Definition house (n : nat) (from : Z) : list coffee :=
  map (fun k => mkCoffee (from + Z.of_nat k) "House" "3.00") (seq 0 n).

(** 52 rows, the first with a price that does not parse. *)
Definition rows_bad_first : list coffee :=
  mkCoffee 0 "Decaf" "n/a" :: house 49 1
  ++ [mkCoffee 50 "Kona" "3.00"; mkCoffee 51 "Java" "3.00"].

(** 52 rows numbered from 1, as an auto-increment key numbers them. *)
Definition rows_from_one : list coffee :=
  house 50 1 ++ [mkCoffee 51 "Kona" "3.00"; mkCoffee 52 "Java" "3.00"].

(** 51 rows, only the last with a price that does not parse. *)
Definition rows_bad_last : list coffee :=
  house 50 0 ++ [mkCoffee 50 "Kona" "n/a"].


(** An AlloyDB deployment without DB_CLUSTER whose dialer cannot start. *)
Definition world_no_credentials : World :=
  mkWorld (coffee_env "ALLOY_DB" "") "cymbal-project" "https://bond.example"
    (fun _ => None) (Some "could not find default credentials") None (fun _ => None)
    (fun _ _ => inr []) (fun _ _ => None) (fun _ _ => inr []) (fun _ => None) bond_ok.

(** [needle] occurs in [s]. *)
Fixpoint has_substring (needle s : string) : bool :=
  String.prefix needle s
  || match s with
     | EmptyString => false
     | String _ s' => has_substring needle s'
     end.

Definition body_text (r : response) : string :=
  match body r with TextBody s => s | JsonBody _ => "" end.

(** The log line that prints the body of a failed verification. *)
Definition is_body_log (e : event) : bool :=
  match e with
  | EvLog format _ => String.eqb format "Data-Driven Decaf: Error: Body: %v"
  | _ => false
  end.

(** The Bond service answering 503 with a body. *)
Definition bond_503 : string -> jobject -> http_reply :=
  fun _ _ => inr (503, ("bond is overloaded", None)).

Definition verify_url (w : World) : string :=
  bondCfg_BondURL w +:+ "/v1/data_driven_decaf/verify".

(** ** Start-up: [initBond] and [DDDInit] *)

Definition defaultBondURL : string := "https://bond-service-l5xebjflvq-ew.a.run.app".

Record bondConfig : Type := mkBondConfig {
  BondURL : string
}.

(** [initBond]: the value it stores in the global [bondCfg]. *)
Definition initBond (w : World) : bondConfig :=
  let url := os_Getenv w "BOND_SERVICE_URL" in
  let url := if is_empty url then defaultBondURL else url in
  mkBondConfig url.

(** What [DDDInit] does, in order: a call to [RegisterDriver] with what it
    answered, a run of the cleanup function a registration handed back, a
    log line. *)
Inductive init_event : Type :=
  | Register (driver : string) (answer : option error)
  | Cleanup (driver : string)
  | InitLog (format : string) (e : error).

(** [DDDInit], given what the two [RegisterDriver] calls answer.  A
    registration that succeeds hands back a cleanup function, which is
    deferred: it runs when [DDDInit] returns. *)
Definition DDDInit (pgxv4_RegisterDriver mysql_RegisterDriver : string -> option error)
  : list init_event * option error :=
  match pgxv4_RegisterDriver "alloydb" with
  | Some e =>
      ([Register "alloydb" (Some e); InitLog "failed to parse pgx config: %v\n" e], Some e)
  | None =>
      let '(t, err) :=
        match mysql_RegisterDriver "cloudsql-mysql" with
        | Some e =>
            ([Register "cloudsql-mysql" (Some e);
              InitLog "failed to parse pgx config: %v\n" e],
             Some e)
        | None => ([Register "cloudsql-mysql" None; Cleanup "cloudsql-mysql"], None)
        end in
      (Register "alloydb" None :: t ++ [Cleanup "alloydb"], err)
  end.

(** The drivers registered with success whose cleanup has not run, after a
    run of events. *)
Fixpoint live_drivers (t : list init_event) (live : list string) : list string :=
  match t with
  | [] => live
  | Register d None :: t' => live_drivers t' (d :: live)
  | Register _ (Some _) :: t' => live_drivers t' live
  | Cleanup d :: t' => live_drivers t' (filter (fun x => x <> d) live)
  | InitLog _ _ :: t' => live_drivers t' live
  end.

(** ** More notions for the properties *)

Definition is_log (e : event) : bool :=
  match e with EvLog _ _ => true | _ => false end.

Definition is_bond_post (e : event) : bool :=
  match e with EvClientDo _ _ => true | _ => false end.

(** The same world with another environment, or another Bond service. *)
Definition with_environ (w : World) (env : gmap string string) : World :=
  mkWorld env (cfg_ProjectID w) (bondCfg_BondURL w) (pgxpool_ParseConfig w)
    (alloydbconn_NewDialer w) (cloudsqlconn_NewDialer w) (pgxpool_ConnectConfig w)
    (pool_Query w) (sql_Open w) (db_Query w) (http_NewRequest w) (client_Do w).

Definition with_client_Do (w : World) (f : string -> jobject -> http_reply) : World :=
  mkWorld (environ w) (cfg_ProjectID w) (bondCfg_BondURL w) (pgxpool_ParseConfig w)
    (alloydbconn_NewDialer w) (cloudsqlconn_NewDialer w) (pgxpool_ConnectConfig w)
    (pool_Query w) (sql_Open w) (db_Query w) (http_NewRequest w) f.

(** A reply with a status in 200..299 whose body is read without error. *)
Definition reply_ok (r : http_reply) : Prop :=
  match r with
  | inr (code, (_, None)) => 200 <= code <= 299
  | _ => False
  end.

(** The rows whose price parses, in the order they are returned. *)
Definition parsed_rows (cs : list coffee) : list coffee :=
  filter (fun c => price_ok c = true) cs.

(** The connect function the [switch] of [dddHandler] selects. *)
Definition selected_connect (w : World) : option (M (DDDBondPayload * option error)) :=
  let db_type := os_Getenv w "DB_TYPE" in
  if String.eqb db_type "ALLOY_DB" then Some (DDDAlloyConnect w)
  else if String.eqb db_type "CLOUD_SQL_POSTGRES" then Some (DDDPostgresConnect w)
  else if String.eqb db_type "CLOUD_SQL_MYSQL" then Some (DDDMySQLConnect w)
  else None.

(** [t] ends with the events [s]. *)
Definition ends_with (t s : list event) : Prop := exists t0, t = t0 ++ s.

(** A value that is not a string. *)
Definition not_string (v : option value) : Prop :=
  match v with Some (VString _) => False | _ => True end.

(** The Bond service answering 200 with a body that breaks off. *)
Definition bond_truncated : string -> jobject -> http_reply :=
  fun _ _ => inr (200, ("{partial", Some "unexpected EOF")).

(** The Bond service answering 204 with an empty body. *)
Definition bond_no_content : string -> jobject -> http_reply :=
  fun _ _ => inr (204, ("", None)).

(** * Properties *)

(** ** The library functions on samples *)

Example Split_price : strings_Split "4.50" dot = ["4"; "50"].
Proof. reflexivity. Qed.

Example Split_two_dots : strings_Split "1.2.3" dot = ["1"; "2"; "3"].
Proof. reflexivity. Qed.

Example Split_none : strings_Split "abc" dot = ["abc"].
Proof. reflexivity. Qed.

Example Atoi_plain : strconv_Atoi "42" = Some 42.
Proof. reflexivity. Qed.

Example Atoi_neg : strconv_Atoi "-7" = Some (-7).
Proof. reflexivity. Qed.

Example Atoi_empty : strconv_Atoi "" = None.
Proof. reflexivity. Qed.

Example Atoi_sign_only : strconv_Atoi "+" = None.
Proof. reflexivity. Qed.

Example Atoi_max : strconv_Atoi "9223372036854775807" = Some int_max.
Proof. reflexivity. Qed.

Example Atoi_over : strconv_Atoi "9223372036854775808" = None.
Proof. reflexivity. Qed.

Example Atoi_min : strconv_Atoi "-9223372036854775808" = Some int_min.
Proof. reflexivity. Qed.

(** ** Arithmetic of [int] *)

Lemma wrap_int_small (z : Z) : in_int z -> wrap_int z = z.
Proof.
  unfold in_int, int_min, int_max, wrap_int. intros H.
  rewrite Z.mod_small; lia.
Qed.

Lemma wrap_int_range (z : Z) : in_int (wrap_int z).
Proof.
  unfold in_int, int_min, int_max, wrap_int.
  pose proof (Z.mod_pos_bound (z + 2 ^ 63) (2 ^ 64) ltac:(lia)). lia.
Qed.

Lemma wrap_int_add_l (a b : Z) : wrap_int (wrap_int a + b) = wrap_int (a + b).
Proof.
  unfold wrap_int.
  replace ((a + 2 ^ 63) mod 2 ^ 64 - 2 ^ 63 + b + 2 ^ 63)
    with ((a + 2 ^ 63) mod 2 ^ 64 + b) by lia.
  rewrite Z.add_mod_idemp_l by lia.
  do 2 f_equal. lia.
Qed.

Lemma in_intb_spec (z : Z) : in_intb z = true <-> in_int z.
Proof. unfold in_intb, in_int. rewrite andb_true_iff, !Z.leb_le. tauto. Qed.

(** ** The monad *)

Lemma outcome_bind_emit {B} (e : event) (k : unit -> M B) :
  outcome_of (bind (emit e) k) = outcome_of (k tt).
Proof. unfold outcome_of, bind, emit. destruct (k tt); reflexivity. Qed.

Lemma bind_ret_l {A B} (a : A) (k : A -> M B) : bind (ret a) k = k a.
Proof. unfold bind, ret. destruct (k a); reflexivity. Qed.

Lemma outcome_bind_Ret {A B} (m : M A) (k : A -> M B) (a : A) :
  outcome_of m = Ret a -> outcome_of (bind m k) = outcome_of (k a).
Proof.
  destruct m as [t r]. unfold outcome_of. simpl. intros ->.
  destruct (k a); reflexivity.
Qed.

Lemma outcome_defer {A} (e : event) (m : M A) :
  outcome_of (defer e m) = outcome_of m.
Proof. destruct m; reflexivity. Qed.

Lemma trace_bind {A B} (m : M A) (k : A -> M B) :
  trace_of (bind m k) =
  trace_of m ++ match outcome_of m with Ret a => trace_of (k a) | Panic _ => [] end.
Proof.
  destruct m as [t [a | msg]]; unfold trace_of, outcome_of; simpl.
  - destruct (k a); reflexivity.
  - symmetry. apply app_nil_r.
Qed.

(** ** Strings *)

Lemma strings_Split_cons (s : string) (sep : ascii) :
  exists f fs, strings_Split s sep = f :: fs.
Proof.
  induction s as [| c s IH]; simpl; [eauto |].
  destruct (Ascii.eqb c sep); [eauto |].
  destruct IH as (f & fs & ->). eauto.
Qed.

Lemma strings_Split_head (s : string) :
  exists fs, strings_Split s dot = before_dot s :: fs.
Proof.
  induction s as [| c s IH]; simpl; [eauto |].
  destruct (Ascii.eqb c dot); [eauto |].
  destruct IH as (fs & ->). eauto.
Qed.

Lemma index0_Split (s : string) : index0 (strings_Split s dot) = ret (before_dot s).
Proof. destruct (strings_Split_head s) as (fs & ->). reflexivity. Qed.

Lemma is_empty_true (s : string) : is_empty s = true <-> s = "".
Proof. unfold is_empty. apply String.eqb_eq. Qed.

Lemma is_empty_false (s : string) : is_empty s = false <-> s <> "".
Proof. unfold is_empty. apply String.eqb_neq. Qed.

(** ** Configuration resolver *)

Section Resolver.
Variable w : World.

Let user := os_Getenv w "DB_USER".
Let pass := os_Getenv w "DB_PASS".
Let dbName := os_Getenv w "DB_NAME".
Let dbInstance := os_Getenv w "DB_INSTANCE".

Lemma dbConnectionInfo_missing :
  user = "" \/ pass = "" \/ dbName = "" \/ dbInstance = "" ->
  dbConnectionInfo w = (zero_info, Some err_missing_env).
Proof.
  intros H. unfold dbConnectionInfo. fold user pass dbName dbInstance.
  assert (is_empty user || is_empty pass || is_empty dbInstance || is_empty dbName = true)
    as ->; [| reflexivity].
  rewrite !orb_true_iff, !is_empty_true. tauto.
Qed.

Lemma dbConnectionInfo_present :
  user <> "" -> pass <> "" -> dbName <> "" -> dbInstance <> "" ->
  dbConnectionInfo w =
  (mkInfo user pass dbName (os_Getenv w "DB_REGION") (os_Getenv w "DB_CLUSTER") dbInstance
     (if is_empty (os_Getenv w "DB_PROJECT") then cfg_ProjectID w
      else os_Getenv w "DB_PROJECT"),
   None).
Proof.
  intros Hu Hp Hn Hi. unfold dbConnectionInfo. fold user pass dbName dbInstance.
  apply is_empty_false in Hu, Hp, Hn, Hi. rewrite Hu, Hp, Hn, Hi. reflexivity.
Qed.

Lemma required_dec :
  (user <> "" /\ pass <> "" /\ dbName <> "" /\ dbInstance <> "")
  \/ (user = "" \/ pass = "" \/ dbName = "" \/ dbInstance = "").
Proof.
  destruct (string_dec user ""), (string_dec pass ""),
    (string_dec dbName ""), (string_dec dbInstance ""); tauto.
Qed.
End Resolver.

(** C7: [dbConnectionInfo] returns a [DBConnectionInfo] with a nil error
    exactly when DB_USER, DB_PASS, DB_NAME and DB_INSTANCE are all
    non-empty, the fields being the values of the environment; otherwise it
    returns the one collective error "ensure required environment variables
    are set"; and when DB_PROJECT is unset the project identifier of a
    successful result is the process-wide [cfg.ProjectID]. *)
Theorem dbConnectionInfo_contract (w : World) :
  let user := os_Getenv w "DB_USER" in
  let pass := os_Getenv w "DB_PASS" in
  let dbName := os_Getenv w "DB_NAME" in
  let dbInstance := os_Getenv w "DB_INSTANCE" in
  let all_set := user <> "" /\ pass <> "" /\ dbName <> "" /\ dbInstance <> "" in
  ((dbConnectionInfo w).2 = None <-> all_set)
  /\ (all_set ->
      let info := (dbConnectionInfo w).1 in
      User info = user /\ Pass info = pass /\ DBName info = dbName
      /\ DBInstance info = dbInstance
      /\ DBRegion info = os_Getenv w "DB_REGION"
      /\ DBCluster info = os_Getenv w "DB_CLUSTER"
      /\ (environ w !! "DB_PROJECT" = None -> ProjectID info = cfg_ProjectID w)
      /\ (os_Getenv w "DB_PROJECT" <> "" -> ProjectID info = os_Getenv w "DB_PROJECT"))
  /\ (~ all_set -> dbConnectionInfo w = (zero_info, Some err_missing_env)).
Proof.
  cbv zeta.
  destruct (required_dec w) as [Hall | Hsome].
  - destruct Hall as (Hu & Hp & Hn & Hi).
    pose proof (dbConnectionInfo_present w Hu Hp Hn Hi) as E.
    split; [| split].
    + rewrite E. simpl. tauto.
    + intros _. rewrite E. simpl. repeat split; try reflexivity.
      * intros Hunset. unfold os_Getenv at 1. rewrite Hunset. reflexivity.
      * intros Hset. apply is_empty_false in Hset. rewrite Hset. reflexivity.
    + intros Hn'. exfalso. apply Hn'. tauto.
  - pose proof (dbConnectionInfo_missing w Hsome) as E.
    split; [| split].
    + rewrite E. simpl. split; [discriminate |]. tauto.
    + intros Hall. exfalso. tauto.
    + intros _. exact E.
Qed.

Lemma dbConnectionInfo_contract_witness :
  let w := sample_world "CLOUD_SQL_MYSQL" "" [] [] bond_ok in
  ProjectID (dbConnectionInfo w).1 = "cymbal-project"
  /\ dbConnectionInfo (mkWorld ∅ "p" "u" (fun _ => None) None None (fun _ => None)
       (fun _ _ => inr []) (fun _ _ => None) (fun _ _ => inr []) (fun _ => None) bond_ok)
     = (zero_info, Some err_missing_env).
Proof.
  split.
  - apply (dbConnectionInfo_contract (sample_world "CLOUD_SQL_MYSQL" "" [] [] bond_ok)).
    + repeat split; discriminate.
    + reflexivity.
  - apply dbConnectionInfo_contract. simpl. intros (H & _). apply H. reflexivity.
Defined.

(** ** Backend selection *)

(** C3: when DB_TYPE is none of ALLOY_DB, CLOUD_SQL_POSTGRES and
    CLOUD_SQL_MYSQL the handler returns normally (no panic) with status 500
    and the body "Error: Unknown DB type <value>", and makes no call to a
    database library: the only event of the request is one log line. *)
Theorem dddHandler_unknown_backend (w : World) :
  os_Getenv w "DB_TYPE" <> "ALLOY_DB" ->
  os_Getenv w "DB_TYPE" <> "CLOUD_SQL_POSTGRES" ->
  os_Getenv w "DB_TYPE" <> "CLOUD_SQL_MYSQL" ->
  outcome_of (dddHandler w) =
    Ret (mkResponse 500
           (TextBody ("Error: Unknown DB type " +:+ os_Getenv w "DB_TYPE" +:+ newline)))
  /\ Forall (fun e => is_db_library_event e = false) (trace_of (dddHandler w))
  /\ trace_of (dddHandler w) =
       [EvLog "Data-Driven Decaf: Unknown DB type %v\n" [AStr (os_Getenv w "DB_TYPE")]].
Proof.
  intros Ha Hp Hm. unfold dddHandler.
  apply String.eqb_neq in Ha, Hp, Hm. rewrite Ha, Hp, Hm.
  split; [reflexivity |]. split; [| reflexivity].
  repeat constructor.
Qed.

Lemma dddHandler_unknown_backend_witness :
  outcome_of (dddHandler (sample_world "SPANNER" "" [] [] bond_ok)) =
    Ret (mkResponse 500 (TextBody ("Error: Unknown DB type SPANNER" +:+ newline))).
Proof.
  apply (dddHandler_unknown_backend (sample_world "SPANNER" "" [] [] bond_ok));
    vm_compute; discriminate.
Defined.

(** ** One turn of each loop *)

Lemma bind_assoc {A B C} (m : M A) (f : A -> M B) (g : B -> M C) :
  bind (bind m f) g = bind m (fun a => bind (f a) g).
Proof.
  destruct m as [t [a | msg]]; simpl; [| reflexivity].
  destruct (f a) as [t1 [b | msg]]; simpl; [| reflexivity].
  destruct (g b) as [t2 o]. rewrite app_assoc. reflexivity.
Qed.

Lemma mysql_step (i : Z) (bean price : string) (rest : list mysql_row)
    (res : DDDBondPayload) :
  mysql_rows_loop (Scanned i bean price :: rest) res =
  let res1 := if i =? 51 then set_MagicCoffee res bean else res in
  match parse_price price with
  | Some p => mysql_rows_loop rest (add_Total res1 p)
  | None =>
      log_Printf "Could not convert %v to an integer\n" [AStr price] ;;;
      mysql_rows_loop rest res1
  end.
Proof.
  cbn [mysql_rows_loop]. rewrite index0_Split, bind_ret_l. reflexivity.
Qed.

Lemma pg_step (c : coffee) (rest : list pg_row) (res : DDDBondPayload) (i : Z) :
  pg_rows_loop (to_pg c :: rest) res i =
  let res1 := if i =? 50 then set_MagicCoffee res (coffee_name c) else res in
  match parse_price (coffee_price c) with
  | Some p => pg_rows_loop rest (add_Total res1 p) (int_add i 1)
  | None =>
      log_Printf "Could not convert %v to an integer\n" [AStr (coffee_price c)] ;;;
      pg_rows_loop rest res1 i
  end.
Proof.
  unfold to_pg. cbn [pg_rows_loop].
  destruct (i =? 50); cbn [string_at lookup list_lookup];
    rewrite ?bind_ret_l, index0_Split, bind_ret_l; reflexivity.
Qed.

Lemma int_add_1 (i : Z) : 0 <= i < int_max -> int_add i 1 = i + 1.
Proof.
  intros H. unfold int_add. apply wrap_int_small.
  unfold in_int, int_min, int_max in *. lia.
Qed.

(** ** Parsing a price *)

Lemma digit_not_sign_or_dot (c : ascii) :
  is_digit c = true ->
  Ascii.eqb c "-" = false /\ Ascii.eqb c "+" = false /\ Ascii.eqb c dot = false.
Proof.
  destruct c as [[] [] [] [] [] [] [] []]; vm_compute; intros H;
    try discriminate H; repeat split.
Qed.

Lemma digits_value_decimal (ds : string) (acc : Z) :
  all_digits ds = true ->
  digits_value ds acc = Some (acc * 10 ^ Z.of_nat (String.length ds) + decimal_value ds).
Proof.
  revert acc. induction ds as [| c ds IH]; intros acc H.
  - simpl. f_equal. lia.
  - cbn [all_digits] in H. apply andb_true_iff in H as [Hc Hds].
    cbn [digits_value decimal_value String.length]. rewrite Hc, IH by assumption.
    f_equal. rewrite Nat2Z.inj_succ, Z.pow_succ_r by lia. ring.
Qed.

Lemma strconv_Atoi_literal (s : sign) (ds : string) :
  ds <> "" -> all_digits ds = true -> in_int (signed s (decimal_value ds)) ->
  strconv_Atoi (int_literal s ds) = Some (signed s (decimal_value ds)).
Proof.
  intros Hne Hds Hrange.
  pose proof (digits_value_decimal ds 0 Hds) as Hv.
  rewrite Z.mul_0_l, Z.add_0_l in Hv.
  apply in_intb_spec in Hrange.
  destruct ds as [| c ds']; [congruence |].
  pose proof Hds as Hc. cbn [all_digits] in Hc. apply andb_true_iff in Hc as [Hc _].
  destruct (digit_not_sign_or_dot c Hc) as (Hm & Hp & _).
  destruct s; unfold int_literal, sign_text.
  - change ("" +:+ String c ds') with (String c ds').
    unfold strconv_Atoi. rewrite Hm, Hp, Hv. cbn [signed] in Hrange.
    rewrite Hrange. reflexivity.
  - change ("+" +:+ String c ds') with (String "+" (String c ds')).
    unfold strconv_Atoi. cbn [Ascii.eqb Bool.eqb]. rewrite Hv. cbn [signed] in Hrange.
    rewrite Hrange. reflexivity.
  - change ("-" +:+ String c ds') with (String "-" (String c ds')).
    unfold strconv_Atoi. cbn [Ascii.eqb Bool.eqb]. rewrite Hv. cbn [signed] in Hrange.
    rewrite Hrange. reflexivity.
Qed.

Lemma before_dot_digits (ds frac : string) :
  all_digits ds = true -> before_dot (ds +:+ String dot frac) = ds.
Proof.
  induction ds as [| c ds IH]; intros H.
  - reflexivity.
  - cbn [all_digits] in H. apply andb_true_iff in H as [Hc Hds].
    destruct (digit_not_sign_or_dot c Hc) as (_ & _ & Hd).
    change (String c ds +:+ String dot frac) with (String c (ds +:+ String dot frac)).
    cbn [before_dot]. rewrite Hd, IH by assumption. reflexivity.
Qed.

Lemma before_dot_literal (s : sign) (ds frac : string) :
  all_digits ds = true ->
  before_dot (int_literal s ds +:+ "." +:+ frac) = int_literal s ds.
Proof.
  intros Hds. change ("." +:+ frac) with (String dot frac).
  unfold int_literal. destruct s; unfold sign_text.
  - change ("" +:+ ds) with ds. apply before_dot_digits, Hds.
  - change (("+" +:+ ds) +:+ String dot frac)
      with (String "+" (ds +:+ String dot frac)).
    change ("+" +:+ ds) with (String "+" ds).
    cbn [before_dot]. change (Ascii.eqb "+" dot) with false. cbv iota.
    rewrite before_dot_digits by assumption. reflexivity.
  - change (("-" +:+ ds) +:+ String dot frac)
      with (String "-" (ds +:+ String dot frac)).
    change ("-" +:+ ds) with (String "-" ds).
    cbn [before_dot]. change (Ascii.eqb "-" dot) with false. cbv iota.
    rewrite before_dot_digits by assumption. reflexivity.
Qed.

Lemma parse_price_literal (s : sign) (ds frac : string) :
  ds <> "" -> all_digits ds = true -> in_int (signed s (decimal_value ds)) ->
  parse_price (int_literal s ds +:+ "." +:+ frac) = Some (signed s (decimal_value ds)).
Proof.
  intros Hne Hds Hrange. unfold parse_price.
  rewrite before_dot_literal by assumption.
  apply strconv_Atoi_literal; assumption.
Qed.

Lemma Total_add_Total (res : DDDBondPayload) (n : Z) :
  Total (add_Total res n) = wrap_int (Total res + n)
  /\ (in_int (Total res + n) -> Total (add_Total res n) = Total res + n).
Proof.
  split; [reflexivity |]. intros H. simpl. unfold int_add. apply wrap_int_small, H.
Qed.

(** ** Runs of well-typed rows *)

Lemma bind_emit {B} (e : event) (k : unit -> M B) :
  bind (emit e) k = (e :: trace_of (k tt), outcome_of (k tt)).
Proof. unfold bind, emit, trace_of, outcome_of. destruct (k tt); reflexivity. Qed.

Lemma count_ok_cons (c : coffee) (cs : list coffee) :
  count_ok (c :: cs) = (if price_ok c then 1 else 0) + count_ok cs.
Proof.
  unfold count_ok. rewrite filter_cons.
  destruct (price_ok c); destruct (decide _) as [E | E]; try congruence;
    cbn [length]; lia.
Qed.

Lemma count_ok_bounds (cs : list coffee) : 0 <= count_ok cs <= Z.of_nat (length cs).
Proof.
  induction cs as [| c cs IH]; [unfold count_ok; simpl; lia |].
  rewrite count_ok_cons. cbn [length]. destruct (price_ok c); lia.
Qed.

Lemma count_ok_all (cs : list coffee) :
  Forall (fun c => price_ok c = true) cs -> count_ok cs = Z.of_nat (length cs).
Proof.
  induction 1 as [| c cs Hc _ IH]; [reflexivity |].
  rewrite count_ok_cons, Hc, IH. cbn [length]. lia.
Qed.

Lemma count_ok_some_bad (cs : list coffee) :
  Exists (fun c => price_ok c = false) cs -> count_ok cs < Z.of_nat (length cs).
Proof.
  induction 1 as [c cs Hc | c cs _ IH]; rewrite count_ok_cons; cbn [length].
  - rewrite Hc. pose proof (count_ok_bounds cs). lia.
  - destruct (price_ok c); lia.
Qed.

Lemma price_ok_parse (c : coffee) :
  price_ok c = true -> exists p, parse_price (coffee_price c) = Some p.
Proof. unfold price_ok. destruct (parse_price _); [eauto | discriminate]. Qed.

Lemma price_bad_parse (c : coffee) :
  price_ok c = false -> parse_price (coffee_price c) = None.
Proof. unfold price_ok. destruct (parse_price _); [discriminate | reflexivity]. Qed.

(** The loop over a run of well-typed rows followed by more rows is the loop
    over the run, then the loop over the rest from the state reached. *)
Lemma pg_rows_loop_app (cs : list coffee) (tail : list pg_row)
    (res : DDDBondPayload) (i : Z) :
  pg_rows_loop (map to_pg cs ++ tail) res i =
  (r <- pg_rows_loop (map to_pg cs) res i ;; pg_rows_loop tail r.1.1 r.1.2).
Proof.
  revert res i. induction cs as [| c cs IH]; intros res i.
  - cbn [map app pg_rows_loop]. rewrite bind_ret_l. reflexivity.
  - cbn [map app]. rewrite !pg_step. cbv zeta.
    destruct (parse_price (coffee_price c)) as [p |].
    + apply IH.
    + unfold log_Printf. rewrite bind_assoc, !bind_emit, IH. reflexivity.
Qed.

(** The counter ends at its start plus the number of rows whose price
    parsed, and the total at the wrapped sum of the parsed prices. *)
Lemma pg_rows_loop_counter (cs : list coffee) (res : DDDBondPayload) (i : Z) :
  0 <= i -> i + Z.of_nat (length cs) <= int_max -> in_int (Total res) ->
  exists r,
    outcome_of (pg_rows_loop (map to_pg cs) res i) = Ret (r, i + count_ok cs, None)
    /\ Total r = wrap_int (Total res + sum_prices cs).
Proof.
  revert res i. induction cs as [| c cs IH]; intros res i Hi Hmax Hres.
  - exists res. split.
    + unfold count_ok. cbn. rewrite Z.add_0_r. reflexivity.
    + cbn [sum_prices foldr]. rewrite Z.add_0_r, wrap_int_small; auto.
  - cbn [map length] in *. rewrite pg_step, count_ok_cons. cbv zeta.
    set (res1 := if i =? 50 then _ else _).
    assert (Total res1 = Total res) as E by (subst res1; destruct (i =? 50); reflexivity).
    clearbody res1.
    unfold price_ok. cbn [sum_prices foldr]. fold (sum_prices cs).
    destruct (parse_price (coffee_price c)) as [p |].
    + rewrite int_add_1 by lia.
      destruct (IH (add_Total res1 p) (i + 1)) as (r & Hr & Ht); try lia.
      { apply wrap_int_range. }
      exists r. split.
      * rewrite Hr. do 3 f_equal; lia.
      * rewrite Ht. cbn [add_Total Total]. unfold int_add.
        rewrite wrap_int_add_l, E. f_equal. lia.
    + unfold log_Printf. rewrite outcome_bind_emit.
      destruct (IH res1 i) as (r & Hr & Ht); try lia.
      { rewrite E. exact Hres. }
      exists r. split.
      * rewrite Hr. do 3 f_equal; lia.
      * rewrite Ht, E. reflexivity.
Qed.

(** The sentinel is left alone while the counter stays away from 50. *)
Lemma pg_rows_loop_past (cs : list coffee) (res : DDDBondPayload) (i : Z) :
  50 < i -> i + Z.of_nat (length cs) <= int_max ->
  exists r j,
    outcome_of (pg_rows_loop (map to_pg cs) res i) = Ret (r, j, None)
    /\ MagicCoffee r = MagicCoffee res.
Proof.
  revert res i. induction cs as [| c cs IH]; intros res i Hi Hmax.
  - exists res, i. split; reflexivity.
  - cbn [map length] in *. rewrite pg_step. cbv zeta.
    replace (i =? 50) with false by (symmetry; apply Z.eqb_neq; lia).
    destruct (parse_price (coffee_price c)) as [p |].
    + rewrite int_add_1 by lia.
      destruct (IH (add_Total res p) (i + 1)) as (r & j & Hr & Hm); try lia.
      exists r, j. split; [exact Hr | exact Hm].
    + unfold log_Printf. rewrite outcome_bind_emit.
      destruct (IH res i) as (r & j & Hr & Hm); try lia.
      exists r, j. split; [exact Hr | exact Hm].
Qed.

Lemma pg_rows_loop_before (cs : list coffee) (res : DDDBondPayload) (i : Z) :
  Forall (fun c => price_ok c = true) cs ->
  0 <= i -> i + Z.of_nat (length cs) <= 50 ->
  exists r,
    pg_rows_loop (map to_pg cs) res i = ret (r, i + Z.of_nat (length cs), None)
    /\ MagicCoffee r = MagicCoffee res.
Proof.
  intros Hok. revert res i.
  induction Hok as [| c cs Hc _ IH]; intros res i Hi Hmax.
  - exists res. cbn. rewrite Z.add_0_r. split; reflexivity.
  - cbn [map length] in *. rewrite pg_step. cbv zeta.
    replace (i =? 50) with false by (symmetry; apply Z.eqb_neq; lia).
    destruct (price_ok_parse c Hc) as (p & ->).
    rewrite int_add_1 by (unfold int_max; lia).
    destruct (IH (add_Total res p) (i + 1)) as (r & Hr & Hm); try lia.
    exists r. split; [| exact Hm].
    rewrite Hr. do 3 f_equal. lia.
Qed.

(** The MySQL loop never panics, and its sentinel is the name of the last
    scanned row whose id is 51. *)
Lemma mysql_rows_loop_sentinel (rows : list mysql_row) (res : DDDBondPayload) :
  exists r err,
    outcome_of (mysql_rows_loop rows res) = Ret (r, err)
    /\ MagicCoffee r =
       match last (filter (fun c => coffee_id c = 51) (scanned_prefix rows)) with
       | Some c => coffee_name c
       | None => MagicCoffee res
       end
    /\ (err = None <-> map to_mysql (scanned_prefix rows) = rows).
Proof.
  revert res. induction rows as [| [i bean price | e] rows IH]; intros res.
  - exists res, None. repeat split; reflexivity.
  - rewrite mysql_step. cbv zeta.
    set (res1 := if i =? 51 then _ else _).
    assert (exists r err,
      outcome_of (match parse_price price with
                  | Some p => mysql_rows_loop rows (add_Total res1 p)
                  | None =>
                      log_Printf "Could not convert %v to an integer\n" [AStr price] ;;;
                      mysql_rows_loop rows res1
                  end) = Ret (r, err)
      /\ MagicCoffee r =
         match last (filter (fun c => coffee_id c = 51) (scanned_prefix rows)) with
         | Some c => coffee_name c
         | None => MagicCoffee res1
         end
      /\ (err = None <-> map to_mysql (scanned_prefix rows) = rows)) as (r & err & Hr & Hm & He).
    { destruct (parse_price price) as [p |].
      - apply (IH (add_Total res1 p)).
      - unfold log_Printf. rewrite outcome_bind_emit. apply IH. }
    exists r, err. split; [exact Hr |]. split.
    + rewrite Hm. cbn [scanned_prefix]. rewrite filter_cons. cbn [coffee_id].
      subst res1. destruct (Z.eqb_spec i 51) as [-> | Hne].
      * rewrite decide_True by reflexivity. rewrite last_cons.
        destruct (last _); reflexivity.
      * rewrite decide_False by assumption. reflexivity.
    + rewrite He. cbn [scanned_prefix map]. unfold to_mysql at 2. cbn.
      split; [intros ->; reflexivity | intros H; injection H; auto].
  - cbn [mysql_rows_loop]. unfold log_Printf. rewrite outcome_bind_emit.
    exists res, (Some e). split; [reflexivity |]. split; [reflexivity |].
    cbn. split; discriminate.
Qed.

(** The total a run of well-typed rows returns. *)
Lemma mysql_rows_loop_total (cs : list coffee) (res : DDDBondPayload) :
  in_int (Total res) ->
  exists r,
    outcome_of (mysql_rows_loop (map to_mysql cs) res) = Ret (r, None)
    /\ Total r = wrap_int (Total res + sum_prices cs).
Proof.
  revert res. induction cs as [| c cs IH]; intros res Hres.
  - exists res. split; [reflexivity |].
    cbn [sum_prices foldr]. rewrite Z.add_0_r, wrap_int_small; auto.
  - cbn [map]. unfold to_mysql at 1. rewrite mysql_step. cbv zeta.
    set (res1 := if coffee_id c =? 51 then _ else _).
    assert (Total res1 = Total res) as E
      by (subst res1; destruct (coffee_id c =? 51); reflexivity).
    clearbody res1. cbn [sum_prices foldr]. fold (sum_prices cs).
    destruct (parse_price (coffee_price c)) as [p |].
    + destruct (IH (add_Total res1 p)) as (r & Hr & Ht); [apply wrap_int_range |].
      exists r. split; [exact Hr |].
      rewrite Ht. cbn [add_Total Total]. unfold int_add.
      rewrite wrap_int_add_l, E. f_equal. lia.
    + unfold log_Printf. rewrite outcome_bind_emit.
      destruct (IH res1) as (r & Hr & Ht); [rewrite E; exact Hres |].
      exists r. split; [exact Hr |]. rewrite Ht, E. reflexivity.
Qed.

Lemma pg_rows_loop_total (cs : list coffee) (res : DDDBondPayload) (i : Z) :
  in_int (Total res) ->
  exists r j,
    outcome_of (pg_rows_loop (map to_pg cs) res i) = Ret (r, j, None)
    /\ Total r = wrap_int (Total res + sum_prices cs).
Proof.
  revert res i. induction cs as [| c cs IH]; intros res i Hres.
  - exists res, i. split; [reflexivity |].
    cbn [sum_prices foldr]. rewrite Z.add_0_r, wrap_int_small; auto.
  - cbn [map]. rewrite pg_step. cbv zeta.
    set (res1 := if i =? 50 then _ else _).
    assert (Total res1 = Total res) as E by (subst res1; destruct (i =? 50); reflexivity).
    clearbody res1. cbn [sum_prices foldr]. fold (sum_prices cs).
    destruct (parse_price (coffee_price c)) as [p |].
    + destruct (IH (add_Total res1 p) (int_add i 1)) as (r & j & Hr & Ht);
        [apply wrap_int_range |].
      exists r, j. split; [exact Hr |].
      rewrite Ht. cbn [add_Total Total]. unfold int_add at 1.
      rewrite wrap_int_add_l, E. f_equal. lia.
    + unfold log_Printf. rewrite outcome_bind_emit.
      destruct (IH res1 i) as (r & j & Hr & Ht); [rewrite E; exact Hres |].
      exists r, j. split; [exact Hr |]. rewrite Ht, E. reflexivity.
Qed.

(** ** From the loops to the functions that run them *)

Lemma DDDPostgresRows_outcome (w : World) (pool : pgx_Config) (rows : list pg_row) :
  pool_Query w pool defaultQuery = inr rows ->
  outcome_of (DDDPostgresRows w pool) =
  drop_counter (outcome_of (pg_rows_loop rows zero_payload 0)).
Proof.
  intros Hq. unfold DDDPostgresRows. rewrite outcome_bind_emit, Hq, outcome_defer.
  destruct (pg_rows_loop rows zero_payload 0) as [t [r | msg]]; reflexivity.
Qed.

Lemma DDDMySQLConnect_outcome (w : World) (info : DBConnectionInfo)
    (rows : list mysql_row) :
  dbConnectionInfo w = (info, None) ->
  sql_Open w "cloudsql-mysql" (mysql_dsn info) = None ->
  db_Query w (mysql_dsn info) defaultQuery = inr rows ->
  outcome_of (DDDMySQLConnect w) = outcome_of (mysql_rows_loop rows zero_payload).
Proof.
  intros Hinfo Hopen Hq. unfold DDDMySQLConnect. rewrite Hinfo.
  rewrite outcome_bind_emit, Hopen, outcome_bind_emit, Hq, outcome_defer.
  reflexivity.
Qed.

Lemma in_int_0 : in_int 0.
Proof. unfold in_int, int_min, int_max. lia. Qed.

Lemma scanned_prefix_typed (cs : list coffee) : scanned_prefix (map to_mysql cs) = cs.
Proof.
  induction cs as [| [i n p] cs IH]; [reflexivity |].
  cbn [map to_mysql scanned_prefix coffee_id coffee_name coffee_price]. rewrite IH.
  reflexivity.
Qed.

Lemma filter_none_51 (cs : list coffee) :
  Forall (fun c => coffee_id c <> 51) cs ->
  filter (fun c => coffee_id c = 51) cs = [].
Proof.
  induction 1 as [| c cs Hc _ IH]; [reflexivity |].
  rewrite filter_cons, decide_False by assumption. exact IH.
Qed.

Lemma last_with_id_51_split (before after : list coffee) (row : coffee) :
  coffee_id row = 51 -> Forall (fun c => coffee_id c <> 51) after ->
  last_with_id_51 (before ++ row :: after) = coffee_name row.
Proof.
  intros Hid Hafter. unfold last_with_id_51.
  rewrite filter_app, filter_cons.
  rewrite decide_True by exact Hid.
  rewrite (filter_none_51 after Hafter), last_snoc. reflexivity.
Qed.

Lemma last_with_id_51_none (cs : list coffee) :
  Forall (fun c => coffee_id c <> 51) cs -> last_with_id_51 cs = "".
Proof. intros H. unfold last_with_id_51. rewrite filter_none_51 by assumption. reflexivity. Qed.

(** ** The empty result set *)

(** C6: when the query returns no row, [DDDPostgresRows] and
    [DDDMySQLConnect] both return a nil error and the zero payload, whose
    sentinel is empty and whose total is 0. *)
Theorem zero_rows_aggregate :
  (forall (w : World) (pool : pgx_Config),
      pool_Query w pool defaultQuery = inr [] ->
      outcome_of (DDDPostgresRows w pool) = Ret (zero_payload, None))
  /\ (forall (w : World) (info : DBConnectionInfo),
      dbConnectionInfo w = (info, None) ->
      sql_Open w "cloudsql-mysql" (mysql_dsn info) = None ->
      db_Query w (mysql_dsn info) defaultQuery = inr [] ->
      outcome_of (DDDMySQLConnect w) = Ret (zero_payload, None))
  /\ MagicCoffee zero_payload = "" /\ Total zero_payload = 0.
Proof.
  split; [| split; [| split; reflexivity]].
  - intros w pool Hq. rewrite (DDDPostgresRows_outcome w pool [] Hq). reflexivity.
  - intros w info Hinfo Hopen Hq.
    rewrite (DDDMySQLConnect_outcome w info [] Hinfo Hopen Hq). reflexivity.
Qed.

Lemma zero_rows_aggregate_witness :
  outcome_of (DDDPostgresRows (sample_world "CLOUD_SQL_POSTGRES" "" [] [] bond_ok)
                (mkConfig "" None)) = Ret (zero_payload, None)
  /\ outcome_of (DDDMySQLConnect (sample_world "CLOUD_SQL_MYSQL" "" [] [] bond_ok))
     = Ret (zero_payload, None).
Proof.
  split.
  - apply (proj1 zero_rows_aggregate). reflexivity.
  - eapply (proj1 (proj2 zero_rows_aggregate)); reflexivity.
Defined.

(** ** The MySQL sentinel *)

(** C9: [DDDMySQLConnect] keeps no row counter.  Whatever rows the query
    returns, the function returns without panic and its sentinel is the
    name of the last scanned row whose id column is 51: such a row sets the
    sentinel wherever it stands in the result, a later row with id 51
    replaces it, and without such a row the sentinel stays empty. *)
Theorem mysql_sentinel_by_id (w : World) (info : DBConnectionInfo)
    (rows : list mysql_row) :
  dbConnectionInfo w = (info, None) ->
  sql_Open w "cloudsql-mysql" (mysql_dsn info) = None ->
  db_Query w (mysql_dsn info) defaultQuery = inr rows ->
  exists r err,
    outcome_of (DDDMySQLConnect w) = Ret (r, err)
    /\ MagicCoffee r = last_with_id_51 (scanned_prefix rows)
    /\ (forall before row after,
          scanned_prefix rows = before ++ row :: after ->
          coffee_id row = 51 ->
          Forall (fun c => coffee_id c <> 51) after ->
          MagicCoffee r = coffee_name row)
    /\ (Forall (fun c => coffee_id c <> 51) (scanned_prefix rows) -> MagicCoffee r = "").
Proof.
  intros Hinfo Hopen Hq.
  rewrite (DDDMySQLConnect_outcome w info rows Hinfo Hopen Hq).
  destruct (mysql_rows_loop_sentinel rows zero_payload) as (r & err & Hr & Hm & _).
  exists r, err. split; [exact Hr |].
  assert (MagicCoffee r = last_with_id_51 (scanned_prefix rows)) as E
    by (rewrite Hm; reflexivity).
  split; [exact E |]. split.
  - intros before row after Hsplit Hid Hafter.
    rewrite E, Hsplit. apply last_with_id_51_split; assumption.
  - intros Hnone. rewrite E. apply last_with_id_51_none, Hnone.
Qed.

Lemma mysql_sentinel_by_id_witness :
  exists r err,
    outcome_of (DDDMySQLConnect (sample_world "CLOUD_SQL_MYSQL" ""
        [] [Scanned 51 "Kona" "3.10"; Scanned 7 "Java" "2.00"; Scanned 51 "Mocha" "x"]
        bond_ok)) = Ret (r, err)
    /\ MagicCoffee r = "Mocha".
Proof.
  destruct (mysql_sentinel_by_id
              (sample_world "CLOUD_SQL_MYSQL" ""
                 [] [Scanned 51 "Kona" "3.10"; Scanned 7 "Java" "2.00"; Scanned 51 "Mocha" "x"]
                 bond_ok)
              (dbConnectionInfo (sample_world "CLOUD_SQL_MYSQL" "" [] [] bond_ok)).1
              [Scanned 51 "Kona" "3.10"; Scanned 7 "Java" "2.00"; Scanned 51 "Mocha" "x"])
    as (r & err & Hr & Hm & _); [reflexivity | reflexivity | reflexivity |].
  exists r, err. split; [exact Hr | exact Hm].
Defined.

(** ** What a row adds to the total *)

(** C2: a row whose price is an integer literal (optional sign, digits, the
    value an [int]) followed by a point and anything adds exactly that
    integer to the running total, in [int] arithmetic, in both loops: the
    loop goes on from the accumulator with the integer added, and the total
    returned after any further well-typed rows is the total before the row
    plus the integer plus what those rows add, wrapped into [int]; alone,
    the row takes the total to the exact sum when that is an [int].  A row
    whose price has no parseable integer before its first point is logged
    and skipped: the loop goes on from the same total, no error is
    returned, and the total returned after any further well-typed rows is
    the one returned without that row. *)
Theorem price_contribution :
  (forall (s : sign) (ds frac : string) (c : coffee),
      ds <> "" -> all_digits ds = true ->
      in_int (signed s (decimal_value ds)) ->
      coffee_price c = int_literal s ds +:+ "." +:+ frac ->
      let n := signed s (decimal_value ds) in
      (forall rest res,
          mysql_rows_loop (to_mysql c :: rest) res =
          mysql_rows_loop rest
            (add_Total (if coffee_id c =? 51 then set_MagicCoffee res (coffee_name c)
                        else res) n))
      /\ (forall rest res i,
          pg_rows_loop (to_pg c :: rest) res i =
          pg_rows_loop rest
            (add_Total (if i =? 50 then set_MagicCoffee res (coffee_name c) else res) n)
            (int_add i 1))
      /\ (forall cs res, exists r,
          outcome_of (mysql_rows_loop (to_mysql c :: map to_mysql cs) res) = Ret (r, None)
          /\ Total r = wrap_int (Total res + n + sum_prices cs))
      /\ (forall cs res i, exists r j,
          outcome_of (pg_rows_loop (to_pg c :: map to_pg cs) res i) = Ret (r, j, None)
          /\ Total r = wrap_int (Total res + n + sum_prices cs))
      /\ (forall res i,
          in_int (Total res + n) ->
          exists r r' j,
            outcome_of (mysql_rows_loop [to_mysql c] res) = Ret (r, None)
            /\ outcome_of (pg_rows_loop [to_pg c] res i) = Ret (r', j, None)
            /\ Total r = Total res + n /\ Total r' = Total res + n))
  /\ (forall c : coffee,
      parse_price (coffee_price c) = None ->
      (forall rest res,
          mysql_rows_loop (to_mysql c :: rest) res =
            (log_Printf "Could not convert %v to an integer\n" [AStr (coffee_price c)] ;;;
             mysql_rows_loop rest
               (if coffee_id c =? 51 then set_MagicCoffee res (coffee_name c) else res)))
      /\ (forall rest res i,
          pg_rows_loop (to_pg c :: rest) res i =
            (log_Printf "Could not convert %v to an integer\n" [AStr (coffee_price c)] ;;;
             pg_rows_loop rest
               (if i =? 50 then set_MagicCoffee res (coffee_name c) else res) i))
      /\ (forall cs res,
          in_int (Total res) ->
          exists r r0,
            outcome_of (mysql_rows_loop (to_mysql c :: map to_mysql cs) res) = Ret (r, None)
            /\ outcome_of (mysql_rows_loop (map to_mysql cs) res) = Ret (r0, None)
            /\ Total r = Total r0
            /\ Total r = wrap_int (Total res + sum_prices cs))
      /\ (forall cs res i,
          in_int (Total res) ->
          exists r j r0 j0,
            outcome_of (pg_rows_loop (to_pg c :: map to_pg cs) res i) = Ret (r, j, None)
            /\ outcome_of (pg_rows_loop (map to_pg cs) res i) = Ret (r0, j0, None)
            /\ Total r = Total r0
            /\ Total r = wrap_int (Total res + sum_prices cs))).
Proof.
  split.
  - intros s ds frac c Hne Hds Hrange Hprice n.
    pose proof (parse_price_literal s ds frac Hne Hds Hrange) as Hparse.
    rewrite <- Hprice in Hparse. fold n in Hparse.
    assert (forall rest res,
      mysql_rows_loop (to_mysql c :: rest) res =
      mysql_rows_loop rest
        (add_Total (if coffee_id c =? 51 then set_MagicCoffee res (coffee_name c)
                    else res) n)) as Hmy
      by (intros; unfold to_mysql; rewrite mysql_step; cbv zeta; rewrite Hparse; reflexivity).
    assert (forall rest res i,
      pg_rows_loop (to_pg c :: rest) res i =
      pg_rows_loop rest
        (add_Total (if i =? 50 then set_MagicCoffee res (coffee_name c) else res) n)
        (int_add i 1)) as Hpg
      by (intros; rewrite pg_step; cbv zeta; rewrite Hparse; reflexivity).
    assert (forall cs res, exists r,
      outcome_of (mysql_rows_loop (to_mysql c :: map to_mysql cs) res) = Ret (r, None)
      /\ Total r = wrap_int (Total res + n + sum_prices cs)) as Hmy_total.
    { intros cs res. rewrite Hmy.
      set (res1 := if coffee_id c =? 51 then _ else _).
      assert (Total res1 = Total res) as E
        by (subst res1; destruct (coffee_id c =? 51); reflexivity).
      destruct (mysql_rows_loop_total cs (add_Total res1 n)) as (r & Hr & Ht);
        [apply wrap_int_range |].
      exists r. split; [exact Hr |]. rewrite Ht. cbn [add_Total Total]. unfold int_add.
      rewrite wrap_int_add_l, E. reflexivity. }
    assert (forall cs res i, exists r j,
      outcome_of (pg_rows_loop (to_pg c :: map to_pg cs) res i) = Ret (r, j, None)
      /\ Total r = wrap_int (Total res + n + sum_prices cs)) as Hpg_total.
    { intros cs res i. rewrite Hpg.
      set (res1 := if i =? 50 then _ else _).
      assert (Total res1 = Total res) as E
        by (subst res1; destruct (i =? 50); reflexivity).
      destruct (pg_rows_loop_total cs (add_Total res1 n) (int_add i 1)) as (r & j & Hr & Ht);
        [apply wrap_int_range |].
      exists r, j. split; [exact Hr |]. rewrite Ht. cbn [add_Total Total].
      unfold int_add at 1. rewrite wrap_int_add_l, E. reflexivity. }
    split; [exact Hmy |]. split; [exact Hpg |]. split; [exact Hmy_total |].
    split; [exact Hpg_total |].
    intros res i Hsum.
    destruct (Hmy_total [] res) as (r & Hr & Ht).
    destruct (Hpg_total [] res i) as (r' & j & Hr' & Ht').
    exists r, r', j. split; [exact Hr |]. split; [exact Hr' |].
    cbn [sum_prices foldr] in Ht, Ht'. rewrite Z.add_0_r in Ht, Ht'.
    rewrite Ht, Ht', wrap_int_small by exact Hsum. split; reflexivity.
  - intros c Hparse.
    assert (forall rest res,
      mysql_rows_loop (to_mysql c :: rest) res =
        (log_Printf "Could not convert %v to an integer\n" [AStr (coffee_price c)] ;;;
         mysql_rows_loop rest
           (if coffee_id c =? 51 then set_MagicCoffee res (coffee_name c) else res))) as Hmy
      by (intros; unfold to_mysql; rewrite mysql_step; cbv zeta; rewrite Hparse; reflexivity).
    assert (forall rest res i,
      pg_rows_loop (to_pg c :: rest) res i =
        (log_Printf "Could not convert %v to an integer\n" [AStr (coffee_price c)] ;;;
         pg_rows_loop rest
           (if i =? 50 then set_MagicCoffee res (coffee_name c) else res) i)) as Hpg
      by (intros; rewrite pg_step; cbv zeta; rewrite Hparse; reflexivity).
    split; [exact Hmy |]. split; [exact Hpg |]. split.
    + intros cs res Hres. rewrite Hmy. unfold log_Printf. rewrite outcome_bind_emit.
      set (res1 := if coffee_id c =? 51 then _ else _).
      assert (Total res1 = Total res) as E
        by (subst res1; destruct (coffee_id c =? 51); reflexivity).
      destruct (mysql_rows_loop_total cs res1) as (r & Hr & Ht); [rewrite E; exact Hres |].
      destruct (mysql_rows_loop_total cs res Hres) as (r0 & Hr0 & Ht0).
      exists r, r0. split; [exact Hr |]. split; [exact Hr0 |].
      rewrite Ht, Ht0, E. split; reflexivity.
    + intros cs res i Hres. rewrite Hpg. unfold log_Printf. rewrite outcome_bind_emit.
      set (res1 := if i =? 50 then _ else _).
      assert (Total res1 = Total res) as E
        by (subst res1; destruct (i =? 50); reflexivity).
      destruct (pg_rows_loop_total cs res1 i) as (r & j & Hr & Ht); [rewrite E; exact Hres |].
      destruct (pg_rows_loop_total cs res i Hres) as (r0 & j0 & Hr0 & Ht0).
      exists r, j, r0, j0. split; [exact Hr |]. split; [exact Hr0 |].
      rewrite Ht, Ht0, E. split; reflexivity.
Qed.

Lemma price_contribution_witness :
  (exists r,
      outcome_of (mysql_rows_loop
                    (to_mysql (mkCoffee 7 "Ethiopian" "4.50")
                       :: map to_mysql [mkCoffee 8 "Decaf" "free"; mkCoffee 9 "Kona" "6.00"])
                    (mkPayload "" 220 "" "")) = Ret (r, None)
      /\ Total r = 230)
  /\ (exists r j r0 j0,
      outcome_of (pg_rows_loop
                    (to_pg (mkCoffee 7 "Decaf" "free") :: map to_pg [mkCoffee 9 "Kona" "6.00"])
                    (mkPayload "" 220 "" "") 3) = Ret (r, j, None)
      /\ outcome_of (pg_rows_loop (map to_pg [mkCoffee 9 "Kona" "6.00"])
                       (mkPayload "" 220 "" "") 3) = Ret (r0, j0, None)
      /\ Total r = Total r0
      /\ Total r = 226).
Proof.
  split.
  - destruct (proj1 price_contribution NoSign "4" "50" (mkCoffee 7 "Ethiopian" "4.50"))
      as (_ & _ & Hmy & _);
      [discriminate | reflexivity | vm_compute; split; discriminate | reflexivity |].
    destruct (Hmy [mkCoffee 8 "Decaf" "free"; mkCoffee 9 "Kona" "6.00"]
                (mkPayload "" 220 "" "")) as (r & Hr & Ht).
    exists r. split; [exact Hr | rewrite Ht; reflexivity].
  - destruct (proj2 price_contribution (mkCoffee 7 "Decaf" "free")) as (_ & _ & _ & Hpg);
      [reflexivity |].
    destruct (Hpg [mkCoffee 9 "Kona" "6.00"] (mkPayload "" 220 "" "") 3)
      as (r & j & r0 & j0 & Hr & Hr0 & E & Ht); [vm_compute; split; discriminate |].
    exists r, j, r0, j0. split; [exact Hr |]. split; [exact Hr0 |].
    split; [exact E | rewrite Ht; reflexivity].
Defined.

(** ** The sentinel row *)

Lemma pg_aggregate_capture (first : list coffee) (row : coffee) (rest : list coffee) :
  length first = 50%nat ->
  Forall (fun c => price_ok c = true) (first ++ [row]) ->
  Z.of_nat (length (first ++ row :: rest)) <= int_max ->
  exists r j,
    pg_aggregate (first ++ row :: rest) = Ret (r, j, None)
    /\ MagicCoffee r = coffee_name row.
Proof.
  intros Hlen Hok Hmax.
  apply Forall_app in Hok as [Hfirst Hrow].
  apply Forall_cons_1 in Hrow as [Hrow _].
  rewrite length_app in Hmax. cbn [length] in Hmax.
  unfold pg_aggregate. rewrite map_app. cbn [map].
  rewrite pg_rows_loop_app.
  destruct (pg_rows_loop_before first zero_payload 0 Hfirst) as (r0 & Hr0 & Hm0);
    [lia | lia |].
  rewrite Hr0, bind_ret_l. cbn [fst snd]. rewrite Hlen. change (0 + Z.of_nat 50) with 50.
  rewrite pg_step. cbv zeta. rewrite Z.eqb_refl.
  destruct (price_ok_parse row Hrow) as (p & ->).
  change (int_add 50 1) with 51.
  destruct (pg_rows_loop_past rest (add_Total (set_MagicCoffee r0 (coffee_name row)) p) 51)
    as (r & j & Hr & Hm); [lia | lia |].
  exists r, j. split; [exact Hr | rewrite Hm; reflexivity].
Qed.

(** C1, as the code has it: on the Postgres path, when the first 51 rows
    all have a price that parses (and there are fewer than 2^63 rows), the
    sentinel is the name of the row at index 50, however many rows follow;
    on the MySQL path, the sentinel is the name of a row whose id column is
    51 and which no later row with id 51 follows, wherever that row stands
    and however many rows there are. *)
Theorem sentinel_row_capture :
  (forall (w : World) (pool : pgx_Config) (first : list coffee) (row : coffee)
          (rest : list coffee),
      pool_Query w pool defaultQuery = inr (map to_pg (first ++ row :: rest)) ->
      length first = 50%nat ->
      Forall (fun c => price_ok c = true) (first ++ [row]) ->
      Z.of_nat (length (first ++ row :: rest)) <= int_max ->
      exists r,
        outcome_of (DDDPostgresRows w pool) = Ret (r, None)
        /\ MagicCoffee r = coffee_name row)
  /\ (forall (w : World) (info : DBConnectionInfo) (before : list coffee) (row : coffee)
             (after : list coffee),
      dbConnectionInfo w = (info, None) ->
      sql_Open w "cloudsql-mysql" (mysql_dsn info) = None ->
      db_Query w (mysql_dsn info) defaultQuery = inr (map to_mysql (before ++ row :: after)) ->
      coffee_id row = 51 ->
      Forall (fun c => coffee_id c <> 51) after ->
      exists r,
        outcome_of (DDDMySQLConnect w) = Ret (r, None)
        /\ MagicCoffee r = coffee_name row).
Proof.
  split.
  - intros w pool first row rest Hq Hlen Hok Hmax.
    rewrite (DDDPostgresRows_outcome w pool _ Hq).
    destruct (pg_aggregate_capture first row rest Hlen Hok Hmax) as (r & j & Hr & Hm).
    unfold pg_aggregate in Hr. rewrite Hr. exists r. split; [reflexivity | exact Hm].
  - intros w info before row after Hinfo Hopen Hq Hid Hafter.
    rewrite (DDDMySQLConnect_outcome w info _ Hinfo Hopen Hq).
    destruct (mysql_rows_loop_sentinel (map to_mysql (before ++ row :: after)) zero_payload)
      as (r & err & Hr & Hm & He).
    rewrite scanned_prefix_typed in Hm, He.
    assert (err = None) as -> by (apply He; reflexivity).
    exists r. split; [exact Hr |].
    rewrite Hm. fold (last_with_id_51 (before ++ row :: after)).
    apply last_with_id_51_split; assumption.
Qed.

Lemma sentinel_row_capture_witness :
  (exists r,
      outcome_of (DDDPostgresRows
                    (sample_world "CLOUD_SQL_POSTGRES" ""
                       (map to_pg (house 50 0 ++ mkCoffee 50 "Kona" "3.00" :: house 4 51))
                       [] bond_ok)
                    (mkConfig "" None)) = Ret (r, None)
      /\ MagicCoffee r = "Kona")
  /\ (exists r,
      outcome_of (DDDMySQLConnect
                    (sample_world "CLOUD_SQL_MYSQL" "" []
                       (map to_mysql (house 3 1 ++ mkCoffee 51 "Kona" "3.00" :: house 2 60))
                       bond_ok)) = Ret (r, None)
      /\ MagicCoffee r = "Kona").
Proof.
  split.
  - apply (proj1 sentinel_row_capture
             (sample_world "CLOUD_SQL_POSTGRES" ""
                (map to_pg (house 50 0 ++ mkCoffee 50 "Kona" "3.00" :: house 4 51))
                [] bond_ok)
             (mkConfig "" None) (house 50 0) (mkCoffee 50 "Kona" "3.00") (house 4 51)).
    + reflexivity.
    + reflexivity.
    + apply (bool_decide_unpack _). vm_compute. reflexivity.
    + vm_compute. discriminate.
  - apply (proj2 sentinel_row_capture
             (sample_world "CLOUD_SQL_MYSQL" "" []
                (map to_mysql (house 3 1 ++ mkCoffee 51 "Kona" "3.00" :: house 2 60))
                bond_ok)
             (dbConnectionInfo (sample_world "CLOUD_SQL_MYSQL" "" [] [] bond_ok)).1
             (house 3 1) (mkCoffee 51 "Kona" "3.00") (house 2 60)).
    + reflexivity.
    + reflexivity.
    + reflexivity.
    + reflexivity.
    + apply (bool_decide_unpack _). vm_compute. reflexivity.
Defined.

(** C1 as stated fails on both paths.  Postgres: of 52 rows the first has
    the price "n/a"; the row at index 50 is "Kona", the sentinel is "Java",
    the name of the row after it.  MySQL: 52 rows with ids 1 to 52; the row
    at index 51 is "Java", the sentinel is "Kona", the name of the row with
    id 51. *)
Lemma sentinel_at_index_refuted :
  ~ sentinel_at_index_pg /\ ~ sentinel_at_index_mysql.
Proof.
  split.
  - intros H.
    specialize (H (sample_world "CLOUD_SQL_POSTGRES" "" (map to_pg rows_bad_first) [] bond_ok)
                  (mkConfig "" None) rows_bad_first (mkCoffee 50 "Kona" "3.00")
                  eq_refl eq_refl).
    vm_compute in H. discriminate H.
  - intros H.
    specialize (H (sample_world "CLOUD_SQL_MYSQL" "" [] (map to_mysql rows_from_one) bond_ok)
                  (dbConnectionInfo (sample_world "CLOUD_SQL_MYSQL" "" [] [] bond_ok)).1
                  rows_from_one (mkCoffee 52 "Java" "3.00")
                  eq_refl eq_refl eq_refl eq_refl).
    vm_compute in H. discriminate H.
Qed.

Example rows_bad_first_sentinel :
  sentinel_of (outcome_of (DDDPostgresRows
     (sample_world "CLOUD_SQL_POSTGRES" "" (map to_pg rows_bad_first) [] bond_ok)
     (mkConfig "" None))) = Some "Java"
  /\ rows_bad_first !! 50%nat = Some (mkCoffee 50 "Kona" "3.00").
Proof. split; reflexivity. Qed.

Example rows_from_one_sentinel :
  sentinel_of (outcome_of (DDDMySQLConnect
     (sample_world "CLOUD_SQL_MYSQL" "" [] (map to_mysql rows_from_one) bond_ok)))
    = Some "Kona"
  /\ rows_from_one !! 51%nat = Some (mkCoffee 52 "Java" "3.00").
Proof. split; reflexivity. Qed.

(** ** The Postgres counter *)

Lemma pg_aggregate_split (first : list coffee) :
  Z.of_nat (length first) <= int_max ->
  exists r0,
    forall (x : coffee) (rest : list coffee),
      pg_aggregate (first ++ x :: rest) =
      outcome_of (pg_rows_loop (to_pg x :: map to_pg rest) r0 (count_ok first)).
Proof.
  intros Hmax.
  destruct (pg_rows_loop_counter first zero_payload 0) as (r0 & Hr0 & _);
    [lia | lia | apply in_int_0 |].
  exists r0. intros x rest. unfold pg_aggregate. rewrite map_app. cbn [map].
  rewrite pg_rows_loop_app.
  rewrite (outcome_bind_Ret _ _ _ Hr0). reflexivity.
Qed.

Lemma set_MagicCoffee_twice (r : DDDBondPayload) (a b : string) :
  set_MagicCoffee (set_MagicCoffee r a) b = set_MagicCoffee r b.
Proof. reflexivity. Qed.

Lemma ignores_51st_when_below (first : list coffee) (row : coffee) (rest : list coffee) :
  Z.of_nat (length first) <= int_max -> count_ok first <> 50 ->
  ignores_51st_name first row rest.
Proof.
  intros Hmax Hne n.
  destruct (pg_aggregate_split first Hmax) as (r0 & Hsplit).
  rewrite !Hsplit, !pg_step. cbv zeta.
  apply Z.eqb_neq in Hne. rewrite Hne. reflexivity.
Qed.

Lemma ignores_51st_when_skipped (first : list coffee) (row next : coffee)
    (rest : list coffee) :
  Z.of_nat (length first) <= int_max -> price_ok row = false ->
  ignores_51st_name first row (next :: rest).
Proof.
  intros Hmax Hbad n.
  destruct (Z.eq_dec (count_ok first) 50) as [E | Hne];
    [| apply ignores_51st_when_below; assumption].
  destruct (pg_aggregate_split first Hmax) as (r0 & Hsplit).
  rewrite !Hsplit, E. cbn [map]. rewrite !(pg_step _ (to_pg next :: _)). cbv zeta.
  cbn [rename coffee_price coffee_name]. rewrite (price_bad_parse row Hbad).
  unfold log_Printf. rewrite !outcome_bind_emit, !pg_step. cbv zeta.
  rewrite Z.eqb_refl, !set_MagicCoffee_twice. reflexivity.
Qed.

(** C8, as the code has it.  The counter of the Postgres loop goes up only
    on rows whose price parses: after all rows it is the number of such
    rows.  When one of the first 50 rows has a price that does not parse, or
    the 51st has and another row follows it, the aggregate does not depend
    on the name of the 51st row.  When a row is met at counter 50, that is
    after exactly 50 rows that parse, wherever it stands, and its price does
    not parse, the counter stays at 50: the next row's name replaces the
    sentinel, for good if that row's price parses; if no row follows, the
    sentinel is that row's name. *)
Theorem pg_counter_skips_bad_rows :
  (forall cs : list coffee,
      Z.of_nat (length cs) <= int_max ->
      exists r, pg_aggregate cs = Ret (r, count_ok cs, None))
  /\ (forall (first : list coffee) (row : coffee) (rest : list coffee),
      length first = 50%nat ->
      Exists (fun c => price_ok c = false) first
      \/ (price_ok row = false /\ rest <> []) ->
      ignores_51st_name first row rest)
  /\ (forall (first : list coffee) (row next : coffee) (rest : list coffee),
      count_ok first = 50 ->
      Z.of_nat (length first) <= int_max ->
      price_ok row = false ->
      (exists r j,
          pg_aggregate (first ++ [row; next]) = Ret (r, j, None)
          /\ MagicCoffee r = coffee_name next)
      /\ (price_ok next = true ->
          Z.of_nat (length (first ++ row :: next :: rest)) <= int_max ->
          exists r j,
            pg_aggregate (first ++ row :: next :: rest) = Ret (r, j, None)
            /\ MagicCoffee r = coffee_name next))
  /\ (forall (first : list coffee) (row : coffee),
      count_ok first = 50 ->
      Z.of_nat (length first) <= int_max ->
      price_ok row = false ->
      exists r,
        pg_aggregate (first ++ [row]) = Ret (r, 50, None)
        /\ MagicCoffee r = coffee_name row).
Proof.
  assert (forall first : list coffee,
             length first = 50%nat -> Z.of_nat (length first) <= int_max) as Hfifty.
  { intros first ->. vm_compute. discriminate. }
  split; [| split; [| split]].
  - intros cs Hmax.
    destruct (pg_rows_loop_counter cs zero_payload 0) as (r & Hr & _);
      [lia | lia | apply in_int_0 |].
    exists r. exact Hr.
  - intros first row rest Hlen [Hbad | [Hbad Hrest]].
    + apply ignores_51st_when_below; [auto |].
      pose proof (count_ok_some_bad first Hbad). lia.
    + destruct rest as [| next rest]; [congruence |].
      apply ignores_51st_when_skipped; auto.
  - intros first row next rest Hc Hbound Hbad.
    destruct (pg_aggregate_split first Hbound) as (r0 & Hsplit).
    assert (forall rest',
      pg_aggregate (first ++ row :: next :: rest') =
      outcome_of (pg_rows_loop (to_pg next :: map to_pg rest')
                    (set_MagicCoffee r0 (coffee_name row)) 50)) as Hskip.
    { intros rest'. rewrite Hsplit, Hc. cbn [map]. rewrite pg_step. cbv zeta.
      rewrite (price_bad_parse row Hbad). unfold log_Printf.
      rewrite outcome_bind_emit. reflexivity. }
    split.
    + rewrite (Hskip []). rewrite pg_step. cbv zeta.
      rewrite Z.eqb_refl, set_MagicCoffee_twice.
      destruct (parse_price (coffee_price next)) as [p |].
      * eexists _, _. split; reflexivity.
      * unfold log_Printf. rewrite outcome_bind_emit. eexists _, _. split; reflexivity.
    + intros Hnext Hmax. rewrite (Hskip rest). rewrite pg_step. cbv zeta.
      rewrite Z.eqb_refl, set_MagicCoffee_twice.
      destruct (price_ok_parse next Hnext) as (p & ->).
      change (int_add 50 1) with 51.
      rewrite length_app in Hmax. cbn [length] in Hmax.
      pose proof (count_ok_bounds first) as Hb.
      destruct (pg_rows_loop_past rest (add_Total (set_MagicCoffee r0 (coffee_name next)) p) 51)
        as (r & j & Hr & Hm); [lia | lia |].
      exists r, j. split; [exact Hr | rewrite Hm; reflexivity].
  - intros first row Hc Hbound Hbad.
    destruct (pg_aggregate_split first Hbound) as (r0 & Hsplit).
    rewrite Hsplit, Hc. cbn [map]. rewrite pg_step. cbv zeta.
    rewrite (price_bad_parse row Hbad). unfold log_Printf.
    rewrite outcome_bind_emit. cbn [pg_rows_loop].
    eexists. split; reflexivity.
Qed.

Lemma pg_counter_skips_bad_rows_witness :
  ignores_51st_name (mkCoffee 0 "Decaf" "n/a" :: house 49 1)
    (mkCoffee 50 "Kona" "3.00") [mkCoffee 51 "Java" "3.00"]
  /\ (exists r, pg_aggregate rows_bad_first = Ret (r, 51, None))
  /\ (exists r j,
        pg_aggregate ((mkCoffee 0 "Decaf" "n/a" :: house 50 1)
                        ++ [mkCoffee 51 "Kona" "n/a"; mkCoffee 52 "Java" "oops"])
          = Ret (r, j, None)
        /\ MagicCoffee r = "Java")
  /\ (exists r,
        pg_aggregate ((mkCoffee 0 "Decaf" "n/a" :: house 50 1) ++ [mkCoffee 51 "Kona" "n/a"])
          = Ret (r, 50, None)
        /\ MagicCoffee r = "Kona").
Proof.
  split; [| split; [| split]].
  - apply (proj1 (proj2 pg_counter_skips_bad_rows)).
    + reflexivity.
    + left. constructor. reflexivity.
  - apply (proj1 pg_counter_skips_bad_rows rows_bad_first).
    vm_compute. discriminate.
  - refine (proj1 (proj1 (proj2 (proj2 pg_counter_skips_bad_rows))
             (mkCoffee 0 "Decaf" "n/a" :: house 50 1) (mkCoffee 51 "Kona" "n/a")
             (mkCoffee 52 "Java" "oops") [] _ _ _)).
    + reflexivity.
    + vm_compute. discriminate.
    + reflexivity.
  - refine (proj2 (proj2 (proj2 pg_counter_skips_bad_rows))
             (mkCoffee 0 "Decaf" "n/a" :: house 50 1) (mkCoffee 51 "Kona" "n/a") _ _ _).
    + reflexivity.
    + vm_compute. discriminate.
    + reflexivity.
Defined.

(** C8 as stated fails when the 51st row is the last one and the only one
    whose price does not parse: the counter is 50 when that row is met, its
    name "Kona" becomes the sentinel and no later row replaces it; renamed
    "Java", the sentinel is "Java". *)
Lemma bad_price_skips_51st_refuted : ~ bad_price_skips_51st.
Proof.
  intros H.
  specialize (H (house 50 0) (mkCoffee 50 "Kona" "n/a") [] eq_refl).
  assert (Exists (fun c => price_ok c = false) (house 50 0 ++ [mkCoffee 50 "Kona" "n/a"]))
    as Hbad by (apply Exists_app; right; constructor; reflexivity).
  specialize (H Hbad "Java"). vm_compute in H. discriminate H.
Qed.

Example rows_bad_last_sentinel :
  sentinel_of (drop_counter (pg_aggregate rows_bad_last)) = Some "Kona"
  /\ rows_bad_last !! 50%nat = Some (mkCoffee 50 "Kona" "n/a").
Proof. split; reflexivity. Qed.

(** ** The cluster check *)

Lemma DDDPostgresConnection_ok (w : World) (info : DBConnectionInfo) :
  dbConnectionInfo w = (info, None) ->
  pgxpool_ParseConfig w (pg_dsn info) = None ->
  DDDPostgresConnection w =
    ([EvParseConfig (pg_dsn info)], Ret (Some (mkConfig (pg_dsn info) None), None)).
Proof.
  intros Hinfo Hparse. unfold DDDPostgresConnection. rewrite Hinfo.
  rewrite bind_emit, Hparse. reflexivity.
Qed.

Lemma DDDPostgresConnection_fails (w : World) (info : DBConnectionInfo) (e : error) :
  dbConnectionInfo w = (info, None) ->
  pgxpool_ParseConfig w (pg_dsn info) = Some e ->
  DDDPostgresConnection w =
    ([EvParseConfig (pg_dsn info);
      EvLog "failed to parse pgx config: %v\n" [AErr (Some e)]],
     Ret (None, Some e)).
Proof.
  intros Hinfo Hparse. unfold DDDPostgresConnection. rewrite Hinfo.
  rewrite bind_emit, Hparse. reflexivity.
Qed.





Example world_no_credentials_error :
  outcome_of (DDDAlloyConnect world_no_credentials) =
    Ret (zero_payload, Some "could not find default credentials").
Proof. reflexivity. Qed.

(** ** Verification *)

(** On a status outside 200..299 [sendJson] returns before it reads the
    response: its caller gets the error and no bytes. *)
Lemma sendJson_bad_status (w : World) (endpoint : string) (p : DDDBondPayload)
    (code : Z) (read : string) (read_err : option error) :
  http_NewRequest w (bondCfg_BondURL w +:+ endpoint) = None ->
  client_Do w (bondCfg_BondURL w +:+ endpoint) (json_Marshal p)
    = inr (code, (read, read_err)) ->
  code < 200 \/ 299 < code ->
  outcome_of (sendJson w endpoint p) = Ret (None, Some err_expected_200).
Proof.
  intros Hreq Hdo Hcode. unfold sendJson. rewrite Hreq, outcome_bind_emit, Hdo.
  assert ((code <? 200) || (code >? 299) = true) as ->; [| reflexivity].
  apply orb_true_iff. rewrite Z.ltb_lt, Z.gtb_gt. lia.
Qed.

Lemma sendJson_transport_error (w : World) (endpoint : string) (p : DDDBondPayload)
    (e : error) :
  http_NewRequest w (bondCfg_BondURL w +:+ endpoint) = None ->
  client_Do w (bondCfg_BondURL w +:+ endpoint) (json_Marshal p) = inl e ->
  outcome_of (sendJson w endpoint p) = Ret (None, Some e).
Proof.
  intros Hreq Hdo. unfold sendJson. rewrite Hreq, outcome_bind_emit, Hdo. reflexivity.
Qed.

(** Whatever made [sendJson] fail, the handler answers 500 with a text that
    contains "Error:", and prints the body only if it was handed one. *)
Lemma verify_and_respond_failure (w : World) (agg : DDDBondPayload)
    (res : option string) (e : error) :
  outcome_of (sendJson w "/v1/data_driven_decaf/verify"
                (set_Project_DB agg (cfg_ProjectID w) (os_Getenv w "DB_TYPE")))
    = Ret (res, Some e) ->
  exists resp,
    outcome_of (verify_and_respond w agg) = Ret resp
    /\ status resp = 500
    /\ body resp = TextBody ("Data-Driven Decaf Error: " +:+ e +:+ newline)
    /\ has_substring "Error:" (body_text resp) = true.
Proof.
  intros Hsend. unfold verify_and_respond, log_Printf.
  rewrite outcome_bind_emit, (outcome_bind_Ret _ _ _ Hsend).
  eexists. split.
  - destruct res as [b |]; [rewrite outcome_bind_emit | rewrite bind_ret_l];
      rewrite outcome_bind_emit; reflexivity.
  - split; [reflexivity |]. split; reflexivity.
Qed.

(** C5, at a failing input: 52 rows are aggregated, the Bond service answers
    503 with the body "bond is overloaded".  [sendJson] returns the error
    "expected 200 response" and nil bytes, so the body never reaches the
    handler, whose log line for it is not printed; the handler answers 500
    with a text containing "Error:". *)
Theorem verification_failure_loses_body :
  let w := sample_world "CLOUD_SQL_MYSQL" "" [] (map to_mysql rows_from_one) bond_503 in
  let sent := mkPayload "Kona" 156 "cymbal-project" "CLOUD_SQL_MYSQL" in
  client_Do w (verify_url w) (json_Marshal sent) = inr (503, ("bond is overloaded", None))
  /\ outcome_of (sendJson w "/v1/data_driven_decaf/verify" sent)
     = Ret (None, Some err_expected_200)
  /\ outcome_of (dddHandler w)
     = Ret (mkResponse 500
              (TextBody ("Data-Driven Decaf Error: expected 200 response" +:+ newline)))
  /\ has_substring "Error:"
       ("Data-Driven Decaf Error: expected 200 response" +:+ newline) = true
  /\ Forall (fun e => is_body_log e = false) (trace_of (dddHandler w))
  /\ In (EvLog "Result: %+v" [APayload sent]) (trace_of (dddHandler w)).
Proof.
  cbv zeta. split; [reflexivity |]. split.
  - apply (sendJson_bad_status _ _ _ 503 "bond is overloaded" None);
      [reflexivity | reflexivity | lia].
  - split; [vm_compute; reflexivity |]. split; [reflexivity |]. split.
    + apply (bool_decide_unpack _). vm_compute. reflexivity.
    + vm_compute. tauto.
Qed.

(** ** The response body *)

Lemma jkeys_app (a b : jobject) : jkeys (a ++ b) = jkeys a ++ jkeys b.
Proof. apply map_app. Qed.

Lemma jkeys_omitempty_string (key s k : string) :
  k ∈ jkeys (omitempty_string key s) <-> k = key /\ s <> "".
Proof.
  unfold omitempty_string. destruct (String.eqb_spec s "") as [-> | Hne]; cbn.
  - rewrite elem_of_nil. tauto.
  - rewrite list_elem_of_singleton. tauto.
Qed.

Lemma jkeys_omitempty_int (key : string) (z : Z) (k : string) :
  k ∈ jkeys (omitempty_int key z) <-> k = key /\ z <> 0.
Proof.
  unfold omitempty_int. destruct (Z.eqb_spec z 0) as [-> | Hne]; cbn.
  - rewrite elem_of_nil. tauto.
  - rewrite list_elem_of_singleton. tauto.
Qed.

Lemma jkeys_json_Marshal (p : DDDBondPayload) (k : string) :
  k ∈ jkeys (json_Marshal p) <->
  (k = "magic_coffee" /\ MagicCoffee p <> "")
  \/ (k = "total" /\ Total p <> 0)
  \/ (k = "project" /\ Project p <> "")
  \/ (k = "db" /\ DB p <> "").
Proof.
  unfold json_Marshal. rewrite !jkeys_app, !elem_of_app.
  rewrite !jkeys_omitempty_string, jkeys_omitempty_int. tauto.
Qed.

Lemma verify_and_respond_success (w : World) (agg : DDDBondPayload) (resp : response) :
  outcome_of (verify_and_respond w agg) = Ret resp ->
  status resp = 200 ->
  body resp =
    JsonBody (json_Marshal (set_Project_DB agg (cfg_ProjectID w) (os_Getenv w "DB_TYPE"))).
Proof.
  unfold verify_and_respond, log_Printf. rewrite outcome_bind_emit.
  destruct (sendJson w _ _) as [t [[res [e |]] | msg]] eqn:Hsend.
  - unfold bind at 1. fold (@bind unit response).
    destruct res as [b |]; [rewrite bind_emit | rewrite bind_ret_l];
      rewrite bind_emit; cbn; intros [= <-]; discriminate.
  - unfold bind at 1. rewrite bind_emit. cbn. intros [= <-] _. reflexivity.
  - cbn. discriminate.
Qed.

Lemma dddHandler_after_connect (w : World) (r : DDDBondPayload * option error) :
  (os_Getenv w "DB_TYPE" = "ALLOY_DB" /\ outcome_of (DDDAlloyConnect w) = Ret r)
  \/ (os_Getenv w "DB_TYPE" = "CLOUD_SQL_POSTGRES"
      /\ outcome_of (DDDPostgresConnect w) = Ret r)
  \/ (os_Getenv w "DB_TYPE" = "CLOUD_SQL_MYSQL" /\ outcome_of (DDDMySQLConnect w) = Ret r) ->
  outcome_of (dddHandler w) = outcome_of (after_connect w r).
Proof.
  unfold dddHandler.
  intros [[-> Hr] | [[-> Hr] | [-> Hr]]]; cbn [String.eqb Ascii.eqb Bool.eqb];
    cbv iota; apply outcome_bind_Ret, Hr.
Qed.

(** C10: a member of the response body is present exactly when its field
    is not the zero value.  The body of a 200 response is the marshalled
    result, so a total of 0 leaves no "total" key and an empty sentinel no
    "magic_coffee" key; when the selected backend returns no row, the 200
    response has neither. *)
Theorem omitempty_response :
  (forall p : DDDBondPayload,
      ("magic_coffee" ∈ jkeys (json_Marshal p) <-> MagicCoffee p <> "")
      /\ ("total" ∈ jkeys (json_Marshal p) <-> Total p <> 0)
      /\ ("project" ∈ jkeys (json_Marshal p) <-> Project p <> "")
      /\ ("db" ∈ jkeys (json_Marshal p) <-> DB p <> ""))
  /\ (forall (w : World) (agg : DDDBondPayload) (resp : response),
      outcome_of (after_connect w (agg, None)) = Ret resp ->
      status resp = 200 ->
      exists o,
        body resp = JsonBody o
        /\ o = json_Marshal (set_Project_DB agg (cfg_ProjectID w) (os_Getenv w "DB_TYPE"))
        /\ (Total agg = 0 -> "total" ∉ jkeys o)
        /\ (MagicCoffee agg = "" -> "magic_coffee" ∉ jkeys o))
  /\ (forall (w : World) (resp : response),
      (os_Getenv w "DB_TYPE" = "ALLOY_DB"
       /\ outcome_of (DDDAlloyConnect w) = Ret (zero_payload, None))
      \/ (os_Getenv w "DB_TYPE" = "CLOUD_SQL_POSTGRES"
          /\ outcome_of (DDDPostgresConnect w) = Ret (zero_payload, None))
      \/ (os_Getenv w "DB_TYPE" = "CLOUD_SQL_MYSQL"
          /\ outcome_of (DDDMySQLConnect w) = Ret (zero_payload, None)) ->
      outcome_of (dddHandler w) = Ret resp ->
      status resp = 200 ->
      exists o,
        body resp = JsonBody o
        /\ ("total" ∉ jkeys o) /\ ("magic_coffee" ∉ jkeys o)
        /\ ("db" ∈ jkeys o)).
Proof.
  assert (forall (w : World) (agg : DDDBondPayload) (resp : response),
      outcome_of (after_connect w (agg, None)) = Ret resp ->
      status resp = 200 ->
      exists o,
        body resp = JsonBody o
        /\ o = json_Marshal (set_Project_DB agg (cfg_ProjectID w) (os_Getenv w "DB_TYPE"))
        /\ (Total agg = 0 -> "total" ∉ jkeys o)
        /\ (MagicCoffee agg = "" -> "magic_coffee" ∉ jkeys o)) as Hafter.
  { intros w agg resp Hout Hstatus. cbn [after_connect] in Hout.
    eexists. split; [apply (verify_and_respond_success w agg resp Hout Hstatus) |].
    split; [reflexivity |].
    split; intros Hzero Hin; apply jkeys_json_Marshal in Hin; cbn in Hin;
      destruct Hin as [[Hk Hv] | [[Hk Hv] | [[Hk Hv] | [Hk Hv]]]];
      try discriminate Hk; apply Hv, Hzero. }
  split; [| split; [exact Hafter |]].
  - intros p. repeat split; intros H;
      try (apply jkeys_json_Marshal in H;
           destruct H as [[Hk Hv] | [[Hk Hv] | [[Hk Hv] | [Hk Hv]]]];
           try discriminate Hk; exact Hv);
      apply jkeys_json_Marshal; tauto.
  - intros w resp Hsel Hout Hstatus.
    assert (os_Getenv w "DB_TYPE" <> "") as Hdb
      by (destruct Hsel as [[-> _] | [[-> _] | [-> _]]]; discriminate).
    rewrite (dddHandler_after_connect w (zero_payload, None)) in Hout
      by (destruct Hsel as [[? ?] | [[? ?] | [? ?]]]; auto).
    destruct (Hafter w zero_payload resp Hout Hstatus) as (o & Hbody & Ho & Ht & Hm).
    exists o. split; [exact Hbody |]. split; [apply Ht; reflexivity |].
    split; [apply Hm; reflexivity |].
    rewrite Ho. apply jkeys_json_Marshal. right. right. right.
    split; [reflexivity | exact Hdb].
Qed.

Lemma omitempty_response_witness :
  exists o,
    body (mkResponse 200 (JsonBody [("project", JString "cymbal-project");
                                   ("db", JString "CLOUD_SQL_MYSQL")])) = JsonBody o
    /\ ("total" ∉ jkeys o) /\ ("magic_coffee" ∉ jkeys o) /\ ("db" ∈ jkeys o).
Proof.
  apply (proj2 (proj2 omitempty_response)
           (sample_world "CLOUD_SQL_MYSQL" "" [] [] bond_ok)).
  - right. right. split; reflexivity.
  - reflexivity.
  - reflexivity.
Defined.

Example zero_rows_body :
  outcome_of (dddHandler (sample_world "CLOUD_SQL_MYSQL" "" [] [] bond_ok)) =
    Ret (mkResponse 200 (JsonBody [("project", JString "cymbal-project");
                                  ("db", JString "CLOUD_SQL_MYSQL")])).
Proof. reflexivity. Qed.

Example total_zero_by_cancelling :
  outcome_of (dddHandler (sample_world "CLOUD_SQL_MYSQL" "" []
      [Scanned 51 "Kona" "5.00"; Scanned 2 "Refund" "-5.00"] bond_ok)) =
    Ret (mkResponse 200 (JsonBody [("magic_coffee", JString "Kona");
                                  ("project", JString "cymbal-project");
                                  ("db", JString "CLOUD_SQL_MYSQL")])).
Proof. reflexivity. Qed.

(** * Further properties of the handler *)

(** ** Traces *)

Section TraceForall.
Variable P : event -> Prop.

Lemma Forall_trace_ret {A} (a : A) : Forall P (trace_of (ret a)).
Proof. constructor. Qed.

Lemma Forall_trace_panic {A} (msg : string) : Forall P (trace_of (@panic A msg)).
Proof. constructor. Qed.

Lemma Forall_trace_emit (e : event) : P e -> Forall P (trace_of (emit e)).
Proof. intros H. repeat constructor. exact H. Qed.

Lemma Forall_trace_bind {A B} (m : M A) (k : A -> M B) :
  Forall P (trace_of m) -> (forall a, Forall P (trace_of (k a))) ->
  Forall P (trace_of (bind m k)).
Proof.
  intros Hm Hk. rewrite trace_bind. apply Forall_app. split; [exact Hm |].
  destruct (outcome_of m); [apply Hk | constructor].
Qed.

Lemma Forall_trace_defer {A} (e : event) (m : M A) :
  P e -> Forall P (trace_of m) -> Forall P (trace_of (defer e m)).
Proof.
  intros He Hm. destruct m as [t r]. cbn in *.
  apply Forall_app. split; [exact Hm | repeat constructor; exact He].
Qed.
End TraceForall.

(** Breaks a goal [Forall P (trace_of m)] down along the shape of [m]. *)
Ltac trace_step :=
  lazymatch goal with
  | |- Forall _ (trace_of (bind _ _)) => apply Forall_trace_bind; [| intros ?]
  | |- Forall _ (trace_of (defer _ _)) => apply Forall_trace_defer
  | |- Forall _ (trace_of (ret _)) => apply Forall_trace_ret
  | |- Forall _ (trace_of (panic _)) => apply Forall_trace_panic
  | |- Forall _ (trace_of (emit _)) => apply Forall_trace_emit
  | |- Forall _ (trace_of (log_Printf _ _)) => apply Forall_trace_emit
  | |- Forall _ (trace_of (match ?x with _ => _ end)) => destruct x eqn:?
  end.

Ltac trace_forall := repeat trace_step; try reflexivity; try (split; reflexivity).

Lemma trace_index0 (P : event -> Prop) (xs : list string) : Forall P (trace_of (index0 xs)).
Proof. destruct xs; constructor. Qed.

Lemma trace_string_at (P : event -> Prop) (vs : list value) (k : nat) :
  Forall P (trace_of (string_at vs k)).
Proof. unfold string_at. destruct (vs !! k) as [[] |]; constructor. Qed.

(** The two row loops do nothing to the outside but write their two log
    lines. *)
Section LoopTraces.
Variable P : event -> Prop.
Hypothesis P_query_failed : forall args, P (EvLog "query failed: %v\n" args).
Hypothesis P_not_converted :
  forall args, P (EvLog "Could not convert %v to an integer\n" args).

Lemma mysql_rows_loop_trace (rows : list mysql_row) (res : DDDBondPayload) :
  Forall P (trace_of (mysql_rows_loop rows res)).
Proof.
  revert res.
  induction rows as [| [i bean price | e] rows IH]; intros res; cbn [mysql_rows_loop].
  - constructor.
  - apply Forall_trace_bind; [apply trace_index0 | intros field].
    destruct (strconv_Atoi field); [apply IH |].
    apply Forall_trace_bind; [apply Forall_trace_emit, P_not_converted | intros _; apply IH].
  - apply Forall_trace_bind; [apply Forall_trace_emit, P_query_failed | intros _; constructor].
Qed.

Lemma pg_rows_loop_trace (rows : list pg_row) (res : DDDBondPayload) (i : Z) :
  Forall P (trace_of (pg_rows_loop rows res i)).
Proof.
  revert res i.
  induction rows as [| [vs | e] rows IH]; intros res i; cbn [pg_rows_loop].
  - constructor.
  - apply Forall_trace_bind.
    { destruct (i =? 50); [| constructor].
      apply Forall_trace_bind; [apply trace_string_at | intros; constructor]. }
    intros res1.
    apply Forall_trace_bind; [apply trace_string_at | intros price].
    apply Forall_trace_bind; [apply trace_index0 | intros field].
    destruct (strconv_Atoi field); [apply IH |].
    apply Forall_trace_bind; [apply Forall_trace_emit, P_not_converted | intros _; apply IH].
  - apply Forall_trace_bind; [apply Forall_trace_emit, P_query_failed | intros _; constructor].
Qed.
End LoopTraces.

(** The database side of a request emits anything but a POST to the Bond
    service and the log line for a response body. *)
Section ConnectTraces.
Variable P : event -> Prop.
Hypothesis P_backend : forall e, is_bond_post e = false -> is_body_log e = false -> P e.
Variable w : World.

Ltac backend_event := apply P_backend; reflexivity.

Lemma DDDPostgresRows_trace (pool : pgx_Config) :
  Forall P (trace_of (DDDPostgresRows w pool)).
Proof.
  unfold DDDPostgresRows. trace_forall; try backend_event.
  apply pg_rows_loop_trace; intros; backend_event.
Qed.

Lemma connect_and_query_trace (c : option pgx_Config) (target : string) :
  Forall P (trace_of (connect_and_query w c target)).
Proof.
  unfold connect_and_query. trace_forall; try backend_event.
  apply DDDPostgresRows_trace.
Qed.

Lemma DDDPostgresConnection_trace : Forall P (trace_of (DDDPostgresConnection w)).
Proof. unfold DDDPostgresConnection. trace_forall; backend_event. Qed.

Lemma DDDAlloyConnect_trace : Forall P (trace_of (DDDAlloyConnect w)).
Proof.
  unfold DDDAlloyConnect. trace_forall; try backend_event.
  - apply DDDPostgresConnection_trace.
  - apply connect_and_query_trace.
Qed.

Lemma DDDPostgresConnect_trace : Forall P (trace_of (DDDPostgresConnect w)).
Proof.
  unfold DDDPostgresConnect. trace_forall; try backend_event.
  - apply DDDPostgresConnection_trace.
  - apply connect_and_query_trace.
Qed.

Lemma DDDMySQLConnect_trace : Forall P (trace_of (DDDMySQLConnect w)).
Proof.
  unfold DDDMySQLConnect. trace_forall; try backend_event.
  apply mysql_rows_loop_trace; intros; backend_event.
Qed.

Lemma selected_connect_trace (m : M (DDDBondPayload * option error)) :
  selected_connect w = Some m -> Forall P (trace_of m).
Proof.
  unfold selected_connect.
  destruct (String.eqb _ "ALLOY_DB"); [intros [= <-]; apply DDDAlloyConnect_trace |].
  destruct (String.eqb _ "CLOUD_SQL_POSTGRES");
    [intros [= <-]; apply DDDPostgresConnect_trace |].
  destruct (String.eqb _ "CLOUD_SQL_MYSQL");
    [intros [= <-]; apply DDDMySQLConnect_trace | discriminate].
Qed.
End ConnectTraces.

(** The handler is the selected connect function followed by
    [after_connect], or the answer to an unknown DB_TYPE. *)
Lemma dddHandler_selected (w : World) :
  dddHandler w =
  match selected_connect w with
  | Some connect => r <- connect ;; after_connect w r
  | None =>
      log_Printf "Data-Driven Decaf: Unknown DB type %v\n" [AStr (os_Getenv w "DB_TYPE")] ;;;
      ret (http_Error ("Error: Unknown DB type " +:+ os_Getenv w "DB_TYPE")
             StatusInternalServerError)
  end.
Proof.
  unfold dddHandler, selected_connect.
  destruct (String.eqb _ "ALLOY_DB"); [reflexivity |].
  destruct (String.eqb _ "CLOUD_SQL_POSTGRES"); [reflexivity |].
  destruct (String.eqb _ "CLOUD_SQL_MYSQL"); reflexivity.
Qed.

(** ** The verification client and the handler *)

Lemma filter_post_nil (t : list event) :
  Forall (fun e => is_bond_post e = false) t ->
  filter (fun e => is_bond_post e = true) t = [].
Proof.
  induction 1 as [| e t He _ IH]; [reflexivity |].
  rewrite filter_cons, decide_False by congruence. exact IH.
Qed.

(** [sendJson] never panics and makes at most one call, the POST; the four
    ways it can end. *)
Lemma sendJson_cases (w : World) (endpoint : string) (p : DDDBondPayload) :
  let url := bondCfg_BondURL w +:+ endpoint in
  (exists e, http_NewRequest w url = Some e
             /\ sendJson w endpoint p = ([], Ret (None, Some e)))
  \/ (http_NewRequest w url = None
      /\ exists res err,
          sendJson w endpoint p = ([EvClientDo url (json_Marshal p)], Ret (res, err))
          /\ ((exists e, client_Do w url (json_Marshal p) = inl e
                         /\ res = None /\ err = Some e)
              \/ (exists code read read_err,
                     client_Do w url (json_Marshal p) = inr (code, (read, read_err))
                     /\ (code < 200 \/ 299 < code)
                     /\ res = None /\ err = Some err_expected_200)
              \/ (exists code read read_err,
                     client_Do w url (json_Marshal p) = inr (code, (read, read_err))
                     /\ 200 <= code <= 299
                     /\ res = Some read /\ err = read_err))).
Proof.
  cbv zeta. unfold sendJson.
  destruct (http_NewRequest w _) as [e |]; [left; eauto |].
  right. split; [reflexivity |]. rewrite bind_emit.
  destruct (client_Do w _ _) as [e | [code [read read_err]]] eqn:Hdo.
  - exists None, (Some e). split; [reflexivity |]. left. eauto.
  - destruct ((code <? 200) || (code >? 299)) eqn:Hcode.
    + exists None, (Some err_expected_200). split; [reflexivity |].
      right. left. exists code, read, read_err. split; [reflexivity |].
      apply orb_true_iff in Hcode. rewrite Z.ltb_lt, Z.gtb_gt in Hcode.
      split; [lia | split; reflexivity].
    + exists (Some read), read_err. split; [reflexivity |].
      right. right. exists code, read, read_err. split; [reflexivity |].
      apply orb_false_iff in Hcode. rewrite Z.ltb_ge, Z.gtb_ltb, Z.ltb_ge in Hcode.
      split; [lia | split; reflexivity].
Qed.

(** X1: [sendJson] never panics.  It returns a nil error exactly when the
    request could be built, the status is within 200..299 (200 and 299
    included) and the body was read without error, and in that case it
    returns the body; it returns bytes only when the status was within
    200..299, and then they are what was read; a status outside 200..299
    gives the error "expected 200 response" and no bytes.  It makes no call
    when the request cannot be built and one POST otherwise, to the
    configured base URL followed by the endpoint, carrying the marshalled
    payload. *)
Theorem sendJson_contract (w : World) (endpoint : string) (p : DDDBondPayload) :
  let url := bondCfg_BondURL w +:+ endpoint in
  let succeeds (body : string) :=
    http_NewRequest w url = None
    /\ exists code,
         client_Do w url (json_Marshal p) = inr (code, (body, None))
         /\ 200 <= code <= 299 in
  exists res err,
    outcome_of (sendJson w endpoint p) = Ret (res, err)
    /\ (err = None <-> exists body, succeeds body)
    /\ (forall body, succeeds body -> res = Some body /\ err = None)
    /\ (forall b, res = Some b ->
        exists code read_err,
          client_Do w url (json_Marshal p) = inr (code, (b, read_err))
          /\ 200 <= code <= 299 /\ err = read_err)
    /\ (forall code read read_err,
          http_NewRequest w url = None ->
          client_Do w url (json_Marshal p) = inr (code, (read, read_err)) ->
          code < 200 \/ 299 < code ->
          res = None /\ err = Some err_expected_200)
    /\ trace_of (sendJson w endpoint p) =
         match http_NewRequest w url with
         | Some _ => []
         | None => [EvClientDo url (json_Marshal p)]
         end.
Proof.
  cbv zeta.
  destruct (sendJson_cases w endpoint p) as [(e & Hreq & ->) | (Hreq & res & err & -> & Hcase)];
    rewrite Hreq.
  - exists None, (Some e). split; [reflexivity |].
    split; [split; [discriminate | intros (b & H & _); discriminate H] |].
    split; [intros b [H _]; discriminate H |].
    split; [discriminate |]. split; [discriminate | reflexivity].
  - exists res, err. split; [reflexivity |].
    destruct Hcase as [(e & Hdo & -> & ->)
                      | [(code & read & rerr & Hdo & Hcode & -> & ->)
                        | (code & read & rerr & Hdo & Hcode & -> & ->)]];
      rewrite Hdo.
    + split; [split; [discriminate | intros (b & _ & c & H & _); discriminate H] |].
      split; [intros b [_ (c & H & _)]; discriminate H |].
      split; [discriminate |]. split; [discriminate | reflexivity].
    + split; [split; [discriminate
                     | intros (b & _ & c & H & Hc); injection H as -> _ _; lia] |].
      split; [intros b [_ (c & H & Hc)]; injection H as -> _ _; lia |].
      split; [discriminate |]. split; [auto | reflexivity].
    + split.
      { split.
        - intros ->. exists read. split; [reflexivity |]. exists code. auto.
        - intros (b & _ & c & H & _). injection H as _ _ ->. reflexivity. }
      split.
      { intros b [_ (c & H & _)]. injection H as _ -> ->. split; reflexivity. }
      split.
      { intros b [= <-]. exists code, rerr. auto. }
      split; [| reflexivity].
      intros c r re _ H Hc. injection H as -> _ _. lia.
Qed.

Lemma sendJson_contract_witness :
  exists res err,
    outcome_of (sendJson (sample_world "CLOUD_SQL_MYSQL" "" [] [] bond_ok) "/v1/x"
                  zero_payload) = Ret (res, err)
    /\ res = Some "ok" /\ err = None.
Proof.
  destruct (sendJson_contract (sample_world "CLOUD_SQL_MYSQL" "" [] [] bond_ok) "/v1/x"
              zero_payload) as (res & err & Hout & _ & Hok & _).
  exists res, err. split; [exact Hout |].
  apply Hok. split; [reflexivity |]. exists 200. split; [reflexivity | lia].
Defined.

Lemma verify_and_respond_run (w : World) (agg : DDDBondPayload)
    (t : list event) (res : option string) (err : option error) :
  let p := set_Project_DB agg (cfg_ProjectID w) (os_Getenv w "DB_TYPE") in
  sendJson w "/v1/data_driven_decaf/verify" p = (t, Ret (res, err)) ->
  verify_and_respond w agg =
  match err with
  | Some e =>
      (EvLog "Result: %+v" [APayload p] :: t
         ++ match res with
            | Some b => [EvLog "Data-Driven Decaf: Error: Body: %v" [AStr b]]
            | None => []
            end
         ++ [EvLog "Data-Driven Decaf: Error: %v\n" [AErr err]],
       Ret (http_Error ("Data-Driven Decaf Error: " +:+ e) StatusInternalServerError))
  | None =>
      (EvLog "Result: %+v" [APayload p] :: t ++ [EvLog "Response: %v\n" [ABytes (default "" res)]],
       Ret (json_Encode p))
  end.
Proof.
  cbv zeta. intros Hsend. unfold verify_and_respond, log_Printf.
  rewrite bind_emit, Hsend. destruct err as [e |]; [destruct res as [b |] |]; reflexivity.
Qed.

Lemma sendJson_returns (w : World) (endpoint : string) (p : DDDBondPayload) :
  exists t res err, sendJson w endpoint p = (t, Ret (res, err)).
Proof.
  destruct (sendJson_cases w endpoint p) as [(e & _ & ->) | (_ & res & err & -> & _)]; eauto.
Qed.

Lemma prefix_app (needle s e : string) :
  String.prefix needle s = true -> String.prefix needle (s +:+ e) = true.
Proof.
  revert s. induction needle as [| a needle IH]; intros s H;
    [destruct (s +:+ e); reflexivity |].
  destruct s as [| b s]; [discriminate |].
  change (String b s +:+ e) with (String b (s +:+ e)).
  cbn [String.prefix] in *. destruct (ascii_dec a b); [apply IH, H | discriminate].
Qed.

Lemma has_substring_app (needle s e : string) :
  has_substring needle s = true -> has_substring needle (s +:+ e) = true.
Proof.
  induction s as [| c s IH].
  - cbn [has_substring]. rewrite orb_false_r. intros H.
    destruct needle; [| discriminate]. destruct ("" +:+ e); reflexivity.
  - change (String c s +:+ e) with (String c (s +:+ e)).
    cbn [has_substring]. rewrite !orb_true_iff. intros [H | H].
    + left. apply (prefix_app needle (String c s) e H).
    + right. apply IH, H.
Qed.

Lemma error_text_has_Error (lead e : string) :
  has_substring "Error:" lead = true ->
  has_substring "Error:" (body_text (http_Error (lead +:+ e) StatusInternalServerError)) = true.
Proof.
  intros H. unfold http_Error, body_text. cbn [body].
  apply has_substring_app, has_substring_app, H.
Qed.

Lemma after_connect_shape (w : World) (r : DDDBondPayload * option error) (resp : response) :
  outcome_of (after_connect w r) = Ret resp ->
  (status resp = 200 /\ exists o, body resp = JsonBody o)
  \/ (status resp = 500
      /\ exists s, body resp = TextBody s /\ has_substring "Error:" s = true).
Proof.
  destruct r as [agg [e |]]; cbn [after_connect].
  - unfold log_Printf. rewrite outcome_bind_emit. intros [= <-].
    right. split; [reflexivity |]. eexists. split; [reflexivity |].
    apply (error_text_has_Error "Error: " e). reflexivity.
  - destruct (sendJson_returns w "/v1/data_driven_decaf/verify"
                (set_Project_DB agg (cfg_ProjectID w) (os_Getenv w "DB_TYPE")))
      as (t & res & err & Hsend).
    rewrite (verify_and_respond_run w agg t res err Hsend).
    destruct err as [e |]; intros [= <-].
    + right. split; [reflexivity |]. eexists. split; [reflexivity |].
      apply (error_text_has_Error "Data-Driven Decaf Error: " e). reflexivity.
    + left. split; [reflexivity |]. eexists. reflexivity.
Qed.

(** X2: whenever the handler writes a response, it is either status 200
    with a JSON body or status 500 with a plain text that contains
    "Error:"; no other status is ever written. *)
Theorem dddHandler_response_shape (w : World) (resp : response) :
  outcome_of (dddHandler w) = Ret resp ->
  (status resp = 200 /\ exists o, body resp = JsonBody o)
  \/ (status resp = 500
      /\ exists s, body resp = TextBody s /\ has_substring "Error:" s = true).
Proof.
  rewrite dddHandler_selected.
  destruct (selected_connect w) as [connect |].
  - destruct connect as [t [r | msg]]; [| discriminate].
    rewrite (outcome_bind_Ret _ _ r) by reflexivity.
    apply after_connect_shape.
  - unfold log_Printf. rewrite outcome_bind_emit. intros [= <-].
    right. split; [reflexivity |]. eexists. split; [reflexivity |].
    apply (error_text_has_Error "Error: Unknown DB type " (os_Getenv w "DB_TYPE")).
    reflexivity.
Qed.

Lemma dddHandler_response_shape_witness :
  status (mkResponse 500 (TextBody ("Error: expected db cluster to be set" +:+ newline))) = 500
  /\ exists s,
       body (mkResponse 500 (TextBody ("Error: expected db cluster to be set" +:+ newline)))
         = TextBody s
       /\ has_substring "Error:" s = true.
Proof.
  destruct (dddHandler_response_shape (sample_world "ALLOY_DB" "" [] [] bond_ok)
              (mkResponse 500 (TextBody ("Error: expected db cluster to be set" +:+ newline))))
    as [[H _] | H]; [reflexivity | discriminate H | exact H].
Defined.

Lemma dddHandler_trace (w : World) :
  trace_of (dddHandler w) =
  match selected_connect w with
  | Some connect =>
      trace_of connect
      ++ match outcome_of connect with
         | Ret r => trace_of (after_connect w r)
         | Panic _ => []
         end
  | None => [EvLog "Data-Driven Decaf: Unknown DB type %v\n" [AStr (os_Getenv w "DB_TYPE")]]
  end.
Proof.
  rewrite dddHandler_selected. destruct (selected_connect w); [apply trace_bind | reflexivity].
Qed.

Lemma dddHandler_outcome (w : World) :
  outcome_of (dddHandler w) =
  match selected_connect w with
  | Some connect =>
      match outcome_of connect with
      | Ret r => outcome_of (after_connect w r)
      | Panic msg => Panic msg
      end
  | None =>
      Ret (http_Error ("Error: Unknown DB type " +:+ os_Getenv w "DB_TYPE")
             StatusInternalServerError)
  end.
Proof.
  rewrite dddHandler_selected. destruct (selected_connect w) as [[t [r | msg]] |].
  - apply outcome_bind_Ret. reflexivity.
  - reflexivity.
  - reflexivity.
Qed.

(** What [verify_and_respond] adds to the trace: the result log, what
    [sendJson] does, then log lines only. *)
Lemma verify_and_respond_parts (w : World) (agg : DDDBondPayload) :
  let p := set_Project_DB agg (cfg_ProjectID w) (os_Getenv w "DB_TYPE") in
  let sent := trace_of (sendJson w "/v1/data_driven_decaf/verify" p) in
  exists logs resp,
    verify_and_respond w agg = (EvLog "Result: %+v" [APayload p] :: sent ++ logs, Ret resp)
    /\ Forall (fun e => is_log e = true) logs
    /\ (sent = [] \/ sent = [EvClientDo (verify_url w) (json_Marshal p)])
    /\ (forall o, body resp = JsonBody o ->
        o = json_Marshal p /\ sent = [EvClientDo (verify_url w) (json_Marshal p)])
    /\ (forall e, In e logs -> is_body_log e = true ->
        exists code read err,
          client_Do w (verify_url w) (json_Marshal p) = inr (code, (read, Some err))
          /\ 200 <= code <= 299
          /\ e = EvLog "Data-Driven Decaf: Error: Body: %v" [AStr read]).
Proof.
  cbv zeta.
  set (p := set_Project_DB agg (cfg_ProjectID w) (os_Getenv w "DB_TYPE")).
  destruct (sendJson_cases w "/v1/data_driven_decaf/verify" p)
    as [(e & Hreq & Hsend) | (Hreq & res & err & Hsend & Hcase)];
    rewrite (verify_and_respond_run w agg _ _ _ Hsend); fold p; rewrite Hsend; cbn [trace_of fst].
  - eexists _, _. split; [reflexivity |]. split; [repeat constructor |].
    split; [left; reflexivity |]. split; [intros o [=] |].
    intros ev [<- | []] Hb. discriminate Hb.
  - destruct Hcase as [(e & Hdo & -> & ->)
                      | [(code & read & rerr & Hdo & Hcode & -> & ->)
                        | (code & read & rerr & Hdo & Hcode & -> & ->)]].
    + eexists _, _. split; [reflexivity |]. split; [repeat constructor |].
      split; [right; reflexivity |]. split; [intros o [=] |].
      intros ev [<- | []] Hb. discriminate Hb.
    + eexists _, _. split; [reflexivity |]. split; [repeat constructor |].
      split; [right; reflexivity |]. split; [intros o [=] |].
      intros ev [<- | []] Hb. discriminate Hb.
    + destruct rerr as [e |].
      * eexists _, _. split; [reflexivity |]. split; [repeat constructor |].
        split; [right; reflexivity |]. split; [intros o [=] |].
        intros ev [<- | [<- | []]] Hb; [| discriminate Hb].
        exists code, read, e. split; [exact Hdo |]. split; [exact Hcode | reflexivity].
      * eexists _, _. split; [reflexivity |]. split; [repeat constructor |].
        split; [right; reflexivity |].
        split; [intros o [= <-]; split; reflexivity |].
        intros ev [<- | []] Hb. discriminate Hb.
Qed.

Lemma after_connect_error (w : World) (agg : DDDBondPayload) (e : error) :
  after_connect w (agg, Some e) =
  ([EvLog "Data-Driven Decaf: Error: %v\n" [AErr (Some e)]],
   Ret (http_Error ("Error: " +:+ e) StatusInternalServerError)).
Proof. reflexivity. Qed.

Lemma In_post_not_log (url : string) (o : jobject) (logs : list event) :
  Forall (fun e => is_log e = true) logs -> ~ In (EvClientDo url o) logs.
Proof.
  intros Hlogs Hin. rewrite Forall_forall in Hlogs.
  apply list_elem_of_In, Hlogs in Hin. discriminate Hin.
Qed.

Lemma filter_post_logs (logs : list event) :
  Forall (fun e => is_log e = true) logs ->
  filter (fun e => is_bond_post e = true) logs = [].
Proof.
  intros H. apply filter_post_nil. eapply Forall_impl; [exact H |].
  intros [] He; try discriminate He; reflexivity.
Qed.

(** X3: in one request the handler posts to the Bond service at most once.
    It posts only to the verification URL and only after the selected
    backend returned an aggregate with a nil error, and what it posts is
    that aggregate with the project and the DB_TYPE filled in; when it
    answers with a JSON body, that body is the object it posted. *)
Theorem dddHandler_posts_once (w : World) :
  (length (filter (fun e => is_bond_post e = true) (trace_of (dddHandler w))) <= 1)%nat
  /\ (forall url o,
        In (EvClientDo url o) (trace_of (dddHandler w)) ->
        url = verify_url w
        /\ exists connect agg,
             selected_connect w = Some connect
             /\ outcome_of connect = Ret (agg, None)
             /\ o = json_Marshal
                      (set_Project_DB agg (cfg_ProjectID w) (os_Getenv w "DB_TYPE")))
  /\ (forall resp o,
        outcome_of (dddHandler w) = Ret resp ->
        body resp = JsonBody o ->
        In (EvClientDo (verify_url w) o) (trace_of (dddHandler w))).
Proof.
  rewrite dddHandler_trace, dddHandler_outcome.
  destruct (selected_connect w) as [connect |] eqn:Hsel.
  2: { split; [rewrite filter_post_nil by (repeat constructor); cbn; lia |]. split.
       - intros url o [H | []]. discriminate H.
       - intros resp o [= <-] H. discriminate H. }
  pose proof (selected_connect_trace (fun e => is_bond_post e = false)
                ltac:(auto) w connect Hsel) as Hconnect.
  assert (forall url o, ~ In (EvClientDo url o) (trace_of connect)) as Hnopost.
  { intros url o Hin. rewrite Forall_forall in Hconnect.
    apply list_elem_of_In, Hconnect in Hin. discriminate Hin. }
  destruct (outcome_of connect) as [[agg [e |]] | msg] eqn:Hout.
  - rewrite after_connect_error. cbn [trace_of outcome_of fst snd].
    rewrite filter_app, (filter_post_nil _ Hconnect).
    split; [rewrite filter_post_nil by (repeat constructor); cbn; lia |]. split.
    + intros url o Hin. apply in_app_or in Hin as [Hin | [Hin | []]];
        [destruct (Hnopost _ _ Hin) | discriminate Hin].
    + intros resp o [= <-] H. discriminate H.
  - cbn [after_connect].
    destruct (verify_and_respond_parts w agg) as (logs & resp & -> & Hlogs & Hsent & Hjson & _).
    cbn [trace_of outcome_of fst snd].
    set (p := set_Project_DB agg (cfg_ProjectID w) (os_Getenv w "DB_TYPE")) in *.
    set (sent := trace_of (sendJson w "/v1/data_driven_decaf/verify" p)) in *.
    split; [| split].
    + rewrite filter_app, (filter_post_nil _ Hconnect), filter_cons.
      rewrite decide_False by discriminate.
      rewrite filter_app, (filter_post_logs logs Hlogs), app_nil_r.
      destruct Hsent as [-> | ->]; [cbn; lia |].
      rewrite filter_cons, decide_True by reflexivity. cbn. lia.
    + intros url o Hin. apply in_app_or in Hin as [Hin | [Hin | Hin]];
        [destruct (Hnopost _ _ Hin) | discriminate Hin |].
      apply in_app_or in Hin as [Hin | Hin]; [| destruct (In_post_not_log _ _ _ Hlogs Hin)].
      destruct Hsent as [E | E]; rewrite E in Hin; [destruct Hin |].
      destruct Hin as [[= <- <-] | []]. split; [reflexivity |].
      exists connect, agg. auto.
    + intros resp' o [= <-] Hbody. destruct (Hjson o Hbody) as [-> E].
      apply in_or_app. right. right. apply in_or_app. left. rewrite E. left. reflexivity.
  - rewrite app_nil_r. rewrite (filter_post_nil _ Hconnect). split; [cbn; lia |]. split.
    + intros url o Hin. destruct (Hnopost _ _ Hin).
    + discriminate.
Qed.

(** X4: the log line that prints the body of the verification response is
    written only when the Bond service answered with a status within
    200..299 and reading the body then failed; it is never written for an
    answer outside 200..299, nor for a transport error. *)
Theorem body_logged_only_on_read_failure (w : World) (e : event) :
  In e (trace_of (dddHandler w)) ->
  is_body_log e = true ->
  exists connect agg code read err,
    selected_connect w = Some connect
    /\ outcome_of connect = Ret (agg, None)
    /\ client_Do w (verify_url w)
         (json_Marshal (set_Project_DB agg (cfg_ProjectID w) (os_Getenv w "DB_TYPE")))
       = inr (code, (read, Some err))
    /\ 200 <= code <= 299
    /\ e = EvLog "Data-Driven Decaf: Error: Body: %v" [AStr read].
Proof.
  rewrite dddHandler_trace.
  destruct (selected_connect w) as [connect |] eqn:Hsel.
  2: { intros [<- | []] H. discriminate H. }
  pose proof (selected_connect_trace (fun e => is_body_log e = false)
                ltac:(auto) w connect Hsel) as Hconnect.
  intros Hin Hbody. apply in_app_or in Hin as [Hin | Hin].
  { rewrite Forall_forall in Hconnect. apply list_elem_of_In, Hconnect in Hin. congruence. }
  destruct (outcome_of connect) as [[agg [e0 |]] | msg] eqn:Hout.
  - rewrite after_connect_error in Hin. destruct Hin as [<- | []]. discriminate Hbody.
  - cbn [after_connect] in Hin.
    destruct (verify_and_respond_parts w agg) as (logs & resp & E & _ & Hsent & _ & Hlog).
    rewrite E in Hin. cbn [trace_of fst] in Hin.
    destruct Hin as [<- | Hin]; [discriminate Hbody |].
    apply in_app_or in Hin as [Hin | Hin].
    + destruct Hsent as [E' | E']; rewrite E' in Hin; [destruct Hin |].
      destruct Hin as [<- | []]. discriminate Hbody.
    + destruct (Hlog e Hin Hbody) as (code & read & err & Hdo & Hcode & ->).
      exists connect, agg, code, read, err. auto.
  - destruct Hin.
Qed.

Lemma body_logged_only_on_read_failure_witness :
  exists connect agg code read err,
    selected_connect (sample_world "CLOUD_SQL_MYSQL" "" [] [] bond_truncated) = Some connect
    /\ outcome_of connect = Ret (agg, None)
    /\ bond_truncated "" [] = inr (code, (read, Some err))
    /\ 200 <= code <= 299
    /\ EvLog "Data-Driven Decaf: Error: Body: %v" [AStr "{partial"]
       = EvLog "Data-Driven Decaf: Error: Body: %v" [AStr read].
Proof.
  apply (body_logged_only_on_read_failure
           (sample_world "CLOUD_SQL_MYSQL" "" [] [] bond_truncated)
           (EvLog "Data-Driven Decaf: Error: Body: %v" [AStr "{partial"])).
  - vm_compute. repeat (first [left; reflexivity | right]).
  - reflexivity.
Defined.

Lemma sendJson_reply_ok (w : World) (endpoint : string) (p : DDDBondPayload) :
  reply_ok (client_Do w (bondCfg_BondURL w +:+ endpoint) (json_Marshal p)) ->
  outcome_of (sendJson w endpoint p) =
  match http_NewRequest w (bondCfg_BondURL w +:+ endpoint) with
  | Some e => Ret (None, Some e)
  | None =>
      match client_Do w (bondCfg_BondURL w +:+ endpoint) (json_Marshal p) with
      | inr (_, (read, _)) => Ret (Some read, None)
      | inl e => Ret (None, Some e)
      end
  end.
Proof.
  intros Hok. unfold sendJson.
  destruct (http_NewRequest w _); [reflexivity |].
  rewrite outcome_bind_emit.
  destruct (client_Do w _ _) as [e | [code [read [e |]]]]; try destruct Hok.
  replace ((code <? 200) || (code >? 299)) with false; [reflexivity |].
  symmetry. apply orb_false_iff. rewrite Z.ltb_ge, Z.gtb_ltb, Z.ltb_ge. lia.
Qed.

Lemma verify_and_respond_reply_ok (w : World) (agg : DDDBondPayload) :
  let p := set_Project_DB agg (cfg_ProjectID w) (os_Getenv w "DB_TYPE") in
  reply_ok (client_Do w (verify_url w) (json_Marshal p)) ->
  outcome_of (verify_and_respond w agg) =
  match http_NewRequest w (verify_url w) with
  | Some e => Ret (http_Error ("Data-Driven Decaf Error: " +:+ e) StatusInternalServerError)
  | None => Ret (json_Encode p)
  end.
Proof.
  cbv zeta. intros Hok.
  pose proof (sendJson_reply_ok w "/v1/data_driven_decaf/verify" _ Hok) as Hsend.
  destruct (sendJson w "/v1/data_driven_decaf/verify" _) as [t [[res err] | msg]] eqn:E.
  - rewrite (verify_and_respond_run w agg t res err E).
    cbn [outcome_of snd] in Hsend. fold (verify_url w) in Hsend.
    destruct (http_NewRequest w (verify_url w)).
    + injection Hsend as -> ->. reflexivity.
    + destruct (client_Do w (verify_url w) _) as [e | [code [read rerr]]];
        [destruct Hok |].
      injection Hsend as -> ->. reflexivity.
  - cbn [outcome_of snd] in Hsend. fold (verify_url w) in Hsend.
    destruct (http_NewRequest w (verify_url w)); [discriminate Hsend |].
    destruct (client_Do w (verify_url w) _) as [e | [code [read rerr]]]; discriminate Hsend.
Qed.

(** X5: what the Bond service puts in a successful answer does not reach the
    caller: two Bond services that both answer every POST with a status
    within 200..299 and a readable body make the handler return the same
    outcome, whatever those statuses and bodies are. *)
Theorem bond_reply_content_ignored (w : World)
    (f g : string -> jobject -> http_reply) :
  (forall url o, reply_ok (f url o)) ->
  (forall url o, reply_ok (g url o)) ->
  outcome_of (dddHandler (with_client_Do w f)) = outcome_of (dddHandler (with_client_Do w g)).
Proof.
  intros Hf Hg. rewrite !dddHandler_outcome.
  change (selected_connect (with_client_Do w f)) with (selected_connect w).
  change (selected_connect (with_client_Do w g)) with (selected_connect w).
  destruct (selected_connect w) as [connect |]; [| reflexivity].
  destruct (outcome_of connect) as [[agg [e |]] | msg]; [reflexivity | | reflexivity].
  cbn [after_connect].
  rewrite !verify_and_respond_reply_ok by (cbn; auto).
  reflexivity.
Qed.

Lemma bond_reply_content_ignored_witness :
  outcome_of (dddHandler (with_client_Do
                (sample_world "CLOUD_SQL_MYSQL" "" [] (map to_mysql rows_from_one) bond_503)
                bond_ok))
  = outcome_of (dddHandler (with_client_Do
                  (sample_world "CLOUD_SQL_MYSQL" "" [] (map to_mysql rows_from_one) bond_503)
                  bond_no_content)).
Proof.
  apply bond_reply_content_ignored; intros url o; cbn; lia.
Defined.

(** ** The row loops *)

Lemma parsed_rows_cons (c : coffee) (cs : list coffee) :
  parsed_rows (c :: cs) = if price_ok c then c :: parsed_rows cs else parsed_rows cs.
Proof.
  unfold parsed_rows. rewrite filter_cons.
  destruct (price_ok c); [rewrite decide_True | rewrite decide_False]; congruence.
Qed.

Lemma count_ok_parsed_rows (cs : list coffee) :
  count_ok cs = Z.of_nat (length (parsed_rows cs)).
Proof. reflexivity. Qed.

(** From counter [50 - k] the sentinel ends as the name of the row that
    parses after [k] other rows that parse. *)
Lemma pg_sentinel_reached (cs : list coffee) (k : nat) (res : DDDBondPayload) (row : coffee) :
  (k <= 50)%nat ->
  Z.of_nat (length cs) + 50 <= int_max ->
  parsed_rows cs !! k = Some row ->
  exists r j,
    outcome_of (pg_rows_loop (map to_pg cs) res (50 - Z.of_nat k)) = Ret (r, j, None)
    /\ MagicCoffee r = coffee_name row.
Proof.
  revert k res. induction cs as [| c cs IH]; intros k res Hk Hmax Hrow; [discriminate |].
  cbn [map length] in *. rewrite pg_step. cbv zeta.
  rewrite parsed_rows_cons in Hrow. unfold price_ok in Hrow.
  destruct (parse_price (coffee_price c)) as [p |].
  - destruct k as [| k].
    + injection Hrow as ->. change (50 - Z.of_nat 0) with 50.
      rewrite Z.eqb_refl. change (int_add 50 1) with 51.
      destruct (pg_rows_loop_past cs (add_Total (set_MagicCoffee res (coffee_name row)) p) 51)
        as (r & j & Hr & Hm); [lia | lia |].
      exists r, j. split; [exact Hr | rewrite Hm; reflexivity].
    + cbn [lookup list_lookup] in Hrow.
      replace (50 - Z.of_nat (S k) =? 50) with false by (symmetry; apply Z.eqb_neq; lia).
      rewrite int_add_1 by (unfold int_max in *; lia).
      replace (50 - Z.of_nat (S k) + 1) with (50 - Z.of_nat k) by lia.
      apply IH; [lia | lia | exact Hrow].
  - unfold log_Printf. rewrite outcome_bind_emit. apply IH; [lia | lia | exact Hrow].
Qed.

(** While fewer than 50 rows have parsed the sentinel is not touched. *)
Lemma pg_sentinel_unreached (cs : list coffee) (res : DDDBondPayload) (i : Z) :
  0 <= i -> i + count_ok cs < 50 ->
  exists r j,
    outcome_of (pg_rows_loop (map to_pg cs) res i) = Ret (r, j, None)
    /\ MagicCoffee r = MagicCoffee res.
Proof.
  revert res i. induction cs as [| c cs IH]; intros res i Hi Hlt.
  - exists res, i. split; reflexivity.
  - cbn [map]. rewrite pg_step. cbv zeta.
    rewrite count_ok_cons in Hlt. unfold price_ok in Hlt.
    pose proof (count_ok_bounds cs) as Hb.
    destruct (parse_price (coffee_price c)) as [p |];
      (replace (i =? 50) with false by (symmetry; apply Z.eqb_neq; lia)).
    + rewrite int_add_1 by (unfold int_max; lia).
      destruct (IH (add_Total res p) (i + 1)) as (r & j & Hr & Hm); [lia | lia |].
      exists r, j. split; [exact Hr | exact Hm].
    + unfold log_Printf. rewrite outcome_bind_emit. apply IH; lia.
Qed.

(** When exactly [50 - i] more rows parse, the last row decides. *)
Lemma pg_sentinel_at_end (cs : list coffee) (res : DDDBondPayload) (i : Z) :
  0 <= i -> i + count_ok cs = 50 ->
  exists r j,
    outcome_of (pg_rows_loop (map to_pg cs) res i) = Ret (r, j, None)
    /\ MagicCoffee r =
       match last cs with
       | Some l => if price_ok l then MagicCoffee res else coffee_name l
       | None => MagicCoffee res
       end.
Proof.
  revert res i. induction cs as [| c cs IH]; intros res i Hi Hsum.
  - exists res, i. split; reflexivity.
  - cbn [map]. rewrite pg_step. cbv zeta.
    rewrite count_ok_cons in Hsum.
    pose proof (count_ok_bounds cs) as Hb.
    assert (last (c :: cs) = match last cs with Some l => Some l | None => Some c end) as ->
      by (rewrite last_cons; destruct (last cs); reflexivity).
    assert (forall l, last cs = Some l -> price_ok l = true -> 1 <= count_ok cs) as Hlast.
    { intros l Hl Hok. apply last_Some in Hl as (cs' & ->).
      unfold count_ok. rewrite filter_app, filter_cons, decide_True by exact Hok.
      rewrite length_app. cbn [length]. lia. }
    unfold price_ok in Hsum.
    destruct (parse_price (coffee_price c)) as [p |] eqn:Hp.
    + replace (i =? 50) with false by (symmetry; apply Z.eqb_neq; lia).
      rewrite int_add_1 by (unfold int_max; lia).
      destruct (IH (add_Total res p) (i + 1)) as (r & j & Hr & Hm); [lia | lia |].
      exists r, j. split; [exact Hr |]. rewrite Hm.
      destruct (last cs) as [l |] eqn:Hl; [reflexivity |].
      unfold price_ok. rewrite Hp. reflexivity.
    + unfold log_Printf. rewrite outcome_bind_emit.
      set (res1 := if i =? 50 then _ else _).
      destruct (IH res1 i) as (r & j & Hr & Hm); [lia | lia |].
      exists r, j. split; [exact Hr |]. rewrite Hm.
      destruct (last cs) as [l |] eqn:Hl.
      * destruct (price_ok l) eqn:Hok; [| reflexivity].
        pose proof (Hlast l eq_refl Hok).
        subst res1. replace (i =? 50) with false by (symmetry; apply Z.eqb_neq; lia).
        reflexivity.
      * apply last_None in Hl. subst cs. unfold count_ok in Hsum. cbn in Hsum.
        unfold price_ok. rewrite Hp.
        subst res1. replace (i =? 50) with true by (symmetry; apply Z.eqb_eq; lia).
        reflexivity.
Qed.

(** X6: what the Postgres sentinel is, for any well-typed result set of
    fewer than 2^63 - 50 rows.  If at least 51 rows have a price that
    parses, it is the name of the 51st of them; if fewer than 50 have, it is
    empty; if exactly 50 have, it is the name of the last row returned when
    that row's price does not parse, and empty otherwise. *)
Theorem pg_sentinel_is_51st_parsed (w : World) (pool : pgx_Config) (cs : list coffee) :
  pool_Query w pool defaultQuery = inr (map to_pg cs) ->
  Z.of_nat (length cs) + 50 <= int_max ->
  exists r,
    outcome_of (DDDPostgresRows w pool) = Ret (r, None)
    /\ (forall row, parsed_rows cs !! 50%nat = Some row -> MagicCoffee r = coffee_name row)
    /\ ((length (parsed_rows cs) < 50)%nat -> MagicCoffee r = "")
    /\ (length (parsed_rows cs) = 50%nat ->
        MagicCoffee r =
        match last cs with
        | Some l => if price_ok l then "" else coffee_name l
        | None => ""
        end).
Proof.
  intros Hq Hmax. rewrite (DDDPostgresRows_outcome w pool _ Hq).
  destruct (pg_rows_loop_counter cs zero_payload 0) as (r & Hr & _);
    [lia | lia | apply in_int_0 |].
  rewrite Hr. exists r. split; [reflexivity |]. split; [| split].
  - intros row Hrow.
    destruct (pg_sentinel_reached cs 50 zero_payload row) as (r' & j & Hr' & Hm);
      [lia | exact Hmax | exact Hrow |].
    change (50 - Z.of_nat 50) with 0 in Hr'. rewrite Hr in Hr'.
    injection Hr' as -> _. exact Hm.
  - intros Hlt.
    destruct (pg_sentinel_unreached cs zero_payload 0) as (r' & j & Hr' & Hm);
      [lia | rewrite count_ok_parsed_rows; lia |].
    rewrite Hr in Hr'. injection Hr' as -> _. exact Hm.
  - intros Heq.
    destruct (pg_sentinel_at_end cs zero_payload 0) as (r' & j & Hr' & Hm);
      [lia | rewrite count_ok_parsed_rows, Heq; reflexivity |].
    rewrite Hr in Hr'. injection Hr' as -> _. exact Hm.
Qed.

Lemma pg_sentinel_is_51st_parsed_witness :
  exists r,
    outcome_of (DDDPostgresRows
                  (sample_world "CLOUD_SQL_POSTGRES" "" (map to_pg rows_bad_first) [] bond_ok)
                  (mkConfig "" None)) = Ret (r, None)
    /\ MagicCoffee r = "Java".
Proof.
  destruct (pg_sentinel_is_51st_parsed
              (sample_world "CLOUD_SQL_POSTGRES" "" (map to_pg rows_bad_first) [] bond_ok)
              (mkConfig "" None) rows_bad_first)
    as (r & Hr & H51 & _); [reflexivity | vm_compute; discriminate |].
  exists r. split; [exact Hr |].
  apply (H51 (mkCoffee 51 "Java" "3.00")). reflexivity.
Defined.


Lemma sum_prices_cons (c : coffee) (cs : list coffee) :
  sum_prices (c :: cs) =
  match parse_price (coffee_price c) with Some p => p | None => 0 end + sum_prices cs.
Proof.
  cbn [sum_prices foldr]. fold (sum_prices cs).
  destruct (parse_price (coffee_price c)); lia.
Qed.

Lemma sum_prices_Permutation (cs cs' : list coffee) :
  Permutation cs cs' -> sum_prices cs = sum_prices cs'.
Proof.
  induction 1 as [| c cs cs' _ IH | c d cs | cs1 cs2 cs3 _ IH1 _ IH2].
  - reflexivity.
  - rewrite !sum_prices_cons, IH. reflexivity.
  - rewrite !sum_prices_cons. lia.
  - congruence.
Qed.

(** X7: for any well-typed result set, of any length, both paths return a
    total equal to the sum of the integer parts of the prices that parse,
    wrapped into [int]; rows whose price does not parse add nothing.  The
    total is therefore the same for the two paths and does not depend on the
    order in which the rows are returned, and it is the exact sum whenever
    that sum is an [int]. *)
Theorem total_is_wrapped_sum (cs : list coffee) :
  (exists r j, pg_aggregate cs = Ret (r, j, None) /\ Total r = wrap_int (sum_prices cs))
  /\ (exists r, mysql_aggregate cs = Ret (r, None) /\ Total r = wrap_int (sum_prices cs))
  /\ (in_int (sum_prices cs) -> wrap_int (sum_prices cs) = sum_prices cs)
  /\ (forall cs', Permutation cs cs' -> sum_prices cs' = sum_prices cs).
Proof.
  split; [| split; [| split]].
  - destruct (pg_rows_loop_total cs zero_payload 0 in_int_0) as (r & j & Hr & Ht).
    exists r, j. split; [exact Hr | exact Ht].
  - destruct (mysql_rows_loop_total cs zero_payload in_int_0) as (r & Hr & Ht).
    exists r. split; [exact Hr | exact Ht].
  - apply wrap_int_small.
  - intros cs' Hp. symmetry. apply sum_prices_Permutation, Hp.
Qed.

Lemma total_is_wrapped_sum_witness :
  sum_prices (rev rows_bad_first) = sum_prices rows_bad_first
  /\ wrap_int (sum_prices rows_bad_first) = 153.
Proof.
  split.
  - apply (proj2 (proj2 (proj2 (total_is_wrapped_sum rows_bad_first)))).
    apply Permutation_rev.
  - rewrite (proj1 (proj2 (proj2 (total_is_wrapped_sum rows_bad_first))));
      [reflexivity | vm_compute; split; discriminate].
Defined.

(** ** A row that cannot be read *)



(** ** Panics *)

Lemma DDDPostgresRows_run (w : World) (pool : pgx_Config) (rows : list pg_row) :
  pool_Query w pool defaultQuery = inr rows ->
  DDDPostgresRows w pool =
  (EvPoolQuery defaultQuery :: trace_of (pg_rows_loop rows zero_payload 0) ++ [EvRowsClose],
   drop_counter (outcome_of (pg_rows_loop rows zero_payload 0))).
Proof.
  intros Hq. unfold DDDPostgresRows. rewrite bind_emit, Hq.
  destruct (pg_rows_loop rows zero_payload 0) as [t [r | msg]];
    cbn; rewrite ?app_nil_r; reflexivity.
Qed.

Lemma string_at_not_string (vs : list value) (k : nat) :
  not_string (vs !! k) -> exists msg, string_at vs k = panic msg.
Proof.
  unfold string_at, not_string. destruct (vs !! k) as [[s | z |] |]; intros H;
    [destruct H | eauto | eauto | eauto].
Qed.

Lemma outcome_bind_Panic {A B} (m : M A) (k : A -> M B) (msg : string) :
  outcome_of m = Panic msg -> outcome_of (bind m k) = Panic msg.
Proof. destruct m as [t [a | msg']]; cbn; [discriminate | intros [= ->]; reflexivity]. Qed.

Lemma pg_step_untyped_price (vs : list value) (rest : list pg_row)
    (res : DDDBondPayload) (i : Z) :
  not_string (vs !! 2%nat) ->
  exists msg, outcome_of (pg_rows_loop (Values vs :: rest) res i) = Panic msg.
Proof.
  intros Hprice. cbn [pg_rows_loop].
  destruct (string_at_not_string vs 2 Hprice) as (msg & Hp).
  destruct (i =? 50).
  - unfold string_at at 1.
    destruct (vs !! 1%nat) as [[s | z |] |]; try (eexists; reflexivity).
    rewrite !bind_ret_l, Hp. eexists. reflexivity.
  - rewrite bind_ret_l, Hp. eexists. reflexivity.
Qed.

Lemma pg_step_untyped_name (vs : list value) (rest : list pg_row) (res : DDDBondPayload) :
  not_string (vs !! 1%nat) ->
  exists msg, outcome_of (pg_rows_loop (Values vs :: rest) res 50) = Panic msg.
Proof.
  intros Hname. cbn [pg_rows_loop]. rewrite Z.eqb_refl.
  destruct (string_at_not_string vs 1 Hname) as (msg & ->). eexists. reflexivity.
Qed.

Lemma pg_step_name_unread (vs : list value) (price : string) (rest : list pg_row)
    (res : DDDBondPayload) (i : Z) :
  i <> 50 -> vs !! 2%nat = Some (VString price) ->
  pg_rows_loop (Values vs :: rest) res i = pg_rows_loop (to_pg (mkCoffee 0 "" price) :: rest) res i.
Proof.
  intros Hi Hprice. unfold to_pg. cbn [pg_rows_loop].
  apply Z.eqb_neq in Hi. rewrite Hi. unfold string_at. rewrite Hprice. reflexivity.
Qed.

(** X9: the Postgres loop trusts the column types.  After any well-typed
    rows, a row whose third column is missing or not a string makes
    [DDDPostgresRows] panic; so does a row whose second column is not a
    string when it is met at counter 50, while at any other counter the
    second column is not looked at.  The deferred [rows.Close] still runs. *)
Theorem pg_untyped_row_panics (w : World) (pool : pgx_Config) (cs : list coffee)
    (vs : list value) (rest : list pg_row) :
  pool_Query w pool defaultQuery = inr (map to_pg cs ++ Values vs :: rest) ->
  Z.of_nat (length cs) <= int_max ->
  ends_with (trace_of (DDDPostgresRows w pool)) [EvRowsClose]
  /\ (not_string (vs !! 2%nat) ->
      exists msg, outcome_of (DDDPostgresRows w pool) = Panic msg)
  /\ (count_ok cs = 50 -> not_string (vs !! 1%nat) ->
      exists msg, outcome_of (DDDPostgresRows w pool) = Panic msg)
  /\ (forall price,
        count_ok cs <> 50 -> vs !! 2%nat = Some (VString price) ->
        outcome_of (DDDPostgresRows w pool)
        = drop_counter (outcome_of (pg_rows_loop
            (map to_pg cs ++ to_pg (mkCoffee 0 "" price) :: rest) zero_payload 0))).
Proof.
  intros Hq Hmax. rewrite (DDDPostgresRows_run w pool _ Hq). cbn [trace_of outcome_of fst snd].
  split.
  { exists (EvPoolQuery defaultQuery
            :: (pg_rows_loop (map to_pg cs ++ Values vs :: rest) zero_payload 0).1).
    reflexivity. }
  destruct (pg_rows_loop_counter cs zero_payload 0) as (r & Hr & _);
    [lia | lia | apply in_int_0 |].
  change ((pg_rows_loop (map to_pg cs ++ Values vs :: rest) zero_payload 0).2)
    with (outcome_of (pg_rows_loop (map to_pg cs ++ Values vs :: rest) zero_payload 0)).
  rewrite !pg_rows_loop_app, !(outcome_bind_Ret _ _ _ Hr). cbn [fst snd].
  rewrite Z.add_0_l. split; [| split].
  - intros Hprice.
    destruct (pg_step_untyped_price vs rest r (count_ok cs) Hprice) as (msg & ->).
    exists msg. reflexivity.
  - intros -> Hname.
    destruct (pg_step_untyped_name vs rest r Hname) as (msg & ->).
    exists msg. reflexivity.
  - intros price Hne Hprice.
    rewrite (pg_step_name_unread vs price rest r (count_ok cs) Hne Hprice).
    rewrite (pg_rows_loop_app cs (to_pg _ :: rest)), (outcome_bind_Ret _ _ _ Hr).
    cbn [fst snd]. rewrite Z.add_0_l. reflexivity.
Qed.

Lemma pg_untyped_row_panics_witness :
  exists msg,
    outcome_of (DDDPostgresRows
      (sample_world "CLOUD_SQL_POSTGRES" ""
         (map to_pg (house 2 1) ++ [Values [VInt 3; VString "Kona"; VNull]]) [] bond_ok)
      (mkConfig "" None)) = Panic msg.
Proof.
  refine (proj1 (proj2 (pg_untyped_row_panics
           (sample_world "CLOUD_SQL_POSTGRES" ""
              (map to_pg (house 2 1) ++ [Values [VInt 3; VString "Kona"; VNull]]) [] bond_ok)
           (mkConfig "" None) (house 2 1) [VInt 3; VString "Kona"; VNull] [] _ _)) _).
  - reflexivity.
  - vm_compute. discriminate.
  - exact I.
Defined.

Lemma after_connect_returns (w : World) (r : DDDBondPayload * option error) :
  exists resp, outcome_of (after_connect w r) = Ret resp.
Proof.
  destruct r as [agg [e |]].
  - rewrite after_connect_error. eauto.
  - cbn [after_connect].
    destruct (verify_and_respond_parts w agg) as (logs & resp & -> & _). eauto.
Qed.

Lemma DDDMySQLConnect_returns (w : World) :
  exists r err, outcome_of (DDDMySQLConnect w) = Ret (r, err).
Proof.
  unfold DDDMySQLConnect. destruct (dbConnectionInfo w) as [info [e |]].
  - unfold log_Printf. rewrite outcome_bind_emit. eauto.
  - rewrite outcome_bind_emit.
    destruct (sql_Open w _ _); unfold log_Printf; rewrite outcome_bind_emit; [eauto |].
    destruct (db_Query w _ _) as [e | rows]; [rewrite outcome_bind_emit; eauto |].
    rewrite outcome_defer.
    destruct (mysql_rows_loop_sentinel rows zero_payload) as (r & err & Hr & _). eauto.
Qed.

(** X10: nothing on the MySQL path can panic.  Whatever the environment,
    the driver and the rows are, [DDDMySQLConnect] returns, and unless
    DB_TYPE selects one of the two Postgres backends the handler always
    writes a response. *)
Theorem mysql_path_always_answers (w : World) :
  (exists r err, outcome_of (DDDMySQLConnect w) = Ret (r, err))
  /\ (os_Getenv w "DB_TYPE" <> "ALLOY_DB" ->
      os_Getenv w "DB_TYPE" <> "CLOUD_SQL_POSTGRES" ->
      exists resp, outcome_of (dddHandler w) = Ret resp).
Proof.
  split; [apply DDDMySQLConnect_returns |].
  intros Ha Hp. rewrite dddHandler_outcome. unfold selected_connect.
  apply String.eqb_neq in Ha, Hp. rewrite Ha, Hp.
  destruct (String.eqb _ "CLOUD_SQL_MYSQL"); [| eauto].
  destruct (DDDMySQLConnect_returns w) as (r & err & ->).
  apply after_connect_returns.
Qed.

(** ** The connection paths *)

Lemma dddHandler_after_selected (w : World) (connect : M (DDDBondPayload * option error))
    (r : DDDBondPayload * option error) :
  selected_connect w = Some connect -> outcome_of connect = Ret r ->
  outcome_of (dddHandler w) = outcome_of (after_connect w r).
Proof. intros Hsel Hout. rewrite dddHandler_outcome, Hsel, Hout. reflexivity. Qed.

(** X11: when the pgx configuration does not parse, the two Postgres
    backends part ways.  [DDDAlloyConnect] returns the parse error.
    [DDDPostgresConnect] drops it: it still creates its dialer, returns the
    dialer's error if there is one, and otherwise writes through the nil
    configuration and panics, so that the handler writes no response; the
    dialer is closed on the way out and no pool is opened. *)
Theorem cloudsql_parse_failure_panics (w : World) (info : DBConnectionInfo) (e : error) :
  dbConnectionInfo w = (info, None) ->
  pgxpool_ParseConfig w (pg_dsn info) = Some e ->
  outcome_of (DDDAlloyConnect w) = Ret (zero_payload, Some e)
  /\ (forall e', cloudsqlconn_NewDialer w = Some e' ->
      outcome_of (DDDPostgresConnect w) = Ret (zero_payload, Some e'))
  /\ (cloudsqlconn_NewDialer w = None ->
      exists msg,
        DDDPostgresConnect w =
          ([EvParseConfig (pg_dsn info);
            EvLog "failed to parse pgx config: %v\n" [AErr (Some e)];
            EvCloudSQLNewDialer; EvDialerClose],
           Panic msg)
        /\ (os_Getenv w "DB_TYPE" = "CLOUD_SQL_POSTGRES" ->
            outcome_of (dddHandler w) = Panic msg)).
Proof.
  intros Hinfo Hparse.
  pose proof (DDDPostgresConnection_fails w info e Hinfo Hparse) as Hconn.
  split; [| split].
  - unfold DDDAlloyConnect. rewrite Hconn. reflexivity.
  - intros e' Hdial. unfold DDDPostgresConnect. rewrite Hconn, Hdial. reflexivity.
  - intros Hdial.
    exists "invalid memory address or nil pointer dereference".
    assert (DDDPostgresConnect w =
            ([EvParseConfig (pg_dsn info);
              EvLog "failed to parse pgx config: %v\n" [AErr (Some e)];
              EvCloudSQLNewDialer; EvDialerClose],
             Panic "invalid memory address or nil pointer dereference")) as Hrun
      by (unfold DDDPostgresConnect; rewrite Hconn, Hdial; cbn; rewrite Hinfo; reflexivity).
    split; [exact Hrun |].
    intros Htype. rewrite dddHandler_outcome. unfold selected_connect. rewrite Htype.
    cbn [String.eqb Ascii.eqb Bool.eqb]. cbv iota. rewrite Hrun. reflexivity.
Qed.

Lemma cloudsql_parse_failure_panics_witness :
  exists msg,
    outcome_of (dddHandler
      (mkWorld (coffee_env "CLOUD_SQL_POSTGRES" "") "cymbal-project" "https://bond.example"
         (fun _ => Some "cannot parse `password=...`") None None (fun _ => None)
         (fun _ _ => inr []) (fun _ _ => None) (fun _ _ => inr []) (fun _ => None) bond_ok))
    = Panic msg.
Proof.
  destruct (cloudsql_parse_failure_panics
              (mkWorld (coffee_env "CLOUD_SQL_POSTGRES" "") "cymbal-project"
                 "https://bond.example"
                 (fun _ => Some "cannot parse `password=...`") None None (fun _ => None)
                 (fun _ _ => inr []) (fun _ _ => None) (fun _ _ => inr []) (fun _ => None)
                 bond_ok)
              (dbConnectionInfo (sample_world "CLOUD_SQL_POSTGRES" "" [] [] bond_ok)).1
              "cannot parse `password=...`")
    as (_ & _ & H); [reflexivity | reflexivity |].
  destruct H as (msg & _ & Hh); [reflexivity |].
  exists msg. apply Hh. reflexivity.
Defined.

(** X12: with a required variable missing every backend fails before any
    pool is opened or query sent, and the handler answers 500.  The AlloyDB
    and MySQL paths return the configuration error without calling any
    library.  The Cloud SQL Postgres path creates its dialer first: it
    returns the dialer's error if that fails and the configuration error
    otherwise. *)
Theorem missing_config_fails_every_backend (w : World) :
  dbConnectionInfo w = (zero_info, Some err_missing_env) ->
  (outcome_of (DDDAlloyConnect w) = Ret (zero_payload, Some err_missing_env)
   /\ Forall (fun e => is_db_library_event e = false) (trace_of (DDDAlloyConnect w)))
  /\ (outcome_of (DDDMySQLConnect w) = Ret (zero_payload, Some err_missing_env)
      /\ Forall (fun e => is_db_library_event e = false) (trace_of (DDDMySQLConnect w)))
  /\ (outcome_of (DDDPostgresConnect w)
        = Ret (zero_payload, Some (default err_missing_env (cloudsqlconn_NewDialer w)))
      /\ In EvCloudSQLNewDialer (trace_of (DDDPostgresConnect w))
      /\ Forall (fun e => is_db_event e = false) (trace_of (DDDPostgresConnect w)))
  /\ (forall connect, selected_connect w = Some connect ->
      exists e, outcome_of (dddHandler w)
                = Ret (mkResponse 500 (TextBody ("Error: " +:+ e +:+ newline)))).
Proof.
  intros Hinfo.
  assert (DDDPostgresConnection w =
          ([EvLog "Error: Cannot load database info: %v\n" [AErr (Some err_missing_env)]],
           Ret (None, Some err_missing_env))) as Hconn
    by (unfold DDDPostgresConnection; rewrite Hinfo; reflexivity).
  assert (DDDAlloyConnect w =
          ([EvLog "Error: Cannot load database info: %v\n" [AErr (Some err_missing_env)];
            EvLog "failed to parse pgx config: %v\n" [AErr (Some err_missing_env)]],
           Ret (zero_payload, Some err_missing_env))) as Ha
    by (unfold DDDAlloyConnect; rewrite Hconn; reflexivity).
  assert (DDDMySQLConnect w =
          ([EvLog "Error: Cannot load database info: %v\n" [AErr (Some err_missing_env)]],
           Ret (zero_payload, Some err_missing_env))) as Hm
    by (unfold DDDMySQLConnect; rewrite Hinfo; reflexivity).
  assert (exists t,
            DDDPostgresConnect w =
              (t, Ret (zero_payload, Some (default err_missing_env (cloudsqlconn_NewDialer w))))
            /\ In EvCloudSQLNewDialer t
            /\ Forall (fun e => is_db_event e = false) t) as (t & Hp & Hin & Hno).
  { unfold DDDPostgresConnect. rewrite Hconn.
    destruct (cloudsqlconn_NewDialer w) as [e |].
    - eexists. split; [reflexivity |]. split; [cbn; tauto | repeat constructor].
    - cbn. rewrite Hinfo. eexists. split; [reflexivity |].
      split; [cbn; tauto | repeat constructor]. }
  split; [rewrite Ha; split; [reflexivity | repeat constructor] |].
  split; [rewrite Hm; split; [reflexivity | repeat constructor] |].
  split; [rewrite Hp; auto |].
  intros connect Hsel.
  assert (exists e, outcome_of connect = Ret (zero_payload, Some e)) as (e & Hout).
  { unfold selected_connect in Hsel.
    destruct (String.eqb _ "ALLOY_DB"); [injection Hsel as <-; rewrite Ha; eauto |].
    destruct (String.eqb _ "CLOUD_SQL_POSTGRES"); [injection Hsel as <-; rewrite Hp; eauto |].
    destruct (String.eqb _ "CLOUD_SQL_MYSQL"); [injection Hsel as <-; rewrite Hm; eauto |].
    discriminate Hsel. }
  exists e. rewrite (dddHandler_after_selected w connect _ Hsel Hout), after_connect_error.
  reflexivity.
Qed.

Lemma missing_config_fails_every_backend_witness :
  outcome_of (DDDPostgresConnect
    (mkWorld ∅ "p" "u" (fun _ => None) None (Some "no credentials") (fun _ => None)
       (fun _ _ => inr []) (fun _ _ => None) (fun _ _ => inr []) (fun _ => None) bond_ok))
  = Ret (zero_payload, Some "no credentials").
Proof.
  apply (missing_config_fails_every_backend
    (mkWorld ∅ "p" "u" (fun _ => None) None (Some "no credentials") (fun _ => None)
       (fun _ _ => inr []) (fun _ _ => None) (fun _ _ => inr []) (fun _ => None) bond_ok)).
  reflexivity.
Defined.






Lemma DDDAlloyConnect_run (w : World) (info : DBConnectionInfo) :
  dbConnectionInfo w = (info, None) ->
  pgxpool_ParseConfig w (pg_dsn info) = None ->
  alloydbconn_NewDialer w = None ->
  DBCluster info <> "" ->
  DDDAlloyConnect w =
  (EvParseConfig (pg_dsn info) :: EvAlloyNewDialer
     :: trace_of (connect_and_query w (Some (mkConfig (pg_dsn info) None)) (alloy_target info))
     ++ [EvDialerClose],
   outcome_of (connect_and_query w (Some (mkConfig (pg_dsn info) None)) (alloy_target info))).
Proof.
  intros Hinfo Hparse Hdial Hcluster. unfold DDDAlloyConnect.
  rewrite (DDDPostgresConnection_ok w info Hinfo Hparse).
  apply is_empty_false in Hcluster.
  unfold bind at 1. rewrite bind_emit, Hdial, Hinfo, Hcluster.
  destruct (connect_and_query w _ _) as [t o]. reflexivity.
Qed.


Lemma DDDPostgresConnect_run (w : World) (info : DBConnectionInfo) :
  dbConnectionInfo w = (info, None) ->
  pgxpool_ParseConfig w (pg_dsn info) = None ->
  cloudsqlconn_NewDialer w = None ->
  DDDPostgresConnect w =
  (EvParseConfig (pg_dsn info) :: EvCloudSQLNewDialer
     :: trace_of (connect_and_query w (Some (mkConfig (pg_dsn info) None)) (cloudsql_target info))
     ++ [EvDialerClose],
   outcome_of (connect_and_query w (Some (mkConfig (pg_dsn info) None)) (cloudsql_target info))).
Proof.
  intros Hinfo Hparse Hdial. unfold DDDPostgresConnect.
  rewrite (DDDPostgresConnection_ok w info Hinfo Hparse).
  unfold bind at 1. cbn [fst snd]. rewrite bind_emit, Hdial, Hinfo.
  destruct (connect_and_query w _ _) as [t o]. reflexivity.
Qed.



(** ** What DB_CLUSTER does not change *)

Section ClusterIgnored.
Variable w : World.
Variable v : string.

Let w' : World := with_environ w (<["DB_CLUSTER" := v]> (environ w)).

Lemma os_Getenv_other (key : string) :
  key <> "DB_CLUSTER" -> os_Getenv w' key = os_Getenv w key.
Proof.
  intros Hne. unfold os_Getenv, w', with_environ. cbn [environ].
  rewrite lookup_insert_ne by congruence. reflexivity.
Qed.

Lemma dbConnectionInfo_cluster :
  dbConnectionInfo w' =
  match dbConnectionInfo w with
  | (info, None) =>
      (mkInfo (User info) (Pass info) (DBName info) (DBRegion info) v (DBInstance info)
         (ProjectID info), None)
  | failed => failed
  end.
Proof.
  unfold dbConnectionInfo.
  assert (os_Getenv w' "DB_CLUSTER" = v) as ->
    by (unfold os_Getenv, w', with_environ; cbn [environ];
        rewrite lookup_insert_eq; reflexivity).
  rewrite (os_Getenv_other "DB_USER"), (os_Getenv_other "DB_PASS"),
    (os_Getenv_other "DB_NAME"), (os_Getenv_other "DB_REGION"),
    (os_Getenv_other "DB_INSTANCE"), (os_Getenv_other "DB_PROJECT") by discriminate.
  change (cfg_ProjectID w') with (cfg_ProjectID w).
  destruct (is_empty (os_Getenv w "DB_USER") || is_empty (os_Getenv w "DB_PASS")
            || is_empty (os_Getenv w "DB_INSTANCE") || is_empty (os_Getenv w "DB_NAME"));
    reflexivity.
Qed.

Lemma DDDPostgresConnection_cluster : DDDPostgresConnection w' = DDDPostgresConnection w.
Proof.
  unfold DDDPostgresConnection. rewrite dbConnectionInfo_cluster.
  destruct (dbConnectionInfo w) as [info [e |]]; reflexivity.
Qed.

Lemma DDDPostgresConnect_cluster : DDDPostgresConnect w' = DDDPostgresConnect w.
Proof.
  unfold DDDPostgresConnect.
  rewrite DDDPostgresConnection_cluster, dbConnectionInfo_cluster.
  destruct (dbConnectionInfo w) as [info [e |]]; reflexivity.
Qed.

Lemma DDDMySQLConnect_cluster : DDDMySQLConnect w' = DDDMySQLConnect w.
Proof.
  unfold DDDMySQLConnect. rewrite dbConnectionInfo_cluster.
  destruct (dbConnectionInfo w) as [info [e |]]; reflexivity.
Qed.

Lemma after_connect_cluster (r : DDDBondPayload * option error) :
  after_connect w' r = after_connect w r.
Proof.
  destruct r as [agg [e |]]; [reflexivity |].
  cbn [after_connect]. unfold verify_and_respond.
  rewrite (os_Getenv_other "DB_TYPE") by discriminate. reflexivity.
Qed.
End ClusterIgnored.

(** X14: only the AlloyDB backend uses DB_CLUSTER.  Setting, changing or
    emptying it changes nothing in what [DDDPostgresConnect] and
    [DDDMySQLConnect] do and return, and with DB_TYPE set to
    CLOUD_SQL_POSTGRES or CLOUD_SQL_MYSQL nothing in what the handler does
    and answers. *)
Theorem cluster_only_matters_to_alloy (w : World) (v : string) :
  let w' := with_environ w (<["DB_CLUSTER" := v]> (environ w)) in
  DDDPostgresConnect w' = DDDPostgresConnect w
  /\ DDDMySQLConnect w' = DDDMySQLConnect w
  /\ (os_Getenv w "DB_TYPE" = "CLOUD_SQL_POSTGRES" \/ os_Getenv w "DB_TYPE" = "CLOUD_SQL_MYSQL" ->
      dddHandler w' = dddHandler w).
Proof.
  cbv zeta. split; [apply DDDPostgresConnect_cluster |].
  split; [apply DDDMySQLConnect_cluster |].
  intros Htype. unfold dddHandler.
  rewrite (os_Getenv_other w v "DB_TYPE") by discriminate.
  destruct Htype as [-> | ->]; cbn [String.eqb Ascii.eqb Bool.eqb]; cbv iota.
  - rewrite DDDPostgresConnect_cluster.
    destruct (DDDPostgresConnect w) as [t [r | msg]]; [| reflexivity].
    cbn [bind]. rewrite after_connect_cluster. reflexivity.
  - rewrite DDDMySQLConnect_cluster.
    destruct (DDDMySQLConnect w) as [t [r | msg]]; [| reflexivity].
    cbn [bind]. rewrite after_connect_cluster. reflexivity.
Qed.

Lemma cluster_only_matters_to_alloy_witness :
  dddHandler (with_environ (sample_world "CLOUD_SQL_MYSQL" "" [] (map to_mysql rows_from_one) bond_ok)
                (<["DB_CLUSTER" := "coffee-cluster"]>
                   (environ (sample_world "CLOUD_SQL_MYSQL" "" []
                               (map to_mysql rows_from_one) bond_ok))))
  = dddHandler (sample_world "CLOUD_SQL_MYSQL" "" [] (map to_mysql rows_from_one) bond_ok).
Proof.
  apply (cluster_only_matters_to_alloy
           (sample_world "CLOUD_SQL_MYSQL" "" [] (map to_mysql rows_from_one) bond_ok)
           "coffee-cluster").
  right. reflexivity.
Defined.

(** ** Start-up *)

(** X15: [DDDInit] returns nil exactly when both registrations succeed,
    and otherwise the error of the first one that fails; the MySQL driver is
    not registered when the AlloyDB registration fails.  Because the cleanup
    functions are deferred inside [DDDInit], every driver it registered has
    had its cleanup run by the time it returns, also when it succeeds: the
    MySQL cleanup first, then the AlloyDB one. *)
Theorem DDDInit_cleans_up_before_returning
    (pgxv4_RegisterDriver mysql_RegisterDriver : string -> option error) :
  let run := DDDInit pgxv4_RegisterDriver mysql_RegisterDriver in
  (run.2 = None <->
   pgxv4_RegisterDriver "alloydb" = None /\ mysql_RegisterDriver "cloudsql-mysql" = None)
  /\ run.2 = match pgxv4_RegisterDriver "alloydb" with
             | Some e => Some e
             | None => mysql_RegisterDriver "cloudsql-mysql"
             end
  /\ live_drivers run.1 [] = []
  /\ (pgxv4_RegisterDriver "alloydb" <> None ->
      forall answer, ~ In (Register "cloudsql-mysql" answer) run.1)
  /\ (run.2 = None ->
      run.1 = [Register "alloydb" None; Register "cloudsql-mysql" None;
               Cleanup "cloudsql-mysql"; Cleanup "alloydb"]).
Proof.
  cbv zeta. unfold DDDInit.
  destruct (pgxv4_RegisterDriver "alloydb") as [ea |];
    [| destruct (mysql_RegisterDriver "cloudsql-mysql") as [em |]]; cbn [fst snd].
  - split; [split; [discriminate | intros [H _]; discriminate H] |].
    split; [reflexivity |]. split; [reflexivity |]. split; [| discriminate].
    intros _ answer [H | [H | []]]; discriminate H.
  - split; [split; [discriminate | intros [_ H]; discriminate H] |].
    split; [reflexivity |]. split; [reflexivity |]. split; [| discriminate].
    intros H. destruct H. reflexivity.
  - split; [split; auto |].
    split; [reflexivity |]. split; [reflexivity |]. split; [| reflexivity].
    intros H. destruct H. reflexivity.
Qed.

Lemma DDDInit_cleans_up_before_returning_witness :
  (DDDInit (fun _ => None) (fun _ => None)).1 =
    [Register "alloydb" None; Register "cloudsql-mysql" None;
     Cleanup "cloudsql-mysql"; Cleanup "alloydb"].
Proof.
  apply (DDDInit_cleans_up_before_returning (fun _ => None) (fun _ => None)).
  reflexivity.
Defined.

Lemma sendJson_url (w : World) (endpoint : string) (p : DDDBondPayload)
    (url : string) (o : jobject) :
  In (EvClientDo url o) (trace_of (sendJson w endpoint p)) ->
  url = bondCfg_BondURL w +:+ endpoint /\ o = json_Marshal p.
Proof.
  destruct (sendJson_cases w endpoint p) as [(e & _ & ->) | (_ & res & err & -> & _)].
  - intros [].
  - intros [[= <- <-] | []]. split; reflexivity.
Qed.

(** X16: [initBond] never leaves the Bond URL empty: it is
    BOND_SERVICE_URL when that is set and not empty, and the built-in
    default otherwise.  In a process it has initialised, every POST of
    [sendJson] goes to that URL followed by the endpoint. *)
Theorem initBond_url (w : World) :
  BondURL (initBond w) <> ""
  /\ (os_Getenv w "BOND_SERVICE_URL" <> "" ->
      BondURL (initBond w) = os_Getenv w "BOND_SERVICE_URL")
  /\ (os_Getenv w "BOND_SERVICE_URL" = "" -> BondURL (initBond w) = defaultBondURL)
  /\ (environ w !! "BOND_SERVICE_URL" = None -> BondURL (initBond w) = defaultBondURL)
  /\ (bondCfg_BondURL w = BondURL (initBond w) ->
      forall endpoint p url o,
        In (EvClientDo url o) (trace_of (sendJson w endpoint p)) ->
        url = (if is_empty (os_Getenv w "BOND_SERVICE_URL") then defaultBondURL
               else os_Getenv w "BOND_SERVICE_URL") +:+ endpoint).
Proof.
  unfold initBond. cbn [BondURL].
  destruct (is_empty (os_Getenv w "BOND_SERVICE_URL")) eqn:Hempty.
  - apply is_empty_true in Hempty.
    split; [discriminate |]. split; [congruence |]. split; [reflexivity |].
    split; [reflexivity |].
    intros Hcfg endpoint p url o Hin.
    destruct (sendJson_url w endpoint p url o Hin) as [-> _]. rewrite Hcfg. reflexivity.
  - apply is_empty_false in Hempty.
    split; [exact Hempty |]. split; [reflexivity |]. split; [congruence |].
    split; [intros Hunset; unfold os_Getenv in Hempty; rewrite Hunset in Hempty;
            destruct Hempty; reflexivity |].
    intros Hcfg endpoint p url o Hin.
    destruct (sendJson_url w endpoint p url o Hin) as [-> _]. rewrite Hcfg. reflexivity.
Qed.

Lemma initBond_url_witness :
  BondURL (initBond (sample_world "CLOUD_SQL_MYSQL" "" [] [] bond_ok)) = defaultBondURL.
Proof.
  apply (initBond_url (sample_world "CLOUD_SQL_MYSQL" "" [] [] bond_ok)).
  reflexivity.
Defined.

(** ** A request that succeeds *)

Lemma connect_and_query_outcome (w : World) (c : pgx_Config) (target : string)
    (rows : list pg_row) :
  pgxpool_ConnectConfig w (mkConfig (ConnString c) (Some target)) = None ->
  pool_Query w (mkConfig (ConnString c) (Some target)) defaultQuery = inr rows ->
  outcome_of (connect_and_query w (Some c) target) =
  drop_counter (outcome_of (pg_rows_loop rows zero_payload 0)).
Proof.
  intros Hconn Hq. unfold connect_and_query.
  rewrite outcome_bind_emit, Hconn, outcome_defer.
  apply DDDPostgresRows_outcome, Hq.
Qed.

Lemma set_Project_DB_fields (r : DDDBondPayload) (proj db : string) :
  set_Project_DB r proj db = mkPayload (MagicCoffee r) (Total r) proj db.
Proof. reflexivity. Qed.

Section Success.
Variable w : World.
Variable info : DBConnectionInfo.
Variable cs : list coffee.
Hypothesis Hinfo : dbConnectionInfo w = (info, None).
Hypothesis Hrequest : http_NewRequest w (verify_url w) = None.
Hypothesis Hbond : forall o, reply_ok (client_Do w (verify_url w) o).

Lemma respond_success (connect : M (DDDBondPayload * option error)) (r : DDDBondPayload) :
  selected_connect w = Some connect ->
  outcome_of connect = Ret (r, None) ->
  outcome_of (dddHandler w) =
  Ret (mkResponse 200
         (JsonBody (json_Marshal
            (mkPayload (MagicCoffee r) (Total r) (cfg_ProjectID w) (os_Getenv w "DB_TYPE"))))).
Proof.
  intros Hsel Hout. rewrite (dddHandler_after_selected w connect _ Hsel Hout).
  cbn [after_connect]. rewrite verify_and_respond_reply_ok by apply Hbond.
  rewrite Hrequest. reflexivity.
Qed.

Lemma mysql_success :
  os_Getenv w "DB_TYPE" = "CLOUD_SQL_MYSQL" ->
  sql_Open w "cloudsql-mysql" (mysql_dsn info) = None ->
  db_Query w (mysql_dsn info) defaultQuery = inr (map to_mysql cs) ->
  outcome_of (dddHandler w) =
  Ret (mkResponse 200
         (JsonBody (json_Marshal
            (mkPayload (last_with_id_51 cs) (wrap_int (sum_prices cs))
               (cfg_ProjectID w) "CLOUD_SQL_MYSQL")))).
Proof.
  intros Htype Hopen Hq.
  destruct (mysql_rows_loop_total cs zero_payload in_int_0) as (r & Hr & Ht).
  destruct (mysql_rows_loop_sentinel (map to_mysql cs) zero_payload)
    as (r' & err & Hr' & Hm & _).
  rewrite Hr in Hr'. injection Hr' as <- <-. rewrite scanned_prefix_typed in Hm.
  rewrite (respond_success (DDDMySQLConnect w) r).
  - rewrite Htype, Hm, Ht. reflexivity.
  - unfold selected_connect. rewrite Htype. reflexivity.
  - rewrite (DDDMySQLConnect_outcome w info _ Hinfo Hopen Hq). exact Hr.
Qed.

Lemma postgres_success (target : string) (connect : M (DDDBondPayload * option error)) :
  selected_connect w = Some connect ->
  outcome_of connect
    = outcome_of (connect_and_query w (Some (mkConfig (pg_dsn info) None)) target) ->
  pgxpool_ConnectConfig w (mkConfig (pg_dsn info) (Some target)) = None ->
  pool_Query w (mkConfig (pg_dsn info) (Some target)) defaultQuery = inr (map to_pg cs) ->
  exists r j,
    pg_aggregate cs = Ret (r, j, None)
    /\ Total r = wrap_int (sum_prices cs)
    /\ outcome_of (dddHandler w) =
       Ret (mkResponse 200
              (JsonBody (json_Marshal
                 (mkPayload (MagicCoffee r) (Total r) (cfg_ProjectID w)
                    (os_Getenv w "DB_TYPE"))))).
Proof.
  intros Hsel Hout Hconn Hq.
  destruct (pg_rows_loop_total cs zero_payload 0 in_int_0) as (r & j & Hr & Ht).
  exists r, j. split; [exact Hr |]. split; [exact Ht |].
  apply (respond_success connect r Hsel).
  rewrite Hout.
  rewrite (connect_and_query_outcome w (mkConfig (pg_dsn info) None) target _ Hconn Hq), Hr.
  reflexivity.
Qed.
End Success.

(** X17: a request in which every outside call succeeds, on well-typed
    rows.  The handler answers 200 with the marshalled aggregate: the total
    is the wrapped sum of the integer parts of the prices that parse, the
    project is [cfg.ProjectID] (not DB_PROJECT) and db is DB_TYPE.  On the
    MySQL backend the sentinel is the name of the last row with id 51; on
    the two Postgres backends it is the sentinel the Postgres loop computes
    for these rows. *)
Theorem request_succeeds (w : World) (info : DBConnectionInfo) (cs : list coffee) :
  dbConnectionInfo w = (info, None) ->
  http_NewRequest w (verify_url w) = None ->
  (forall o, reply_ok (client_Do w (verify_url w) o)) ->
  (os_Getenv w "DB_TYPE" = "CLOUD_SQL_MYSQL" ->
   sql_Open w "cloudsql-mysql" (mysql_dsn info) = None ->
   db_Query w (mysql_dsn info) defaultQuery = inr (map to_mysql cs) ->
   outcome_of (dddHandler w) =
   Ret (mkResponse 200
          (JsonBody (json_Marshal
             (mkPayload (last_with_id_51 cs) (wrap_int (sum_prices cs))
                (cfg_ProjectID w) "CLOUD_SQL_MYSQL")))))
  /\ (os_Getenv w "DB_TYPE" = "CLOUD_SQL_POSTGRES" ->
      pgxpool_ParseConfig w (pg_dsn info) = None ->
      cloudsqlconn_NewDialer w = None ->
      pgxpool_ConnectConfig w (mkConfig (pg_dsn info) (Some (cloudsql_target info))) = None ->
      pool_Query w (mkConfig (pg_dsn info) (Some (cloudsql_target info))) defaultQuery
        = inr (map to_pg cs) ->
      exists r j,
        pg_aggregate cs = Ret (r, j, None)
        /\ Total r = wrap_int (sum_prices cs)
        /\ outcome_of (dddHandler w) =
           Ret (mkResponse 200
                  (JsonBody (json_Marshal
                     (mkPayload (MagicCoffee r) (Total r) (cfg_ProjectID w)
                        "CLOUD_SQL_POSTGRES")))))
  /\ (os_Getenv w "DB_TYPE" = "ALLOY_DB" ->
      pgxpool_ParseConfig w (pg_dsn info) = None ->
      alloydbconn_NewDialer w = None ->
      DBCluster info <> "" ->
      pgxpool_ConnectConfig w (mkConfig (pg_dsn info) (Some (alloy_target info))) = None ->
      pool_Query w (mkConfig (pg_dsn info) (Some (alloy_target info))) defaultQuery
        = inr (map to_pg cs) ->
      exists r j,
        pg_aggregate cs = Ret (r, j, None)
        /\ Total r = wrap_int (sum_prices cs)
        /\ outcome_of (dddHandler w) =
           Ret (mkResponse 200
                  (JsonBody (json_Marshal
                     (mkPayload (MagicCoffee r) (Total r) (cfg_ProjectID w) "ALLOY_DB"))))).
Proof.
  intros Hinfo Hrequest Hbond. split; [| split].
  - apply (mysql_success w info cs Hinfo Hrequest Hbond).
  - intros Htype Hparse Hdial Hconn Hq.
    destruct (postgres_success w info cs Hrequest Hbond (cloudsql_target info)
                (DDDPostgresConnect w)) as (r & j & Hr & Ht & Hout);
      [unfold selected_connect; rewrite Htype; reflexivity
      | rewrite (DDDPostgresConnect_run w info Hinfo Hparse Hdial); reflexivity
      | exact Hconn | exact Hq |].
    exists r, j. rewrite Htype in Hout. auto.
  - intros Htype Hparse Hdial Hcluster Hconn Hq.
    destruct (postgres_success w info cs Hrequest Hbond (alloy_target info)
                (DDDAlloyConnect w)) as (r & j & Hr & Ht & Hout);
      [unfold selected_connect; rewrite Htype; reflexivity
      | rewrite (DDDAlloyConnect_run w info Hinfo Hparse Hdial Hcluster); reflexivity
      | exact Hconn | exact Hq |].
    exists r, j. rewrite Htype in Hout. auto.
Qed.

Lemma request_succeeds_witness :
  outcome_of (dddHandler
    (sample_world "CLOUD_SQL_MYSQL" "" [] (map to_mysql rows_from_one) bond_ok)) =
  Ret (mkResponse 200
         (JsonBody [("magic_coffee", JString "Kona"); ("total", JInt 156);
                    ("project", JString "cymbal-project");
                    ("db", JString "CLOUD_SQL_MYSQL")])).
Proof.
  refine (proj1 (request_succeeds
            (sample_world "CLOUD_SQL_MYSQL" "" [] (map to_mysql rows_from_one) bond_ok)
            (dbConnectionInfo (sample_world "CLOUD_SQL_MYSQL" "" [] [] bond_ok)).1
            rows_from_one _ _ _) _ _ _).
  - reflexivity.
  - reflexivity.
  - intros o. cbn. lia.
  - reflexivity.
  - reflexivity.
  - reflexivity.
Defined.

(** ** Two more sample runs *)

Lemma dddHandler_posts_once_witness :
  In (EvClientDo "https://bond.example/v1/data_driven_decaf/verify"
        [("project", JString "cymbal-project"); ("db", JString "CLOUD_SQL_MYSQL")])
     (trace_of (dddHandler (sample_world "CLOUD_SQL_MYSQL" "" [] [] bond_ok))).
Proof.
  apply (proj2 (proj2 (dddHandler_posts_once
                         (sample_world "CLOUD_SQL_MYSQL" "" [] [] bond_ok)))
           (mkResponse 200 (JsonBody [("project", JString "cymbal-project");
                                      ("db", JString "CLOUD_SQL_MYSQL")]))).
  - reflexivity.
  - reflexivity.
Defined.

Lemma mysql_path_always_answers_witness :
  exists resp,
    outcome_of (dddHandler
      (sample_world "CLOUD_SQL_MYSQL" "" [] [ScanFails "bad row"] bond_503)) = Ret resp.
Proof.
  apply (mysql_path_always_answers
           (sample_world "CLOUD_SQL_MYSQL" "" [] [ScanFails "bad row"] bond_503));
    vm_compute; discriminate.
Defined.
